(** * sqlgen: Redshift DDL/DML generation and SQL validation

    A shallow embedding of the three generator scripts of the repository:

    - [sqlcodegen.py]: the pandas generator (module [Pandas] below);
    - [sqlgencli_v1.py] and [sqlgencli_v2.py]: the Polars/Jinja2 generator
      (module [Polars] below; the two files have the same generator class
      and validator, v2 only adds the command-line commands).

    Conventions of the embedding.

    - A spreadsheet cell is a [cell]: empty ([CNull], pandas' NaN / Polars'
      None), text, integer or boolean.  Floating-point cells are not part of
      the model.
    - Text is ASCII: [string] holds one character per code point.
    - Columns the scripts read with [row['name']] in every run are record
      fields of type [string] or [Z]; columns read through [row.get] or behind
      a [pd.notna] test are [cell]s.  The former are the fields the
      specification's entities hold without the word optional; a sheet
      with an empty or non-text cell in one of them is outside the model,
      and no theorem says that a script comes to its end on such a
      sheet.
    - [print] / [console.print] output is not modelled; writing a file
      always succeeds; reading a file fails exactly when it does not exist.
    - [sort_values] / [sort] are modelled by a merge sort; the theorems about
      sorted frames only use that the result is an ordered permutation.
    - The SQL templates are transcribed line by line from the sources, with
      the line-comment marker written as two ASCII minus signs. *)

From Stdlib Require Import ZArith Ascii String.
From stdpp Require Import base strings list gmap pretty sorting.

Open Scope string_scope.
Open Scope list_scope.

(** ** Python built-ins on text *)

Module Py.

(** [str.isspace] on one ASCII character: tab, line feed, vertical tab,
    form feed, carriage return, the four separators 28..31 and space. *)
Definition isspace (c : ascii) : bool :=
  let n := N_of_ascii c in
  ((9 <=? n) && (n <=? 13) || (28 <=? n) && (n <=? 32))%N.

Fixpoint lstrip (s : string) : string :=
  match s with
  | EmptyString => EmptyString
  | String c s' => if isspace c then lstrip s' else s
  end.

Fixpoint rstrip (s : string) : string :=
  match s with
  | EmptyString => EmptyString
  | String c s' =>
      match rstrip s' with
      | EmptyString => if isspace c then EmptyString else String c EmptyString
      | r => String c r
      end
  end.

(** [s.strip()] *)
Definition strip (s : string) : string := lstrip (rstrip s).

(** [s.split(sep)] for a one-character separator. *)
Fixpoint split (sep : ascii) (s : string) : list string :=
  match s with
  | EmptyString => [EmptyString]
  | String c s' =>
      if Ascii.eqb c sep then EmptyString :: split sep s'
      else match split sep s' with
           | [] => [String c EmptyString]
           | w :: ws => String c w :: ws
           end
  end.

(** [s.startswith(p)] *)
Definition startswith (p s : string) : bool := String.prefix p s.

(** [len(s)] *)
Definition len (s : string) : nat := String.length s.

(** [sep.join(l)] *)
Definition join (sep : string) (l : list string) : string :=
  String.concat sep l.

(** [s[:n]] *)
Definition slice_to (n : nat) (s : string) : string := String.substring 0 n s.

(** [c * n] for a one-character string [c]. *)
Fixpoint repeat_char (c : ascii) (n : nat) : string :=
  match n with
  | O => EmptyString
  | S n' => String c (repeat_char c n')
  end.

Definition upper_char (c : ascii) : ascii :=
  let n := N_of_ascii c in
  if ((97 <=? n) && (n <=? 122))%N then ascii_of_N (n - 32) else c.

(** [s.upper()] *)
Fixpoint upper (s : string) : string :=
  match s with
  | EmptyString => EmptyString
  | String c s' => String (upper_char c) (upper s')
  end.

(** [s.replace("'", "''")] *)
Fixpoint double_quotes (s : string) : string :=
  match s with
  | EmptyString => EmptyString
  | String c s' =>
      if Ascii.eqb c "'"%char then String c (String c (double_quotes s'))
      else String c (double_quotes s')
  end.

(** [bool(s)] for text: non-empty. *)
Definition nonempty (s : string) : bool :=
  match s with EmptyString => false | _ => true end.

(** [pd.Series.unique] / order of first appearance. *)
Definition unique {A} `{EqDecision A} (l : list A) : list A :=
  reverse (remove_dups (reverse l)).

End Py.

(** ** Cells *)

Inductive cell :=
| CNull
| CStr (s : string)
| CInt (n : Z)
| CBool (b : bool).

Global Instance cell_eq_dec : EqDecision cell.
Proof. solve_decision. Defined.

(** [pd.notna(x)] / [x is not None] *)
Definition notna (c : cell) : bool :=
  match c with CNull => false | _ => true end.

(** Python truth value of a cell ([if x:]); an empty cell is false. *)
Definition truthy (c : cell) : bool :=
  match c with
  | CNull => false
  | CStr s => Py.nonempty s
  | CInt n => negb (n =? 0)%Z
  | CBool b => b
  end.

(** [isinstance(x, str)] *)
Definition is_str (c : cell) : bool :=
  match c with CStr _ => true | _ => false end.

(** [str(x)] of a non-empty cell; [null] is the text of an empty cell
    (["nan"] under pandas, ["None"] under Polars). *)
Definition py_str (null : string) (c : cell) : string :=
  match c with
  | CNull => null
  | CStr s => s
  | CInt n => pretty n
  | CBool true => "True"
  | CBool false => "False"
  end.

(** [x == 'text'] for a cell [x]. *)
Definition cell_eq_str (c : cell) (s : string) : bool :=
  match c with CStr t => String.eqb t s | _ => false end.

(** ** Exceptions and outcomes *)

Inductive exn :=
| AttributeError (msg : string)
| TypeError (msg : string)
| IndexError (msg : string)
| FileNotFoundError (msg : string)
| ColumnNotFoundError (msg : string).

Inductive outcome (A : Type) :=
| Returned (a : A)
| Raised (e : exn).
Arguments Returned {A} a.
Arguments Raised {A} e.

Global Instance outcome_ret : MRet outcome := fun _ a => Returned a.

Global Instance outcome_bind : MBind outcome := fun _ _ k m =>
  match m with
  | Returned a => k a
  | Raised e => Raised e
  end.

(** [str(e)] *)
Definition exn_text (e : exn) : string :=
  match e with
  | AttributeError m | TypeError m | IndexError m
  | FileNotFoundError m | ColumnNotFoundError m => m
  end.

(** [x.upper()] on a cell: text has the method, other values do not. *)
Definition cell_upper (c : cell) : outcome string :=
  match c with
  | CStr s => Returned (Py.upper s)
  | CNull => Raised (AttributeError "'float' object has no attribute 'upper'")
  | CInt _ => Raised (AttributeError "'int' object has no attribute 'upper'")
  | CBool _ => Raised (AttributeError "'bool' object has no attribute 'upper'")
  end.

(** [x.replace("'", "''")] on a cell. *)
Definition cell_double_quotes (c : cell) : outcome string :=
  match c with
  | CStr s => Returned (Py.double_quotes s)
  | CNull => Raised (AttributeError "'float' object has no attribute 'replace'")
  | CInt _ => Raised (AttributeError "'int' object has no attribute 'replace'")
  | CBool _ => Raised (AttributeError "'bool' object has no attribute 'replace'")
  end.

(** A Python [for] loop whose body may raise. *)
Fixpoint for_each {A S : Type} (body : S -> A -> outcome S) (l : list A) (s : S)
  : outcome S :=
  match l with
  | [] => Returned s
  | x :: l' => s' ← body s x; for_each body l' s'
  end.

(** [enumerate(l, start)] *)
Fixpoint enumerate {A : Type} (start : nat) (l : list A) : list (nat * A) :=
  match l with
  | [] => []
  | x :: l' => (start, x) :: enumerate (S start) l'
  end.

Definition nl : string := String (ascii_of_nat 10) EmptyString.

(** ** Metadata model *)

(** A data frame: the names of the columns the sheet has, and its rows.
    A cell field of a row whose column is missing from the sheet is
    [CNull]. *)
Record frame (R : Type) := Frame { columns : list string; rows : list R }.
Arguments Frame {R} columns rows.
Arguments columns {R} f.
Arguments rows {R} f.

(** [df[mask]] *)
Definition select {R} (P : R -> bool) (df : frame R) : frame R :=
  Frame (columns df) (List.filter P (rows df)).

(** Ascending order on a numeric key column. *)
Definition le_by {R} (key : R -> Z) : relation R :=
  fun a b => (key a <= key b)%Z.

Global Instance le_by_dec {R} (key : R -> Z) : RelDecision (le_by key).
Proof. intros a b. unfold le_by. apply _. Defined.

(** [df.sort_values(key)] / [df.sort(key)] *)
Definition sort_by {R} (key : R -> Z) (df : frame R) : frame R :=
  Frame (columns df) (merge_sort (le_by key) (rows df)).

(** ['name' in df.columns] *)
Definition has_column {R} (name : string) (df : frame R) : bool :=
  bool_decide (name ∈ columns df).

Record TableDefinition := {
  tbl_schema_name : string;
  tbl_table_name : string;
  description : cell;
  primary_key : cell;
  dist_style : cell;
  dist_key : cell;
  sort_keys : cell;
  sort_type : cell
}.

Record ColumnDefinition := {
  col_schema_name : string;
  col_table_name : string;
  column_name : string;
  column_order : Z;
  data_type : string;
  not_null : cell;
  default_value : cell;
  encode : cell
}.

Record ColumnMapping := {
  target_schema : string;
  target_table : string;
  target_column : string;
  target_column_order : Z;
  source_schema : string;
  source_table : string;
  source_column : cell;
  transformation : cell;
  constant_value : cell;
  is_business_key : cell;
  scd_type : cell
}.

(** The file system: path to content. *)
Abbreviation filesystem := (gmap string string).

(** The outcome of [sqlglot.parse_one] on one statement. *)
Inductive parse_outcome :=
| Parsed
| ParseError (msg : string).

(** ** The pandas generator ([sqlcodegen.py]) *)

Module Pandas.

(** [str(x)]; an empty pandas cell is the float NaN. *)
Definition str : cell -> string := py_str "nan".

(** The attributes of [RedshiftSQLGenerator] that the generation and
    validation methods use. *)
Record generator := Generator {
  tables_df : option (frame TableDefinition);
  columns_df : option (frame ColumnDefinition);
  mappings_df : option (frame ColumnMapping);
  errors : list string
}.

(** [self.errors = errs] *)
Definition set_errors (self : generator) (errs : list string) : generator :=
  Generator (tables_df self) (columns_df self) (mappings_df self) errs.

(** [self.errors.append(msg)] *)
Definition add_error (self : generator) (msg : string) : generator :=
  set_errors self (errors self ++ [msg]).

(** The banner's separator line: ["-- " + "="*70 + "\n"]. *)
Definition banner_rule : string :=
  "-- " +:+ Py.repeat_char "="%char 70 +:+ nl.

(** *** [generate_ddl] *)

(** One entry of [col_defs]. *)
Definition col_def (col : ColumnDefinition) : string :=
  let col_def := "    " +:+ column_name col +:+ " " +:+ data_type col in
  let col_def :=
    if notna (not_null col) && truthy (not_null col)
    then col_def +:+ " NOT NULL" else col_def in
  let col_def :=
    if notna (default_value col)
    then col_def +:+ " DEFAULT " +:+ str (default_value col) else col_def in
  let col_def :=
    if notna (encode col)
    then col_def +:+ " ENCODE " +:+ str (encode col) else col_def in
  col_def.

(** [table.get('sort_type', 'COMPOUND')]: the default is taken only when
    the Tables sheet has no [sort_type] column. *)
Definition get_sort_type (tables : frame TableDefinition)
  (table : TableDefinition) : cell :=
  if has_column "sort_type" tables then sort_type table else CStr "COMPOUND".

(** The distribution entry of [table_props]. *)
Definition dist_props (table : TableDefinition) : outcome (list string) :=
  if notna (dist_style table) then
    style ← cell_upper (dist_style table);
    if String.eqb style "KEY" && notna (dist_key table)
    then mret ["DISTKEY(" +:+ str (dist_key table) +:+ ")"]
    else style' ← cell_upper (dist_style table);
         mret ["DISTSTYLE " +:+ style']
  else mret [].

(** The sort-key entry of [table_props]. *)
Definition sort_props (tables : frame TableDefinition)
  (table : TableDefinition) : outcome (list string) :=
  if notna (sort_keys table) then
    sort_type ← cell_upper (get_sort_type tables table);
    mret [sort_type +:+ " SORTKEY(" +:+ str (sort_keys table) +:+ ")"]
  else mret [].

Definition table_props (tables : frame TableDefinition)
  (table : TableDefinition) : outcome (list string) :=
  dist ← dist_props table;
  sort ← sort_props tables table;
  mret (dist ++ sort).

(** The CREATE TABLE statement of a table with the given (sorted,
    non-empty) columns. *)
Definition create_table (tables : frame TableDefinition)
  (table : TableDefinition) (table_columns : list ColumnDefinition)
  : outcome string :=
  let full_table := tbl_schema_name table +:+ "." +:+ tbl_table_name table in
  let create_stmt := ["CREATE TABLE " +:+ full_table +:+ " ("] in
  let col_defs := map col_def table_columns in
  let create_stmt := create_stmt ++ [Py.join ("," +:+ nl) col_defs] in
  let create_stmt :=
    if notna (primary_key table)
    then create_stmt ++
           ["," +:+ nl +:+ "    PRIMARY KEY (" +:+ str (primary_key table) +:+ ")"]
    else create_stmt in
  let create_stmt := create_stmt ++ [")"] in
  table_props ← table_props tables table;
  let create_stmt :=
    match table_props with
    | [] => create_stmt
    | _ => create_stmt ++ [nl +:+ Py.join nl table_props]
    end in
  let create_stmt := create_stmt ++ [";"] in
  mret (Py.join nl create_stmt).

(** [columns_df[(schema_name == schema) & (table_name == table_name)]
      .sort_values('column_order')] *)
Definition columns_of (columns : frame ColumnDefinition)
  (schema table_name : string) : frame ColumnDefinition :=
  sort_by column_order
    (select (fun c => String.eqb (col_schema_name c) schema
                      && String.eqb (col_table_name c) table_name) columns).

Definition table_comment (full_table : string) : string :=
  nl +:+ "-- Table: " +:+ full_table.

Definition drop_statement (full_table : string) : string :=
  "DROP TABLE IF EXISTS " +:+ full_table +:+ " CASCADE;".

Definition no_columns_error (full_table : string) : string :=
  "No columns defined for " +:+ full_table.

(** The body of the loop over [tables_df.iterrows()]; the loop state is
    [(ddl_scripts, self.errors)]. *)
Definition ddl_table (columns : frame ColumnDefinition)
  (tables : frame TableDefinition)
  (st : list string * list string) (table : TableDefinition)
  : outcome (list string * list string) :=
  let '(ddl_scripts, errs) := st in
  let schema := tbl_schema_name table in
  let table_name := tbl_table_name table in
  let full_table := schema +:+ "." +:+ table_name in
  let ddl_scripts := ddl_scripts ++ [table_comment full_table] in
  let ddl_scripts := ddl_scripts ++ [drop_statement full_table] in
  let table_columns := columns_of columns schema table_name in
  match rows table_columns with
  | [] => mret (ddl_scripts, errs ++ [no_columns_error full_table])
  | _ =>
      create_stmt ← create_table tables table (rows table_columns);
      let ddl_scripts := ddl_scripts ++ [create_stmt] in
      if notna (description table) then
        comment ← cell_double_quotes (description table);
        mret (ddl_scripts ++
                ["COMMENT ON TABLE " +:+ full_table +:+ " IS '" +:+ comment
                   +:+ "';"], errs)
      else mret (ddl_scripts, errs)
  end.

Definition ddl_banner (now : string) : list string :=
  ["-- AWS Redshift DDL Scripts"; "-- Generated on: " +:+ now; banner_rule].

(** [generate_ddl(self, output_file)]; [now] is the formatted time of the
    call.  The result is the returned flag, the generator and the file
    system after the call. *)
Definition generate_ddl (now : string) (self : generator) (fs : filesystem)
  (output_file : string) : outcome (bool * generator * filesystem) :=
  match tables_df self, columns_df self with
  | Some tables, Some columns =>
      st ← for_each (ddl_table columns tables) (rows tables)
             (ddl_banner now, errors self);
      let ddl_content := Py.join nl st.1 in
      mret (true, set_errors self st.2, <[output_file := ddl_content]> fs)
  | _, _ =>
      mret (false,
            add_error self "Data not loaded. Call load_definitions() first",
            fs)
  end.

(** *** [generate_dml] *)

(** [series.iloc[0]] *)
Definition iloc0 {R} (l : list R) : outcome R :=
  match l with
  | r :: _ => Returned r
  | [] => Raised (IndexError "single positional indexer is out-of-bounds")
  end.

(** [f"{mappings['source_schema'].iloc[0]}.{mappings['source_table'].iloc[0]}"] *)
Definition source_table_of (mappings : frame ColumnMapping) : outcome string :=
  first ← iloc0 (rows mappings);
  mret (source_schema first +:+ "." +:+ source_table first).

(** [pd.notna(row.get('is_business_key')) and row['is_business_key']] *)
Definition business_key (row : ColumnMapping) : bool :=
  notna (is_business_key row) && truthy (is_business_key row).

(** The source expression of a row in [_generate_type1_load]; the value of
    the Python variable [source_expr], which is the cell itself on the
    first branch and text on the others. *)
Definition type1_source_expr (row : ColumnMapping) : cell :=
  if notna (transformation row) then transformation row
  else if notna (source_column row) then
    CStr ("src." +:+ str (source_column row))
  else if notna (constant_value row) then
    let const_val := constant_value row in
    if is_str const_val then CStr ("'" +:+ str const_val +:+ "'")
    else CStr (str const_val)
  else CStr "NULL".

(** The lists [_generate_type1_load] fills in its loop. *)
Record type1_lists := Type1Lists {
  t1_target_cols : list string;
  t1_source_exprs : list string;
  t1_update_sets : list string;
  t1_business_keys : list string
}.

Definition type1_row (acc : type1_lists) (row : ColumnMapping) : type1_lists :=
  let target_col := target_column row in
  let target_cols := t1_target_cols acc ++ [target_col] in
  let source_expr := type1_source_expr row in
  let source_exprs :=
    t1_source_exprs acc ++ [str source_expr +:+ " AS " +:+ target_col] in
  if business_key row then
    Type1Lists target_cols source_exprs (t1_update_sets acc)
      (t1_business_keys acc ++ [target_col])
  else
    Type1Lists target_cols source_exprs
      (t1_update_sets acc ++
         ["    tgt." +:+ target_col +:+ " = src." +:+ target_col])
      (t1_business_keys acc).

(** [' AND '.join([f'tgt.{k} = src.{k}' for k in business_keys])] *)
Definition business_key_join (business_keys : list string) : string :=
  Py.join " AND " (map (fun k => "tgt." +:+ k +:+ " = src." +:+ k) business_keys).

(** The f-string of [_generate_type1_load]. *)
Definition merge_sql (target_table source_table : string) (l : type1_lists)
  : string :=
  Py.join nl [
    EmptyString;
    EmptyString;
    "-- SCD Type 1: Update existing, Insert new";
    "BEGIN TRANSACTION;";
    EmptyString;
    "MERGE INTO " +:+ target_table +:+ " AS tgt";
    "USING (";
    "SELECT";
    Py.join ("," +:+ nl +:+ "        ") (t1_source_exprs l);
    "FROM " +:+ source_table;
    "WHERE 1=1  -- Add incremental filter here";
    ") AS src";
    "ON " +:+ business_key_join (t1_business_keys l);
    "WHEN MATCHED THEN";
    "UPDATE SET";
    Py.join ("," +:+ nl) (t1_update_sets l) +:+ ",";
    "tgt.updated_date = GETDATE()";
    "WHEN NOT MATCHED THEN";
    "INSERT (" +:+ Py.join ", " (t1_target_cols l)
      +:+ ", created_date, updated_date)";
    "VALUES (" +:+ Py.join ", " (map (fun c => "src." +:+ c) (t1_target_cols l))
      +:+ ", GETDATE(), GETDATE());";
    EmptyString;
    "COMMIT;";
    EmptyString
  ].

(** The loop over [mappings.iterrows()]. *)
Definition type1_loop (mappings : frame ColumnMapping) : type1_lists :=
  fold_left type1_row (rows mappings) (Type1Lists [] [] [] []).

Definition _generate_type1_load (mappings : frame ColumnMapping)
  (target_table : string) : outcome string :=
  source_table ← source_table_of mappings;
  mret (merge_sql target_table source_table (type1_loop mappings)).

(** The source expression of a row in [_generate_type2_load]. *)
Definition type2_source_expr (row : ColumnMapping) : cell :=
  if notna (transformation row) then transformation row
  else if notna (source_column row) then
    CStr ("src." +:+ str (source_column row))
  else if notna (constant_value row) then
    let const_val := constant_value row in
    if is_str const_val then CStr ("'" +:+ str const_val +:+ "'")
    else CStr (str const_val)
  else CStr "NULL".

Record type2_lists := Type2Lists {
  t2_target_cols : list string;
  t2_source_exprs : list string;
  t2_business_keys : list string;
  t2_compare_cols : list string
}.

Definition type2_row (acc : type2_lists) (row : ColumnMapping) : type2_lists :=
  let target_col := target_column row in
  let target_cols := t2_target_cols acc ++ [target_col] in
  let source_expr := type2_source_expr row in
  let source_exprs :=
    t2_source_exprs acc ++ [str source_expr +:+ " AS " +:+ target_col] in
  if business_key row then
    Type2Lists target_cols source_exprs
      (t2_business_keys acc ++ [target_col]) (t2_compare_cols acc)
  else
    Type2Lists target_cols source_exprs
      (t2_business_keys acc) (t2_compare_cols acc ++ [target_col]).

(** One null-safe inequality test of the change check. *)
Definition change_test (c : string) : string :=
  "NVL(tgt." +:+ c +:+ ", 'NULL') <> NVL(src." +:+ c +:+ ", 'NULL')".

(** [' OR '.join([... for c in compare_cols[:5]])] *)
Definition change_check (compare_cols : list string) : string :=
  Py.join " OR " (map change_test (take 5 compare_cols)).

(** The f-string of [_generate_type2_load]. *)
Definition type2_sql (target_table source_table : string) (l : type2_lists)
  : string :=
  let key_join := business_key_join (t2_business_keys l) in
  let change_check := change_check (t2_compare_cols l) in
  Py.join nl [
    EmptyString;
    EmptyString;
    "-- SCD Type 2: Track history with effective dates";
    "BEGIN TRANSACTION;";
    EmptyString;
    "-- Expire changed records";
    "UPDATE " +:+ target_table +:+ " AS tgt";
    "SET";
    "tgt.effective_end_date = DATEADD(day, -1, GETDATE()),";
    "tgt.is_current = FALSE,";
    "tgt.updated_date = GETDATE()";
    "FROM (";
    "SELECT " +:+ Py.join ", " (map (fun k => "src." +:+ k) (t2_business_keys l));
    "FROM " +:+ source_table +:+ " AS src";
    ") AS src";
    "WHERE tgt.is_current = TRUE";
    "AND " +:+ key_join;
    "AND (" +:+ change_check +:+ ");";
    EmptyString;
    "-- Insert new versions";
    "INSERT INTO " +:+ target_table +:+ " (";
    Py.join ", " (t2_target_cols l) +:+ ",";
    "effective_start_date,";
    "effective_end_date,";
    "is_current,";
    "created_date";
    ")";
    "SELECT";
    Py.join ("," +:+ nl +:+ "    ") (t2_source_exprs l) +:+ ",";
    "GETDATE() AS effective_start_date,";
    "'9999-12-31'::DATE AS effective_end_date,";
    "TRUE AS is_current,";
    "GETDATE() AS created_date";
    "FROM " +:+ source_table +:+ " AS src";
    "WHERE NOT EXISTS (";
    "SELECT 1 FROM " +:+ target_table +:+ " AS tgt";
    "WHERE tgt.is_current = TRUE";
    "AND " +:+ key_join;
    ")";
    "OR EXISTS (";
    "SELECT 1 FROM " +:+ target_table +:+ " AS tgt";
    "WHERE tgt.is_current = TRUE";
    "AND " +:+ key_join;
    "AND (" +:+ change_check +:+ ")";
    ");";
    EmptyString;
    "COMMIT;";
    EmptyString
  ].

Definition type2_loop (mappings : frame ColumnMapping) : type2_lists :=
  fold_left type2_row (rows mappings) (Type2Lists [] [] [] []).

Definition _generate_type2_load (mappings : frame ColumnMapping)
  (target_table : string) : outcome string :=
  source_table ← source_table_of mappings;
  mret (type2_sql target_table source_table (type2_loop mappings)).

(** The source expression of a row in [_generate_insert_load]: the source
    column is taken as it is. *)
Definition insert_source_expr (row : ColumnMapping) : cell :=
  if notna (transformation row) then transformation row
  else if notna (source_column row) then source_column row
  else if notna (constant_value row) then
    let const_val := constant_value row in
    if is_str const_val then CStr ("'" +:+ str const_val +:+ "'")
    else CStr (str const_val)
  else CStr "NULL".

Record insert_lists := InsertLists {
  ins_target_cols : list string;
  ins_source_exprs : list cell
}.

Definition insert_row (acc : insert_lists) (row : ColumnMapping) : insert_lists :=
  let target_col := target_column row in
  InsertLists (ins_target_cols acc ++ [target_col])
    (ins_source_exprs acc ++ [insert_source_expr row]).

(** [type(x).__name__] *)
Definition type_name (c : cell) : string :=
  match c with
  | CNull => "float"
  | CStr _ => "str"
  | CInt _ => "int"
  | CBool _ => "bool"
  end.

(** The items of a [str.join] argument: every item must be text. *)
Fixpoint join_items (i : nat) (l : list cell) : outcome (list string) :=
  match l with
  | [] => Returned []
  | CStr s :: l' => rest ← join_items (S i) l'; mret (s :: rest)
  | c :: _ =>
      Raised (TypeError ("sequence item " +:+ pretty i
                           +:+ ": expected str instance, "
                           +:+ type_name c +:+ " found"))
  end.

(** [sep.join(l)] on a list of Python values. *)
Definition join_cells (sep : string) (l : list cell) : outcome string :=
  items ← join_items 0 l; mret (Py.join sep items).

(** The f-string of [_generate_insert_load]. *)
Definition insert_sql (target_table source_table : string) (l : insert_lists)
  : outcome string :=
  exprs ← join_cells ("," +:+ nl +:+ "    ") (ins_source_exprs l);
  mret (Py.join nl [
    EmptyString;
    EmptyString;
    "-- Insert load";
    "INSERT INTO " +:+ target_table +:+ " (";
    Py.join ", " (ins_target_cols l);
    ")";
    "SELECT";
    exprs;
    "FROM " +:+ source_table;
    "WHERE 1=1;  -- Add filter conditions here";
    EmptyString
  ]).

Definition insert_loop (mappings : frame ColumnMapping) : insert_lists :=
  fold_left insert_row (rows mappings) (InsertLists [] []).

Definition _generate_insert_load (mappings : frame ColumnMapping)
  (target_table : string) : outcome string :=
  source_table ← source_table_of mappings;
  insert_sql target_table source_table (insert_loop mappings).

(** [mappings_df[mappings_df['target_table'] == target_table]] *)
Definition rows_of_target (mappings : frame ColumnMapping)
  (target : string) : frame ColumnMapping :=
  select (fun r => String.eqb (target_table r) target) mappings.

(** [table_mappings['scd_type'].iloc[0] if 'scd_type' in
    table_mappings.columns else 'TYPE1'] *)
Definition governing_scd_type (table_mappings : frame ColumnMapping)
  : outcome cell :=
  if has_column "scd_type" table_mappings then
    first ← iloc0 (rows table_mappings); mret (scd_type first)
  else mret (CStr "TYPE1").

(** The [if scd_type == 'TYPE1' ... elif ... else] of [generate_dml]. *)
Definition load_script (scd_type : cell) (table_mappings : frame ColumnMapping)
  (full_target : string) : outcome string :=
  if cell_eq_str scd_type "TYPE1" then
    _generate_type1_load table_mappings full_target
  else if cell_eq_str scd_type "TYPE2" then
    _generate_type2_load table_mappings full_target
  else
    _generate_insert_load table_mappings full_target.

(** The two comment lines that open a load block. *)
Definition load_comment (full_target : string) (scd_type : cell) : string :=
  nl +:+ "-- Load: " +:+ full_target +:+ " (SCD " +:+ str scd_type +:+ ")".

Definition load_rule : string := "-- " +:+ Py.repeat_char "-"%char 70.

(** The body of the loop over [mappings_df['target_table'].unique()]. *)
Definition dml_table (mappings : frame ColumnMapping)
  (dml_scripts : list string) (target : string) : outcome (list string) :=
  first ← iloc0 (rows (rows_of_target mappings target));
  let target_schema := target_schema first in
  let full_target := target_schema +:+ "." +:+ target in
  let table_mappings :=
    sort_by target_column_order (rows_of_target mappings target) in
  scd_type ← governing_scd_type table_mappings;
  let dml_scripts := dml_scripts ++ [load_comment full_target scd_type] in
  let dml_scripts := dml_scripts ++ [load_rule] in
  script ← load_script scd_type table_mappings full_target;
  mret (dml_scripts ++ [script]).

Definition dml_banner (now : string) : list string :=
  ["-- AWS Redshift DML Scripts (Incremental Load)";
   "-- Generated on: " +:+ now; banner_rule].

(** The targets [generate_dml] loops over. *)
Definition targets (mappings : frame ColumnMapping) : list string :=
  Py.unique (map target_table (rows mappings)).

(** [generate_dml(self, output_file)] *)
Definition generate_dml (now : string) (self : generator) (fs : filesystem)
  (output_file : string) : outcome (bool * generator * filesystem) :=
  match mappings_df self with
  | Some mappings =>
      dml_scripts ← for_each (dml_table mappings) (targets mappings)
                      (dml_banner now);
      let dml_content := Py.join nl dml_scripts in
      mret (true, self, <[output_file := dml_content]> fs)
  | None =>
      mret (false,
            add_error self "Mappings not loaded. Call load_definitions() first",
            fs)
  end.

(** *** [validate_sql] *)

(** [sql_content.split(';')], kept when the stripped fragment is non-empty
    and does not start with the comment marker, and stripped. *)
Definition statements (sql_content : string) : list string :=
  map Py.strip
    (List.filter
       (fun s => Py.nonempty (Py.strip s)
                 && negb (Py.startswith "--" (Py.strip s)))
       (Py.split ";"%char sql_content)).

(** The loop state of [validate_sql]: the two counters, [self.errors], and
    the statements handed to [parse_one] so far. *)
Record validation := Validation {
  valid_count : nat;
  error_count : nat;
  val_errors : list string;
  parser_calls : list string
}.

Definition validation_error (i : nat) (msg : string) : string :=
  "Statement " +:+ pretty i +:+ " validation error: " +:+ Py.slice_to 100 msg.

Section Validator.

(** [parse_one(stmt, dialect='redshift')] *)
Variable parse_one : string -> parse_outcome.

(** The body of the loop over [enumerate(statements, 1)]. *)
Definition validate_statement (st : validation) (entry : nat * string)
  : validation :=
  let '(i, stmt) := entry in
  if negb (Py.nonempty stmt) || (Py.len stmt <? 10)%nat then st
  else
    match parse_one stmt with
    | Parsed =>
        Validation (valid_count st + 1) (error_count st) (val_errors st)
          (parser_calls st ++ [stmt])
    | ParseError e =>
        Validation (valid_count st) (error_count st + 1)
          (val_errors st ++ [validation_error i e])
          (parser_calls st ++ [stmt])
    end.

(** The [try] body of [validate_sql] after the file has been read. *)
Definition validate_content (errs : list string) (sql_content : string)
  : validation :=
  fold_left validate_statement (enumerate 1 (statements sql_content))
    (Validation 0 0 errs []).

(** [open(sql_file, 'r')] *)
Definition read_file (fs : filesystem) (sql_file : string) : outcome string :=
  match fs !! sql_file with
  | Some content => Returned content
  | None =>
      Raised (FileNotFoundError
                ("[Errno 2] No such file or directory: '" +:+ sql_file +:+ "'"))
  end.

(** [validate_sql(self, sql_file)]: the returned flag, the generator and
    the file system after the call. *)
Definition validate_sql (self : generator) (fs : filesystem) (sql_file : string)
  : bool * generator * filesystem :=
  match read_file fs sql_file with
  | Returned sql_content =>
      let st := validate_content (errors self) sql_content in
      ((error_count st =? 0)%nat, set_errors self (val_errors st), fs)
  | Raised e =>
      (false, add_error self ("Validation error: " +:+ exn_text e), fs)
  end.

End Validator.

(** *** [load_definitions] and the script's main block *)

Section Main.

(** [pd.read_excel(path, sheet_name='Tables')] and its two siblings: what
    reading a sheet of a workbook gives. *)
Variable read_tables : string -> outcome (frame TableDefinition).
Variable read_columns : string -> outcome (frame ColumnDefinition).
Variable read_mappings : string -> outcome (frame ColumnMapping).

Variable parse_one : string -> parse_outcome.

(** [create_sample_excel_files()]: it writes the two workbooks, which the
    model sees through the three reads above, or raises. *)
Variable create_sample_excel_files : outcome unit.

Definition load_error (e : exn) : string :=
  "Error loading Excel files: " +:+ exn_text e.

(** [load_definitions(self)]; [self.table_def_file] and
    [self.mapping_file] are given as arguments.  The three assignments are
    made one after the other, so a frame read before a failing read stays
    set. *)
Definition load_definitions (self : generator)
  (table_def_file mapping_file : string) : bool * generator :=
  match read_tables table_def_file with
  | Raised e => (false, add_error self (load_error e))
  | Returned tables =>
      let self :=
        Generator (Some tables) (columns_df self) (mappings_df self)
          (errors self) in
      match read_columns table_def_file with
      | Raised e => (false, add_error self (load_error e))
      | Returned columns =>
          let self :=
            Generator (tables_df self) (Some columns) (mappings_df self)
              (errors self) in
          match read_mappings mapping_file with
          | Raised e => (false, add_error self (load_error e))
          | Returned mappings =>
              (true,
               Generator (tables_df self) (columns_df self) (Some mappings)
                 (errors self))
          end
      end
  end.

(** [RedshiftSQLGenerator(...)]: nothing loaded, no error. *)
Definition new_generator : generator := Generator None None None [].

(** The block under [if __name__ == "__main__"]: the exit status
    ([exit(1)] gives 1, the end of the block 0), the generator and the
    file system of the scripts.  [now_ddl] and [now_dml] are the times of
    the two generation calls. *)
Definition main (now_ddl now_dml : string) (fs : filesystem)
  : outcome (nat * generator * filesystem) :=
  _ ← create_sample_excel_files;
  let generator := new_generator in
  let loaded :=
    load_definitions generator "table_definitions.xlsx"
      "source_target_mappings.xlsx" in
  if negb loaded.1 then mret (1, loaded.2, fs)
  else
    ddl ← generate_ddl now_ddl loaded.2 fs "ddl_scripts.sql";
    if negb ddl.1.1 then mret (1, ddl.1.2, ddl.2)
    else
      dml ← generate_dml now_dml ddl.1.2 ddl.2 "dml_scripts.sql";
      if negb dml.1.1 then mret (1, dml.1.2, dml.2)
      else
        let checked_ddl :=
          validate_sql parse_one dml.1.2 dml.2 "ddl_scripts.sql" in
        let checked_dml :=
          validate_sql parse_one checked_ddl.1.2 checked_ddl.2
            "dml_scripts.sql" in
        mret (0, checked_dml.1.2, checked_dml.2).

End Main.

End Pandas.

(** ** The Polars/Jinja2 generator ([sqlgencli_v1.py], [sqlgencli_v2.py])

    The Jinja2 templates are rendered by the [render_*] functions below,
    written from the template texts with the engine's default settings: a
    tag opened with a minus sign removes the white space before it,
    [{{ x }}] prints [str(x)], a condition tests the truth value, the
    [default] filter replaces undefined values only, and the last newline
    of a template is dropped. *)

Module Polars.

(** [str(x)] and [{{ x }}]; an empty Polars cell is [None]. *)
Definition str : cell -> string := py_str "None".

Record generator := Generator {
  tables_df : option (frame TableDefinition);
  columns_df : option (frame ColumnDefinition);
  mappings_df : option (frame ColumnMapping);
  errors : list string
}.

Definition set_errors (self : generator) (errs : list string) : generator :=
  Generator (tables_df self) (columns_df self) (mappings_df self) errs.

Definition add_error (self : generator) (msg : string) : generator :=
  set_errors self (errors self ++ [msg]).

(** A Jinja2 [{% for x in l %}] loop; the body is told whether [loop.last]
    holds. *)
Fixpoint jinja_for {A : Type} (body : A -> bool -> string) (l : list A)
  : string :=
  match l with
  | [] => EmptyString
  | [x] => body x true
  | x :: l' => body x false +:+ jinja_for body l'
  end.

(** [{% if c %}text{% endif %}] *)
Definition jinja_if (c : bool) (text : string) : string :=
  if c then text else EmptyString.

(** *** [generate_ddl] and [DDL_TEMPLATE] *)

(** [table_data]: the table's row with its ['columns'] entry. *)
Record table_data := TableData {
  td_table : TableDefinition;
  td_columns : list ColumnDefinition
}.

(** The body of the template's loop over [table.columns]. *)
Definition render_column (col : ColumnDefinition) (last : bool) : string :=
  nl +:+ column_name col +:+ " " +:+ data_type col
  +:+ jinja_if (truthy (not_null col)) " NOT NULL"
  +:+ jinja_if (truthy (default_value col))
        (" DEFAULT " +:+ str (default_value col))
  +:+ jinja_if (truthy (encode col)) (" ENCODE " +:+ str (encode col))
  +:+ jinja_if (negb last) ",".

(** [{{ table.sort_type|default('COMPOUND') }}]: the filter replaces an
    undefined value only, that is, a key the row does not have. *)
Definition sort_type_or_default (tables : frame TableDefinition)
  (table : TableDefinition) : string :=
  if has_column "sort_type" tables then str (sort_type table) else "COMPOUND".

(** The sort-key part of the template. *)
Definition render_sort (tables : frame TableDefinition)
  (table : TableDefinition) : string :=
  jinja_if (truthy (sort_keys table))
    (nl +:+ sort_type_or_default tables table
        +:+ " SORTKEY(" +:+ str (sort_keys table) +:+ ")").

(** The distribution part of the template. *)
Definition render_dist (table : TableDefinition) : string :=
  jinja_if (truthy (dist_style table))
    (if cell_eq_str (dist_style table) "KEY" && truthy (dist_key table)
     then nl +:+ "DISTKEY(" +:+ str (dist_key table) +:+ ")"
     else nl +:+ "DISTSTYLE " +:+ str (dist_style table)).

(** The CREATE TABLE statement of the template. *)
Definition render_create (tables : frame TableDefinition) (td : table_data)
  : string :=
  let table := td_table td in
  "CREATE TABLE " +:+ tbl_schema_name table +:+ "." +:+ tbl_table_name table
  +:+ " ("
  +:+ jinja_for render_column (td_columns td)
  +:+ jinja_if (truthy (primary_key table))
        ("," +:+ nl +:+ "PRIMARY KEY (" +:+ str (primary_key table) +:+ ")")
  +:+ nl +:+ ")"
  +:+ render_dist table
  +:+ render_sort tables table
  +:+ ";".

(** The body of the template's loop over [tables]. *)
Definition render_table (tables : frame TableDefinition) (td : table_data)
  : string :=
  let table := td_table td in
  let full_table := tbl_schema_name table +:+ "." +:+ tbl_table_name table in
  nl +:+ "-- Table: " +:+ full_table +:+ nl
  +:+ jinja_if (truthy (description table))
        ("-- Description: " +:+ str (description table))
  +:+ nl +:+ "DROP TABLE IF EXISTS " +:+ full_table +:+ " CASCADE;" +:+ nl
  +:+ nl
  +:+ render_create tables td
  +:+ jinja_if (truthy (description table))
        (nl +:+ "COMMENT ON TABLE " +:+ full_table +:+ " IS '"
            +:+ Py.double_quotes (str (description table)) +:+ "';")
  +:+ nl +:+ nl.

(** [template.render(tables=tables_data, generation_date=now)] for
    [DDL_TEMPLATE]. *)
Definition render_ddl (tables : frame TableDefinition)
  (tables_data : list table_data) (generation_date : string) : string :=
  "-- AWS Redshift DDL Scripts" +:+ nl
  +:+ "-- Generated on: " +:+ generation_date +:+ nl
  +:+ "-- " +:+ Py.repeat_char "="%char 70 +:+ nl +:+ nl
  +:+ String.concat EmptyString (map (render_table tables) tables_data).

(** [columns_df.filter(...).sort('column_order')] *)
Definition columns_of (columns : frame ColumnDefinition)
  (table : TableDefinition) : frame ColumnDefinition :=
  sort_by column_order
    (select (fun c => String.eqb (col_schema_name c) (tbl_schema_name table)
                      && String.eqb (col_table_name c) (tbl_table_name table))
       columns).

(** The loop of [generate_ddl] that prepares [tables_data]. *)
Definition tables_data (tables : frame TableDefinition)
  (columns : frame ColumnDefinition) : list table_data :=
  map (fun table_row => TableData table_row (rows (columns_of columns table_row)))
    (rows tables).

(** [generate_ddl(self, output_file)] *)
Definition generate_ddl (now : string) (self : generator) (fs : filesystem)
  (output_file : string) : bool * generator * filesystem :=
  match tables_df self, columns_df self with
  | Some tables, Some columns =>
      let ddl_content := render_ddl tables (tables_data tables columns) now in
      (true, self, <[output_file := ddl_content]> fs)
  | _, _ => (false, add_error self "Data not loaded", fs)
  end.

(** *** [generate_dml] and its templates *)

(** [mappings.row(0, named=True)] *)
Definition row0 {R} (l : list R) : outcome R :=
  match l with
  | r :: _ => Returned r
  | [] => Raised (IndexError "index 0 is out of bounds for sequence of length 0")
  end.

Definition source_table_of (mappings : frame ColumnMapping) : outcome string :=
  first_row ← row0 (rows mappings);
  mret (source_schema first_row +:+ "." +:+ source_table first_row).

(** [row.get('is_business_key')] as a condition. *)
Definition business_key (row : ColumnMapping) : bool :=
  truthy (is_business_key row).

(** An entry of [columns]: [{'target_column': ..., 'source_expr': ...}]. *)
Record column_entry := ColumnEntry {
  ce_target_column : string;
  ce_source_expr : cell
}.

(** The source expression of a row in [_generate_type1_load]. *)
Definition type1_source_expr (row : ColumnMapping) : cell :=
  if truthy (transformation row) then transformation row
  else if truthy (source_column row) then
    CStr ("src." +:+ str (source_column row))
  else if truthy (constant_value row) then
    let const_val := constant_value row in
    if is_str const_val then CStr ("'" +:+ str const_val +:+ "'")
    else CStr (str const_val)
  else CStr "NULL".

Record type1_lists := Type1Lists {
  t1_columns : list column_entry;
  t1_business_keys : list string;
  t1_update_cols : list string
}.

Definition type1_row (acc : type1_lists) (row : ColumnMapping) : type1_lists :=
  let target_col := target_column row in
  let columns :=
    t1_columns acc ++ [ColumnEntry target_col (type1_source_expr row)] in
  if business_key row then
    Type1Lists columns (t1_business_keys acc ++ [target_col]) (t1_update_cols acc)
  else
    Type1Lists columns (t1_business_keys acc) (t1_update_cols acc ++ [target_col]).

Definition business_key_join (business_keys : list string) : string :=
  Py.join " AND " (map (fun k => "tgt." +:+ k +:+ " = src." +:+ k) business_keys).

(** [{{ col.source_expr }} AS {{ col.target_column }}] followed by a comma
    unless [loop.last]. *)
Definition render_select_item (col : column_entry) (last : bool) : string :=
  nl +:+ str (ce_source_expr col) +:+ " AS " +:+ ce_target_column col
  +:+ jinja_if (negb last) ",".

Definition render_update_item (col : string) (last : bool) : string :=
  nl +:+ "tgt." +:+ col +:+ " = src." +:+ col +:+ jinja_if (negb last) ",".

(** [TYPE1_TEMPLATE] rendered with the keywords [_generate_type1_load]
    passes. *)
Definition render_type1 (target_table source_table : string)
  (l : type1_lists) : string :=
  let target_column_list := Py.join ", " (map ce_target_column (t1_columns l)) in
  let source_column_list :=
    Py.join ", " (map (fun c => "src." +:+ ce_target_column c) (t1_columns l)) in
  "-- SCD Type 1: Update existing, Insert new" +:+ nl
  +:+ "-- Target: " +:+ target_table +:+ nl
  +:+ "BEGIN TRANSACTION;" +:+ nl
  +:+ nl
  +:+ "MERGE INTO " +:+ target_table +:+ " AS tgt" +:+ nl
  +:+ "USING (" +:+ nl
  +:+ "SELECT"
  +:+ jinja_for render_select_item (t1_columns l) +:+ nl
  +:+ "FROM " +:+ source_table +:+ nl
  +:+ "WHERE 1=1  -- Add incremental filter here (e.g., WHERE load_date > last_load_date)"
  +:+ nl
  +:+ ") AS src" +:+ nl
  +:+ "ON " +:+ business_key_join (t1_business_keys l) +:+ nl
  +:+ "WHEN MATCHED THEN" +:+ nl
  +:+ "UPDATE SET"
  +:+ jinja_for render_update_item (t1_update_cols l) +:+ "," +:+ nl
  +:+ "tgt.updated_date = GETDATE()" +:+ nl
  +:+ "WHEN NOT MATCHED THEN" +:+ nl
  +:+ "INSERT (" +:+ target_column_list +:+ ", created_date, updated_date)" +:+ nl
  +:+ "VALUES (" +:+ source_column_list +:+ ", GETDATE(), GETDATE());" +:+ nl
  +:+ nl
  +:+ "COMMIT;".

(** The loop over [mappings.iter_rows(named=True)]. *)
Definition type1_loop (mappings : frame ColumnMapping) : type1_lists :=
  fold_left type1_row (rows mappings) (Type1Lists [] [] []).

Definition _generate_type1_load (mappings : frame ColumnMapping)
  (target_table : string) : outcome string :=
  source_table ← source_table_of mappings;
  mret (render_type1 target_table source_table (type1_loop mappings)).

(** The source expression of a row in [_generate_type2_load]. *)
Definition type2_source_expr (row : ColumnMapping) : cell :=
  if truthy (transformation row) then transformation row
  else if truthy (source_column row) then
    CStr ("src." +:+ str (source_column row))
  else if truthy (constant_value row) then
    let const_val := constant_value row in
    if is_str const_val then CStr ("'" +:+ str const_val +:+ "'")
    else CStr (str const_val)
  else CStr "NULL".

Record type2_lists := Type2Lists {
  t2_columns : list column_entry;
  t2_business_keys : list string;
  t2_compare_cols : list string
}.

Definition type2_row (acc : type2_lists) (row : ColumnMapping) : type2_lists :=
  let target_col := target_column row in
  let columns :=
    t2_columns acc ++ [ColumnEntry target_col (type2_source_expr row)] in
  if business_key row then
    Type2Lists columns (t2_business_keys acc ++ [target_col]) (t2_compare_cols acc)
  else
    Type2Lists columns (t2_business_keys acc) (t2_compare_cols acc ++ [target_col]).

Definition change_test (c : string) : string :=
  "NVL(tgt." +:+ c +:+ ", 'NULL') <> NVL(src." +:+ c +:+ ", 'NULL')".

(** [change_detection] *)
Definition change_detection (compare_cols : list string) : string :=
  Py.join " OR " (map change_test (take 5 compare_cols)).

(** [{{ col.source_expr }} AS {{ col.target_column }},] *)
Definition render_select_item_comma (col : column_entry) (last : bool)
  : string :=
  nl +:+ str (ce_source_expr col) +:+ " AS " +:+ ce_target_column col +:+ ",".

(** [TYPE2_TEMPLATE] rendered with the keywords [_generate_type2_load]
    passes. *)
Definition render_type2 (target_table source_table : string)
  (l : type2_lists) : string :=
  let business_key_join := business_key_join (t2_business_keys l) in
  let business_key_list :=
    Py.join ", " (map (fun k => "src." +:+ k) (t2_business_keys l)) in
  let change_detection := change_detection (t2_compare_cols l) in
  let target_column_list := Py.join ", " (map ce_target_column (t2_columns l)) in
  "-- SCD Type 2: Track history with effective dates" +:+ nl
  +:+ "-- Target: " +:+ target_table +:+ nl
  +:+ "BEGIN TRANSACTION;" +:+ nl
  +:+ nl
  +:+ "-- Expire changed records" +:+ nl
  +:+ "UPDATE " +:+ target_table +:+ " AS tgt" +:+ nl
  +:+ "SET" +:+ nl
  +:+ "tgt.effective_end_date = DATEADD(day, -1, GETDATE())," +:+ nl
  +:+ "tgt.is_current = FALSE," +:+ nl
  +:+ "tgt.updated_date = GETDATE()" +:+ nl
  +:+ "FROM (" +:+ nl
  +:+ "SELECT " +:+ business_key_list +:+ nl
  +:+ "FROM " +:+ source_table +:+ nl
  +:+ ") AS src" +:+ nl
  +:+ "WHERE tgt.is_current = TRUE" +:+ nl
  +:+ "AND " +:+ business_key_join +:+ nl
  +:+ "AND (" +:+ change_detection +:+ ");" +:+ nl
  +:+ nl
  +:+ "-- Insert new versions (changed records and new records)" +:+ nl
  +:+ "INSERT INTO " +:+ target_table +:+ " (" +:+ nl
  +:+ target_column_list +:+ "," +:+ nl
  +:+ "effective_start_date," +:+ nl
  +:+ "effective_end_date," +:+ nl
  +:+ "is_current," +:+ nl
  +:+ "created_date" +:+ nl
  +:+ ")" +:+ nl
  +:+ "SELECT"
  +:+ jinja_for render_select_item_comma (t2_columns l) +:+ nl
  +:+ "GETDATE() AS effective_start_date," +:+ nl
  +:+ "'9999-12-31'::DATE AS effective_end_date," +:+ nl
  +:+ "TRUE AS is_current," +:+ nl
  +:+ "GETDATE() AS created_date" +:+ nl
  +:+ "FROM " +:+ source_table +:+ " AS src" +:+ nl
  +:+ "WHERE NOT EXISTS (" +:+ nl
  +:+ "SELECT 1 FROM " +:+ target_table +:+ " AS tgt" +:+ nl
  +:+ "WHERE tgt.is_current = TRUE" +:+ nl
  +:+ "AND " +:+ business_key_join +:+ nl
  +:+ ")" +:+ nl
  +:+ "OR EXISTS (" +:+ nl
  +:+ "SELECT 1 FROM " +:+ target_table +:+ " AS tgt" +:+ nl
  +:+ "WHERE tgt.is_current = TRUE" +:+ nl
  +:+ "AND " +:+ business_key_join +:+ nl
  +:+ "AND (" +:+ change_detection +:+ ")" +:+ nl
  +:+ ");" +:+ nl
  +:+ nl
  +:+ "COMMIT;".

Definition type2_loop (mappings : frame ColumnMapping) : type2_lists :=
  fold_left type2_row (rows mappings) (Type2Lists [] [] []).

Definition _generate_type2_load (mappings : frame ColumnMapping)
  (target_table : string) : outcome string :=
  source_table ← source_table_of mappings;
  mret (render_type2 target_table source_table (type2_loop mappings)).

(** The source expression of a row in [_generate_insert_load]. *)
Definition insert_source_expr (row : ColumnMapping) : cell :=
  if truthy (transformation row) then transformation row
  else if truthy (source_column row) then source_column row
  else if truthy (constant_value row) then
    let const_val := constant_value row in
    if is_str const_val then CStr ("'" +:+ str const_val +:+ "'")
    else CStr (str const_val)
  else CStr "NULL".

Definition insert_row (columns : list column_entry) (row : ColumnMapping)
  : list column_entry :=
  columns ++ [ColumnEntry (target_column row) (insert_source_expr row)].

(** [INSERT_TEMPLATE] rendered with the keywords [_generate_insert_load]
    passes. *)
Definition render_insert (target_table source_table : string)
  (columns : list column_entry) : string :=
  let target_column_list := Py.join ", " (map ce_target_column columns) in
  "-- Insert load" +:+ nl
  +:+ "-- Target: " +:+ target_table +:+ nl
  +:+ "INSERT INTO " +:+ target_table +:+ " (" +:+ nl
  +:+ target_column_list +:+ nl
  +:+ ")" +:+ nl
  +:+ "SELECT"
  +:+ jinja_for render_select_item columns +:+ nl
  +:+ "FROM " +:+ source_table +:+ nl
  +:+ "WHERE 1=1;  -- Add filter conditions here".

Definition insert_loop (mappings : frame ColumnMapping) : list column_entry :=
  fold_left insert_row (rows mappings) [].

Definition _generate_insert_load (mappings : frame ColumnMapping)
  (target_table : string) : outcome string :=
  source_table ← source_table_of mappings;
  mret (render_insert target_table source_table (insert_loop mappings)).

Section Order.

(** [DataFrame.unique()] on the two target columns.  It is called without
    [maintain_order], so Polars promises no order for the distinct pairs,
    and the order may change from one run to the next: [distinct] is
    what [unique()] makes of the list of pairs in the run at hand. *)
Variable distinct : list (string * string) -> list (string * string).

(** [mappings_df.select(['target_schema', 'target_table']).unique()] *)
Definition unique_targets_by (mappings : frame ColumnMapping)
  : list (string * string) :=
  distinct (map (fun r => (target_schema r, target_table r)) (rows mappings)).

(** [mappings_df.filter((target_schema == s) & (target_table == t))] *)
Definition rows_of_target (mappings : frame ColumnMapping)
  (target : string * string) : frame ColumnMapping :=
  select (fun r => String.eqb (target_schema r) target.1
                   && String.eqb (target_table r) target.2) mappings.

(** [table_mappings.select('scd_type').to_series()[0]] *)
Definition governing_scd_type (table_mappings : frame ColumnMapping)
  : outcome cell :=
  if has_column "scd_type" table_mappings then
    first ← row0 (rows table_mappings); mret (scd_type first)
  else Raised (ColumnNotFoundError "scd_type").

Definition load_script (scd_type : cell) (table_mappings : frame ColumnMapping)
  (full_target : string) : outcome string :=
  if cell_eq_str scd_type "TYPE1" then
    _generate_type1_load table_mappings full_target
  else if cell_eq_str scd_type "TYPE2" then
    _generate_type2_load table_mappings full_target
  else
    _generate_insert_load table_mappings full_target.

(** The two comment lines that open a load block. *)
Definition load_comment (full_target : string) (scd_type : cell) : string :=
  nl +:+ "-- Load: " +:+ full_target +:+ " (SCD " +:+ str scd_type +:+ ")".

Definition load_rule : string := "-- " +:+ Py.repeat_char "-"%char 70.

(** The body of the loop over [unique_targets]. *)
Definition dml_table (mappings : frame ColumnMapping)
  (dml_scripts : list string) (target_row : string * string)
  : outcome (list string) :=
  let target_schema := target_row.1 in
  let target_table := target_row.2 in
  let full_target := target_schema +:+ "." +:+ target_table in
  let table_mappings :=
    sort_by target_column_order (rows_of_target mappings target_row) in
  scd_type ← governing_scd_type table_mappings;
  script ← load_script scd_type table_mappings full_target;
  let dml_scripts := dml_scripts ++ [load_comment full_target scd_type] in
  let dml_scripts := dml_scripts ++ [load_rule] in
  mret (dml_scripts ++ [script]).

Definition dml_banner (now : string) : list string :=
  ["-- AWS Redshift DML Scripts (Incremental Load)";
   "-- Generated on: " +:+ now;
   "-- " +:+ Py.repeat_char "="%char 70 +:+ nl].

(** [generate_dml(self, output_file)]: an exception of the [try] body is
    recorded and makes the method return [False]. *)
Definition generate_dml_by (now : string) (self : generator) (fs : filesystem)
  (output_file : string) : bool * generator * filesystem :=
  match mappings_df self with
  | Some mappings =>
      match for_each (dml_table mappings) (unique_targets_by mappings)
              (dml_banner now) with
      | Returned dml_scripts =>
          let dml_content := Py.join nl dml_scripts in
          (true, self, <[output_file := dml_content]> fs)
      | Raised e =>
          (false, add_error self ("Error generating DML: " +:+ exn_text e), fs)
      end
  | None => (false, add_error self "Mappings not loaded", fs)
  end.

End Order.

(** The run in which [unique()] lists the pairs in order of first
    appearance. *)
Definition unique_targets : frame ColumnMapping -> list (string * string) :=
  unique_targets_by Py.unique.

Definition generate_dml
  : string -> generator -> filesystem -> string
    -> bool * generator * filesystem :=
  generate_dml_by Py.unique.

(** *** [validate_sql_file] *)

Definition statements (sql_content : string) : list string :=
  map Py.strip
    (List.filter
       (fun s => Py.nonempty (Py.strip s)
                 && negb (Py.startswith "--" (Py.strip s)))
       (Py.split ";"%char sql_content)).

(** The loop state of [validate_sql_file]: the counters, the local list
    [errors], and the statements handed to [parse_one] so far. *)
Record validation := Validation {
  valid_count : nat;
  error_count : nat;
  val_errors : list string;
  parser_calls : list string
}.

Definition validation_error (i : nat) (msg : string) : string :=
  "Statement " +:+ pretty i +:+ ": " +:+ Py.slice_to 100 msg.

Section Validator.

Variable parse_one : string -> parse_outcome.

Definition validate_statement (st : validation) (entry : nat * string)
  : validation :=
  let '(i, stmt) := entry in
  if negb (Py.nonempty stmt) || (Py.len stmt <? 10)%nat then st
  else
    match parse_one stmt with
    | Parsed =>
        Validation (valid_count st + 1) (error_count st) (val_errors st)
          (parser_calls st ++ [stmt])
    | ParseError e =>
        Validation (valid_count st) (error_count st + 1)
          (val_errors st ++ [validation_error i e])
          (parser_calls st ++ [stmt])
    end.

Definition validate_content (sql_content : string) : validation :=
  fold_left validate_statement (enumerate 1 (statements sql_content))
    (Validation 0 0 [] []).

(** [validate_sql_file(sql_file)]: the returned flag and the file system
    after the call. *)
Definition validate_sql_file (fs : filesystem) (sql_file : string)
  : bool * filesystem :=
  match fs !! sql_file with
  | Some sql_content =>
      ((error_count (validate_content sql_content) =? 0)%nat, fs)
  | None => (false, fs)
  end.

End Validator.

(** *** [_build_lineage_diagram] *)

Definition no_lineage : string :=
  "graph LR" +:+ nl +:+ "    No_Lineage[No lineage data available]".

Section Lineage.

(** [DataFrame.unique()] on the two source columns: the distinct pairs, in
    an order Polars does not promise. *)
Variable distinct : list (string * string) -> list (string * string).

(** [table_mappings.select(['source_schema', 'source_table']).unique()] *)
Definition sources (table_mappings : frame ColumnMapping)
  : list (string * string) :=
  distinct (map (fun r => (source_schema r, source_table r))
              (rows table_mappings)).

(** The body of the loop over [enumerate(sources.iter_rows(named=True))]. *)
Definition lineage_source (table_schema table_name : string)
  (lines : list string) (entry : nat * (string * string)) : list string :=
  let '(idx, source_row) := entry in
  let source_id := "SRC" +:+ pretty idx in
  let source_name := source_row.1 +:+ "." +:+ source_row.2 in
  let target_id := "TGT" in
  let target_name := table_schema +:+ "." +:+ table_name in
  let lines := lines ++ ["    " +:+ source_id +:+ "[" +:+ source_name +:+ "]"] in
  let lines := lines ++ ["    " +:+ target_id +:+ "[" +:+ target_name +:+ "]"] in
  lines ++ ["    " +:+ source_id +:+ " -->|ETL Process| " +:+ target_id].

(** The list [lines] at the end of [_build_lineage_diagram], for a table
    that has mapping rows. *)
Definition lineage_lines (table_mappings : frame ColumnMapping)
  (table_schema table_name : string) : list string :=
  fold_left (lineage_source table_schema table_name)
    (enumerate 0 (sources table_mappings)) ["graph LR"].

Definition _build_lineage_diagram (self : generator)
  (table_schema table_name : string) : string :=
  match mappings_df self with
  | None => no_lineage
  | Some mappings =>
      let table_mappings :=
        rows_of_target mappings (table_schema, table_name) in
      match rows table_mappings with
      | [] => no_lineage
      | _ => Py.join nl (lineage_lines table_mappings table_schema table_name)
      end
  end.

End Lineage.

(** *** [load_definitions] and the commands [generate] and [validate] *)

Section Commands.

(** [pl.read_excel(path, sheet_name='Tables')] and its two siblings. *)
Variable read_tables : string -> outcome (frame TableDefinition).
Variable read_columns : string -> outcome (frame ColumnDefinition).
Variable read_mappings : string -> outcome (frame ColumnMapping).

(** [sqlglot.parse_one(stmt, dialect=...)] for a dialect name. *)
Variable parse_dialect : string -> string -> parse_outcome.

(** [DataFrame.unique()] on the two target columns, as in
    [generate_dml_by]. *)
Variable distinct : list (string * string) -> list (string * string).

Definition load_error (e : exn) : string :=
  "Error loading Excel files: " +:+ exn_text e.

(** [load_definitions(self, table_def_file, mapping_file)] *)
Definition load_definitions (self : generator)
  (table_def_file mapping_file : string) : bool * generator :=
  match read_tables table_def_file with
  | Raised e => (false, add_error self (load_error e))
  | Returned tables =>
      let self :=
        Generator (Some tables) (columns_df self) (mappings_df self)
          (errors self) in
      match read_columns table_def_file with
      | Raised e => (false, add_error self (load_error e))
      | Returned columns =>
          let self :=
            Generator (tables_df self) (Some columns) (mappings_df self)
              (errors self) in
          match read_mappings mapping_file with
          | Raised e => (false, add_error self (load_error e))
          | Returned mappings =>
              (true,
               Generator (tables_df self) (columns_df self) (Some mappings)
                 (errors self))
          end
      end
  end.

(** [output_dir / name] *)
Definition path_join (output_dir name : string) : string :=
  output_dir +:+ "/" +:+ name.

(** [validate_sql_file] as the commands call it: the dialect is fixed. *)
Definition validate_file (fs : filesystem) (sql_file : string)
  : bool * filesystem :=
  validate_sql_file (parse_dialect "redshift") fs sql_file.

(** The DDL part of [generate]: [None] stands for [typer.Exit(code=1)]. *)
Definition generate_ddl_step (now : string) (self : generator)
  (fs : filesystem) (output_dir : string) (validate : bool)
  : option (generator * filesystem) :=
  let ddl_file := path_join output_dir "ddl_scripts.sql" in
  let done := generate_ddl now self fs ddl_file in
  if negb done.1.1 then None
  else
    let fs := if validate then (validate_file done.2 ddl_file).2 else done.2 in
    Some (done.1.2, fs).

(** The DML part of [generate]. *)
Definition generate_dml_step (now : string) (self : generator)
  (fs : filesystem) (output_dir : string) (validate : bool)
  : option (generator * filesystem) :=
  let dml_file := path_join output_dir "dml_scripts.sql" in
  let done := generate_dml_by distinct now self fs dml_file in
  if negb done.1.1 then None
  else
    let fs := if validate then (validate_file done.2 dml_file).2 else done.2 in
    Some (done.1.2, fs).

(** The command [generate]: the exit code and the file system it leaves.
    Creating the output directory is not modelled. *)
Definition generate (now_ddl now_dml : string) (fs : filesystem)
  (table_def mapping output_dir : string) (ddl dml validate : bool)
  : nat * filesystem :=
  let generator := Generator None None None [] in
  let loaded := load_definitions generator table_def mapping in
  if negb loaded.1 then (1, fs)
  else
    match (if ddl
           then generate_ddl_step now_ddl loaded.2 fs output_dir validate
           else Some (loaded.2, fs)) with
    | None => (1, fs)
    | Some after_ddl =>
        match (if dml
               then generate_dml_step now_dml after_ddl.1 after_ddl.2
                      output_dir validate
               else Some after_ddl) with
        | None => (1, after_ddl.2)
        | Some after_dml => (0, after_dml.2)
        end
    end.

(** The command [validate]: the exit code. *)
Definition validate (fs : filesystem) (sql_file dialect : string) : nat :=
  match fs !! sql_file with
  | None => 1
  | Some _ => if (validate_file fs sql_file).1 then 0 else 1
  end.

End Commands.

End Polars.

(** ** The properties, in the specification's words *)

Module Spec.

(** The four-way precedence of the expression resolver: transformation,
    then source column behind the source alias, then constant, then NULL.
    [alias] is the text put before the source column and [null] the text
    of an empty cell. *)
Definition resolved_expression (null alias : string) (row : ColumnMapping)
  : string :=
  match transformation row with
  | CNull =>
      match source_column row with
      | CNull =>
          match constant_value row with
          | CNull => "NULL"
          | CStr s => "'" +:+ s +:+ "'"
          | c => py_str null c
          end
      | sc => alias +:+ py_str null sc
      end
  | t => py_str null t
  end.

(** A cell that is either empty or counts as true: it is not empty text,
    zero or false. *)
Definition plain (c : cell) : Prop := notna c = truthy c.



(** The parser accepts the statement. *)
Definition parses (parse_one : string -> parse_outcome) (stmt : string) : bool :=
  match parse_one stmt with Parsed => true | ParseError _ => false end.

(** The entries (index, statement) that fail to parse, with the parser's
    message. *)
Definition failures_of (parse_one : string -> parse_outcome)
  (entries : list (nat * string)) : list (nat * string) :=
  flat_map
    (fun entry : nat * string =>
       if (10 <=? Py.len entry.2)%nat then
         match parse_one entry.2 with
         | ParseError e => [(entry.1, e)]
         | Parsed => []
         end
       else [])
    entries.

(** The statements that fail to parse, numbered from 1. *)
Definition parse_failures (parse_one : string -> parse_outcome)
  (stmts : list string) : list (nat * string) :=
  failures_of parse_one (enumerate 1 stmts).

(** The null-safe inequality test as the specification spells it. *)
Definition coalesce_test (c : string) : string :=
  "coalesce(tgt." +:+ c +:+ ",'NULL') <> coalesce(src." +:+ c +:+ ",'NULL')".

(** The target columns of the rows that are not business keys. *)
Definition non_key_columns (key : ColumnMapping -> bool)
  (rows : list ColumnMapping) : list string :=
  map target_column (List.filter (fun r => negb (key r)) rows).

(** The distinct (target_schema, target_table) pairs of the mappings. *)
Definition target_pairs (rows : list ColumnMapping) : list (string * string) :=
  remove_dups (map (fun r => (target_schema r, target_table r)) rows).

(** What [DataFrame.unique()] promises of its result: each of the rows
    once, in some order. *)
Definition lists_distinct {A} (distinct : list A -> list A) : Prop :=
  forall l, NoDup (distinct l) /\ forall x, x ∈ distinct l <-> x ∈ l.

(** The qualified name of a table. *)
Definition full_name (t : TableDefinition) : string :=
  tbl_schema_name t +:+ "." +:+ tbl_table_name t.

(** No column record belongs to the table. *)
Definition no_columns (columns : frame ColumnDefinition) (t : TableDefinition)
  : Prop :=
  forall c, c ∈ rows columns ->
    ~ (col_schema_name c = tbl_schema_name t
       /\ col_table_name c = tbl_table_name t).

(** A cell that holds text or nothing. *)
Definition text_or_empty (c : cell) : Prop := c = CNull \/ is_str c = true.

(** The cells of a table that [sqlcodegen.py] calls text methods on hold
    text: dist_style and description when they are set, and sort_type
    when the table has sort keys and the sheet a sort_type column. *)
Definition text_cells (tables : frame TableDefinition) (t : TableDefinition)
  : Prop :=
  text_or_empty (dist_style t)
  /\ text_or_empty (description t)
  /\ (notna (sort_keys t) = true -> has_column "sort_type" tables = true ->
      is_str (sort_type t) = true).

(** [needle] occurs in [text]. *)
Definition contains (needle text : string) : Prop :=
  exists pre post, text = pre +:+ needle +:+ post.

(** The character [c] does not occur in [s]. *)
Fixpoint free_of (c : ascii) (s : string) : bool :=
  match s with
  | EmptyString => true
  | String x s' => negb (Ascii.eqb x c) && free_of c s'
  end.

(** The text holds no statement separator. *)
Definition no_semicolon (s : string) : Prop := free_of ";"%char s = true.

(** The text is white space only. *)
Fixpoint all_space (s : string) : bool :=
  match s with
  | EmptyString => true
  | String x s' => Py.isspace x && all_space s'
  end.

(** The first thing in the text, after white space, is the comment
    marker. *)
Definition comment_led (s : string) : Prop :=
  exists ws rest, all_space ws = true /\ s = ws +:+ "--" +:+ rest.

(** None of the texts a mapping row gives to a script holds a statement
    separator. *)
Definition clean_mapping (r : ColumnMapping) : bool :=
  forallb (free_of ";"%char)
    [target_schema r; target_table r; target_column r; source_schema r;
     source_table r; Pandas.str (source_column r);
     Pandas.str (transformation r); Pandas.str (constant_value r);
     Pandas.str (scd_type r)].

(** The MERGE statement inside a Type 1 load script, from its first word
    to the parenthesis that closes VALUES. *)
Definition merge_statement (target_table source_table : string)
  (l : Pandas.type1_lists) : string :=
  Py.join nl [
    "MERGE INTO " +:+ target_table +:+ " AS tgt";
    "USING (";
    "SELECT";
    Py.join ("," +:+ nl +:+ "        ") (Pandas.t1_source_exprs l);
    "FROM " +:+ source_table;
    "WHERE 1=1  -- Add incremental filter here";
    ") AS src";
    "ON " +:+ Pandas.business_key_join (Pandas.t1_business_keys l);
    "WHEN MATCHED THEN";
    "UPDATE SET";
    Py.join ("," +:+ nl) (Pandas.t1_update_sets l) +:+ ",";
    "tgt.updated_date = GETDATE()";
    "WHEN NOT MATCHED THEN";
    "INSERT (" +:+ Py.join ", " (Pandas.t1_target_cols l)
      +:+ ", created_date, updated_date)";
    "VALUES ("
      +:+ Py.join ", " (map (fun c => "src." +:+ c) (Pandas.t1_target_cols l))
      +:+ ", GETDATE(), GETDATE())"
  ].

(** What the validator makes of the load block of one target table of
    [sqlcodegen.py]: the statements it numbers. *)
Definition dml_statements (m : frame ColumnMapping) (target : string)
  : list string :=
  let group := Pandas.rows_of_target m target in
  let table_mappings := sort_by target_column_order group in
  match head (rows group), head (rows table_mappings) with
  | Some first, Some lead =>
      let full_target := target_schema first +:+ "." +:+ target in
      let tag := if has_column "scd_type" m then scd_type lead
                 else CStr "TYPE1" in
      if cell_eq_str tag "TYPE1" then
        [merge_statement full_target
           (source_schema lead +:+ "." +:+ source_table lead)
           (Pandas.type1_loop table_mappings);
         "COMMIT"]
      else if cell_eq_str tag "TYPE2" then ["COMMIT"]
      else []
  | _, _ => []
  end.

(** None of the texts a table record, or a column record, gives to the
    DDL script holds a statement separator. *)
Definition clean_table (t : TableDefinition) : bool :=
  forallb (free_of ";"%char)
    [tbl_schema_name t; tbl_table_name t; Pandas.str (description t);
     Pandas.str (primary_key t); Pandas.str (dist_style t);
     Pandas.str (dist_key t); Pandas.str (sort_keys t);
     Pandas.str (sort_type t)].

Definition clean_column (c : ColumnDefinition) : bool :=
  forallb (free_of ";"%char)
    [column_name c; data_type c; Pandas.str (default_value c);
     Pandas.str (encode c)].

(** The text without its last character. *)
Definition without_last (s : string) : string :=
  String.substring 0 (String.length s - 1) s.

(** What the validator makes of the lines [generate_ddl] of
    [sqlcodegen.py] writes for one table: the CREATE TABLE statement up to
    its closing semicolon, and the COMMENT statement if there is one. *)
Definition ddl_statements (columns : frame ColumnDefinition)
  (tables : frame TableDefinition) (table : TableDefinition) : list string :=
  let table_columns :=
    Pandas.columns_of columns (tbl_schema_name table) (tbl_table_name table) in
  match rows table_columns with
  | [] => []
  | _ =>
      match Pandas.create_table tables table (rows table_columns) with
      | Returned create_stmt =>
          Py.strip (without_last create_stmt) ::
          match description table with
          | CStr text =>
              ["COMMENT ON TABLE " +:+ full_name table +:+ " IS '"
                 +:+ Py.double_quotes text +:+ "'"]
          | _ => []
          end
      | Raised _ => []
      end
  end.

(** The text an SQL string literal stands for, read from what is written
    between its quotes: two quotes stand for one, a single quote would end
    the literal early. *)
Fixpoint sql_unquote (body : string) : option string :=
  match body with
  | EmptyString => Some EmptyString
  | String c rest =>
      if Ascii.eqb c "'"%char then
        match rest with
        | String c' rest' =>
            if Ascii.eqb c' "'"%char
            then option_map (String "'"%char) (sql_unquote rest')
            else None
        | EmptyString => None
        end
      else option_map (String c) (sql_unquote rest)
  end.

(** The MERGE statement inside the Type 1 script of the Polars
    generators. *)
Definition polars_merge_statement (target_table source_table : string)
  (l : Polars.type1_lists) : string :=
  "MERGE INTO " +:+ target_table +:+ " AS tgt" +:+ nl
  +:+ "USING (" +:+ nl
  +:+ "SELECT"
  +:+ Polars.jinja_for Polars.render_select_item (Polars.t1_columns l) +:+ nl
  +:+ "FROM " +:+ source_table +:+ nl
  +:+ "WHERE 1=1  -- Add incremental filter here (e.g., WHERE load_date > last_load_date)"
  +:+ nl
  +:+ ") AS src" +:+ nl
  +:+ "ON " +:+ Polars.business_key_join (Polars.t1_business_keys l) +:+ nl
  +:+ "WHEN MATCHED THEN" +:+ nl
  +:+ "UPDATE SET"
  +:+ Polars.jinja_for Polars.render_update_item (Polars.t1_update_cols l)
  +:+ "," +:+ nl
  +:+ "tgt.updated_date = GETDATE()" +:+ nl
  +:+ "WHEN NOT MATCHED THEN" +:+ nl
  +:+ "INSERT ("
  +:+ Py.join ", " (map Polars.ce_target_column (Polars.t1_columns l))
  +:+ ", created_date, updated_date)" +:+ nl
  +:+ "VALUES ("
  +:+ Py.join ", "
        (map (fun c => "src." +:+ Polars.ce_target_column c) (Polars.t1_columns l))
  +:+ ", GETDATE(), GETDATE())".

(** What the validator makes of the load block of one target of the
    Polars generators: the statements it numbers. *)
Definition polars_dml_statements (m : frame ColumnMapping)
  (target : string * string) : list string :=
  let table_mappings :=
    sort_by target_column_order (Polars.rows_of_target m target) in
  match head (rows table_mappings) with
  | Some lead =>
      if cell_eq_str (scd_type lead) "TYPE1" then
        [polars_merge_statement (target.1 +:+ "." +:+ target.2)
           (source_schema lead +:+ "." +:+ source_table lead)
           (Polars.type1_loop table_mappings);
         "COMMIT"]
      else if cell_eq_str (scd_type lead) "TYPE2" then ["COMMIT"]
      else []
  | None => []
  end.

(** What the validator makes of the text the DDL template of the Polars
    generators gives for one table: the CREATE TABLE statement up to its
    closing semicolon, and the COMMENT statement if there is one. *)
Definition polars_ddl_statements (tables : frame TableDefinition)
  (columns : frame ColumnDefinition) (table : TableDefinition) : list string :=
  let td :=
    Polars.TableData table (rows (Polars.columns_of columns table)) in
  Py.strip (without_last (Polars.render_create tables td)) ::
  (if truthy (description table)
   then ["COMMENT ON TABLE " +:+ full_name table +:+ " IS '"
           +:+ Py.double_quotes (Polars.str (description table)) +:+ "'"]
   else []).

End Spec.

(** ** Sample metadata *)

Module Sample.

Definition mapping (schema table column : string) (order : Z)
  (source transformation constant key scd : cell) : ColumnMapping :=
  {| target_schema := schema; target_table := table; target_column := column;
     target_column_order := order;
     source_schema := "staging"; source_table := "stg_customers";
     source_column := source; transformation := transformation;
     constant_value := constant; is_business_key := key; scd_type := scd |}.

(** A row that only names a source column. *)
Definition customer_id (scd : cell) : ColumnMapping :=
  mapping "dwh" "dim_customer" "customer_id" 2 (CStr "cust_id") CNull CNull
    (CBool true) scd.

Definition customer_key (scd : cell) : ColumnMapping :=
  mapping "dwh" "dim_customer" "customer_key" 1 CNull
    (CStr "ROW_NUMBER() OVER (ORDER BY cust_id)") CNull (CBool false) scd.

Definition email (scd : cell) : ColumnMapping :=
  mapping "dwh" "dim_customer" "email" 4 (CStr "email_address") CNull CNull
    (CBool false) scd.

Definition load_flag (scd : cell) : ColumnMapping :=
  mapping "dwh" "dim_customer" "load_flag" 3 CNull CNull (CInt 1)
    (CBool false) scd.

(** The customer mappings, not in column order. *)
Definition customer_rows (scd : cell) : list ColumnMapping :=
  [email scd; customer_key scd; customer_id scd; load_flag scd].

Definition customer_mappings (scd : cell) : frame ColumnMapping :=
  Frame ["target_schema"; "target_table"; "target_column";
         "target_column_order"; "source_schema"; "source_table";
         "source_column"; "transformation"; "constant_value";
         "is_business_key"; "scd_type"] (customer_rows scd).

(** The customer mappings without any business key. *)
Definition keyless_rows (scd : cell) : list ColumnMapping :=
  [email scd; customer_key scd; load_flag scd].

Definition keyless_mappings (scd : cell) : frame ColumnMapping :=
  Frame (columns (customer_mappings scd)) (keyless_rows scd).

(** Two rows for tables of the same name in two schemas. *)
Definition two_schemas : frame ColumnMapping :=
  Frame (columns (customer_mappings CNull))
    [mapping "dwh" "customer" "id" 1 (CStr "id") CNull CNull (CBool true)
       (CStr "TYPE1");
     mapping "mart" "customer" "name" 2 (CStr "name") CNull CNull
       (CBool false) (CStr "TYPE2")].

(** Three target tables, one for each way of loading.  In the last one
    the row that comes first in column order is not the first of the
    sheet, and the two carry different tags. *)
Definition three_loads : frame ColumnMapping :=
  Frame (columns (customer_mappings CNull))
    [mapping "dwh" "dim_customer" "customer_id" 1 (CStr "cust_id") CNull CNull
       (CBool true) (CStr "TYPE1");
     mapping "dwh" "dim_product" "product_id" 1 (CStr "prod_id") CNull CNull
       (CBool true) (CStr "TYPE2");
     mapping "dwh" "fact_sales" "amount" 2 (CStr "amount") CNull CNull
       (CBool false) (CStr "TYPE1");
     mapping "dwh" "fact_sales" "sale_id" 1 (CStr "sale_id") CNull CNull
       (CBool true) (CStr "FOO")].

(** [unique()] listing the rows from the last to appear to the first. *)
Definition last_first {A} `{EqDecision A} (l : list A) : list A :=
  reverse (Py.unique l).

(** A group loaded by plain insert whose second row has a number where
    an expression is expected. *)
Definition numeric_transformation : frame ColumnMapping :=
  Frame (columns (customer_mappings CNull))
    [customer_id (CStr "APPEND");
     mapping "dwh" "dim_customer" "batch_no" 5 CNull (CInt 7) CNull
       (CBool false) (CStr "APPEND")].

(** The customer mappings read from a sheet without the scd_type column. *)
Definition untagged_mappings : frame ColumnMapping :=
  Frame ["target_schema"; "target_table"; "target_column";
         "target_column_order"; "source_schema"; "source_table";
         "source_column"; "transformation"; "constant_value";
         "is_business_key"] (customer_rows CNull).

Definition table_columns : list string :=
  ["schema_name"; "table_name"; "description"; "primary_key"; "dist_style";
   "dist_key"; "sort_keys"; "sort_type"].

(** The table of the specification's scenario; [sort] is its sort_type
    cell. *)
Definition dim_customer (sort : cell) : TableDefinition :=
  {| tbl_schema_name := "dwh"; tbl_table_name := "dim_customer";
     description := CNull; primary_key := CStr "customer_key";
     dist_style := CStr "KEY"; dist_key := CStr "customer_key";
     sort_keys := CStr "customer_id"; sort_type := sort |}.

(** The customer table with a description. *)
Definition described_customer (text : string) : TableDefinition :=
  {| tbl_schema_name := "dwh"; tbl_table_name := "dim_customer";
     description := CStr text; primary_key := CNull;
     dist_style := CNull; dist_key := CNull;
     sort_keys := CNull; sort_type := CNull |}.

(** A table no column record refers to. *)
Definition dim_orphan : TableDefinition :=
  {| tbl_schema_name := "dwh"; tbl_table_name := "dim_orphan";
     description := CNull; primary_key := CNull;
     dist_style := CNull; dist_key := CNull;
     sort_keys := CNull; sort_type := CNull |}.

Definition column (name : string) (order : Z) (type : string) (required : bool)
  : ColumnDefinition :=
  {| col_schema_name := "dwh"; col_table_name := "dim_customer";
     column_name := name; column_order := order; data_type := type;
     not_null := CBool required; default_value := CNull; encode := CNull |}.

Definition customer_columns : frame ColumnDefinition :=
  Frame ["schema_name"; "table_name"; "column_name"; "column_order";
         "data_type"; "not_null"; "default_value"; "encode"]
    [column "customer_id" 2 "VARCHAR(50)" false;
     column "customer_key" 1 "BIGINT" true].

(** Generators loaded with the given tables and the customer columns. *)
Definition pandas_generator (tables : list TableDefinition) : Pandas.generator :=
  Pandas.Generator (Some (Frame table_columns tables))
    (Some customer_columns) None [].

Definition polars_generator (tables : list TableDefinition) : Polars.generator :=
  Polars.Generator (Some (Frame table_columns tables))
    (Some customer_columns) None [].

Definition timestamp : string := "2024-01-01 00:00:00".

(** The command [generate] run on workbooks that hold the customer table,
    its columns, and the customer mappings without scd_type column, with
    [unique()] listing from the last to the first. *)
Definition untagged_run : nat * filesystem :=
  Polars.generate
    (fun _ => Returned (Frame table_columns [dim_customer (CStr "COMPOUND")]))
    (fun _ => Returned customer_columns)
    (fun _ => Returned untagged_mappings)
    (fun _ _ => Parsed) last_first timestamp timestamp ∅
    "table_definitions.xlsx" "source_target_mappings.xlsx" "output"
    true true true.

(** A parser that accepts the statements starting with DROP and rejects
    the others. *)
Definition drop_only (stmt : string) : parse_outcome :=
  if Py.startswith "DROP" stmt then Parsed
  else ParseError "Invalid expression / Unexpected token".

Definition script : string :=
  "DROP TABLE IF EXISTS dwh.dim_customer CASCADE;"
  +:+ nl +:+ "-- a comment" +:+ nl +:+ "SELECT 1;" +:+ nl
  +:+ "CREATE TABLE dwh.dim_customer (customer_key BIGINT);  ;x".

Definition sample_fs : filesystem := {[ "ddl_scripts.sql" := script ]}.

End Sample.

(** ** General facts *)

(** A loop that only appends [g x] to a list. *)
Lemma fold_left_append {A B} (g : B -> A) (l : list B) (acc : list A) :
  fold_left (fun a x => a ++ [g x]) l acc = acc ++ map g l.
Proof.
  revert acc. induction l as [|x l IH]; intros acc; simpl.
  - by rewrite app_nil_r.
  - rewrite IH, <- app_assoc. done.
Qed.

(** ** The loops of the load strategies *)

Section PandasLoops.

Import Pandas.

Lemma Pandas_type1_fold (rs : list ColumnMapping) (acc : type1_lists) :
  fold_left type1_row rs acc =
  Type1Lists
    (t1_target_cols acc ++ map target_column rs)
    (t1_source_exprs acc ++
       map (fun r => str (type1_source_expr r) +:+ " AS " +:+ target_column r) rs)
    (t1_update_sets acc ++
       map (fun c => "    tgt." +:+ c +:+ " = src." +:+ c)
         (Spec.non_key_columns business_key rs))
    (t1_business_keys acc ++ map target_column (List.filter business_key rs)).
Proof.
  revert acc. induction rs as [|r rs IH]; intros acc.
  - destruct acc; simpl. by rewrite !app_nil_r.
  - simpl fold_left. rewrite IH. unfold type1_row, Spec.non_key_columns.
    simpl List.filter. destruct (business_key r); simpl;
      by rewrite <- ?app_assoc.
Qed.

Lemma Pandas_type1_loop (m : frame ColumnMapping) :
  type1_loop m =
  Type1Lists
    (map target_column (rows m))
    (map (fun r => str (type1_source_expr r) +:+ " AS " +:+ target_column r)
       (rows m))
    (map (fun c => "    tgt." +:+ c +:+ " = src." +:+ c)
       (Spec.non_key_columns business_key (rows m)))
    (map target_column (List.filter business_key (rows m))).
Proof. unfold type1_loop. by rewrite Pandas_type1_fold. Qed.

Lemma Pandas_type2_fold (rs : list ColumnMapping) (acc : type2_lists) :
  fold_left type2_row rs acc =
  Type2Lists
    (t2_target_cols acc ++ map target_column rs)
    (t2_source_exprs acc ++
       map (fun r => str (type2_source_expr r) +:+ " AS " +:+ target_column r) rs)
    (t2_business_keys acc ++ map target_column (List.filter business_key rs))
    (t2_compare_cols acc ++ Spec.non_key_columns business_key rs).
Proof.
  revert acc. induction rs as [|r rs IH]; intros acc.
  - destruct acc; simpl. by rewrite !app_nil_r.
  - simpl fold_left. rewrite IH. unfold type2_row, Spec.non_key_columns.
    simpl List.filter. destruct (business_key r); simpl;
      by rewrite <- ?app_assoc.
Qed.

Lemma Pandas_type2_loop (m : frame ColumnMapping) :
  type2_loop m =
  Type2Lists
    (map target_column (rows m))
    (map (fun r => str (type2_source_expr r) +:+ " AS " +:+ target_column r)
       (rows m))
    (map target_column (List.filter business_key (rows m)))
    (Spec.non_key_columns business_key (rows m)).
Proof. unfold type2_loop. by rewrite Pandas_type2_fold. Qed.

Lemma Pandas_insert_fold (rs : list ColumnMapping) (acc : insert_lists) :
  fold_left insert_row rs acc =
  InsertLists (ins_target_cols acc ++ map target_column rs)
    (ins_source_exprs acc ++ map insert_source_expr rs).
Proof.
  revert acc. induction rs as [|r rs IH]; intros acc.
  - destruct acc; simpl. by rewrite !app_nil_r.
  - simpl fold_left. rewrite IH. unfold insert_row. simpl.
    by rewrite <- !app_assoc.
Qed.

Lemma Pandas_insert_loop (m : frame ColumnMapping) :
  insert_loop m =
  InsertLists (map target_column (rows m)) (map insert_source_expr (rows m)).
Proof. unfold insert_loop. by rewrite Pandas_insert_fold. Qed.

(** The three copies of the resolution rule in [sqlcodegen.py]. *)
Lemma Pandas_type1_resolved (r : ColumnMapping) :
  str (type1_source_expr r) = Spec.resolved_expression "nan" "src." r.
Proof.
  unfold type1_source_expr, Spec.resolved_expression, str.
  destruct (transformation r), (source_column r), (constant_value r);
    reflexivity.
Qed.

Lemma Pandas_type2_resolved (r : ColumnMapping) :
  str (type2_source_expr r) = Spec.resolved_expression "nan" "src." r.
Proof.
  unfold type2_source_expr, Spec.resolved_expression, str.
  destruct (transformation r), (source_column r), (constant_value r);
    reflexivity.
Qed.

Lemma Pandas_insert_resolved (r : ColumnMapping) :
  str (insert_source_expr r) = Spec.resolved_expression "nan" EmptyString r.
Proof.
  unfold insert_source_expr, Spec.resolved_expression, str.
  destruct (transformation r), (source_column r), (constant_value r);
    reflexivity.
Qed.

End PandasLoops.

Section PolarsLoops.

Import Polars.

Lemma Polars_type1_fold (rs : list ColumnMapping) (acc : type1_lists) :
  fold_left type1_row rs acc =
  Type1Lists
    (t1_columns acc ++
       map (fun r => ColumnEntry (target_column r) (type1_source_expr r)) rs)
    (t1_business_keys acc ++ map target_column (List.filter business_key rs))
    (t1_update_cols acc ++ Spec.non_key_columns business_key rs).
Proof.
  revert acc. induction rs as [|r rs IH]; intros acc.
  - destruct acc; simpl. by rewrite !app_nil_r.
  - simpl fold_left. rewrite IH. unfold type1_row, Spec.non_key_columns.
    simpl List.filter. destruct (business_key r); simpl;
      by rewrite <- ?app_assoc.
Qed.

Lemma Polars_type1_loop (m : frame ColumnMapping) :
  type1_loop m =
  Type1Lists
    (map (fun r => ColumnEntry (target_column r) (type1_source_expr r)) (rows m))
    (map target_column (List.filter business_key (rows m)))
    (Spec.non_key_columns business_key (rows m)).
Proof. unfold type1_loop. by rewrite Polars_type1_fold. Qed.

Lemma Polars_type2_fold (rs : list ColumnMapping) (acc : type2_lists) :
  fold_left type2_row rs acc =
  Type2Lists
    (t2_columns acc ++
       map (fun r => ColumnEntry (target_column r) (type2_source_expr r)) rs)
    (t2_business_keys acc ++ map target_column (List.filter business_key rs))
    (t2_compare_cols acc ++ Spec.non_key_columns business_key rs).
Proof.
  revert acc. induction rs as [|r rs IH]; intros acc.
  - destruct acc; simpl. by rewrite !app_nil_r.
  - simpl fold_left. rewrite IH. unfold type2_row, Spec.non_key_columns.
    simpl List.filter. destruct (business_key r); simpl;
      by rewrite <- ?app_assoc.
Qed.

Lemma Polars_type2_loop (m : frame ColumnMapping) :
  type2_loop m =
  Type2Lists
    (map (fun r => ColumnEntry (target_column r) (type2_source_expr r)) (rows m))
    (map target_column (List.filter business_key (rows m)))
    (Spec.non_key_columns business_key (rows m)).
Proof. unfold type2_loop. by rewrite Polars_type2_fold. Qed.

Lemma Polars_insert_loop (m : frame ColumnMapping) :
  insert_loop m =
  map (fun r => ColumnEntry (target_column r) (insert_source_expr r)) (rows m).
Proof.
  unfold insert_loop, insert_row.
  by rewrite (fold_left_append
                (fun r => ColumnEntry (target_column r) (insert_source_expr r))).
Qed.

(** For a plain cell the truth test of the Polars scripts is the
    emptiness test. *)
Lemma plain_truthy (c : cell) : Spec.plain c -> truthy c = notna c.
Proof. unfold Spec.plain. congruence. Qed.

Lemma Polars_type1_resolved (r : ColumnMapping) :
  Spec.plain (transformation r) -> Spec.plain (source_column r) ->
  Spec.plain (constant_value r) ->
  str (type1_source_expr r) = Spec.resolved_expression "None" "src." r.
Proof.
  intros Ht Hs Hc. unfold type1_source_expr, Spec.resolved_expression, str.
  rewrite (plain_truthy _ Ht), (plain_truthy _ Hs), (plain_truthy _ Hc).
  destruct (transformation r), (source_column r), (constant_value r);
    reflexivity.
Qed.

Lemma Polars_type2_resolved (r : ColumnMapping) :
  Spec.plain (transformation r) -> Spec.plain (source_column r) ->
  Spec.plain (constant_value r) ->
  str (type2_source_expr r) = Spec.resolved_expression "None" "src." r.
Proof.
  intros Ht Hs Hc. unfold type2_source_expr, Spec.resolved_expression, str.
  rewrite (plain_truthy _ Ht), (plain_truthy _ Hs), (plain_truthy _ Hc).
  destruct (transformation r), (source_column r), (constant_value r);
    reflexivity.
Qed.

Lemma Polars_insert_resolved (r : ColumnMapping) :
  Spec.plain (transformation r) -> Spec.plain (source_column r) ->
  Spec.plain (constant_value r) ->
  str (insert_source_expr r) = Spec.resolved_expression "None" EmptyString r.
Proof.
  intros Ht Hs Hc. unfold insert_source_expr, Spec.resolved_expression, str.
  rewrite (plain_truthy _ Ht), (plain_truthy _ Hs), (plain_truthy _ Hc).
  destruct (transformation r), (source_column r), (constant_value r);
    reflexivity.
Qed.

End PolarsLoops.

(** In the Polars scripts a constant that is zero, false or empty text does
    not count as present: the expression falls through to NULL. *)
Lemma Polars_falsy_constant_is_null (row : ColumnMapping) :
  truthy (transformation row) = false -> truthy (source_column row) = false ->
  truthy (constant_value row) = false ->
  Polars.type1_source_expr row = CStr "NULL"
  /\ Polars.type2_source_expr row = CStr "NULL"
  /\ Polars.insert_source_expr row = CStr "NULL".
Proof.
  intros Ht Hs Hc.
  unfold Polars.type1_source_expr, Polars.type2_source_expr,
    Polars.insert_source_expr.
  by rewrite Ht, Hs, Hc.
Qed.

(** ** C1: the resolved source expression *)

(** C1 (as amended).  In every load strategy the source expression of a
    mapping row follows the four-way precedence, first match winning:
    transformation as it is, else the source column, else the constant
    (quoted when it is text, its literal text otherwise), else NULL.
    The Type1 and Type2 strategies put the source alias and a dot before
    the source column; the Insert strategy uses the source column bare.
    For the Polars scripts this is stated for rows whose three optional
    cells are plain (not empty text, zero or false). *)
Theorem C1_source_expression_precedence (m : frame ColumnMapping) :
  (Pandas.t1_source_exprs (Pandas.type1_loop m) =
     map (fun r => Spec.resolved_expression "nan" "src." r
                     +:+ " AS " +:+ target_column r) (rows m)
   /\ Pandas.t2_source_exprs (Pandas.type2_loop m) =
     map (fun r => Spec.resolved_expression "nan" "src." r
                     +:+ " AS " +:+ target_column r) (rows m)
   /\ map Pandas.str (Pandas.ins_source_exprs (Pandas.insert_loop m)) =
     map (Spec.resolved_expression "nan" EmptyString) (rows m))
  /\ (Forall (fun r => Spec.plain (transformation r)
                       /\ Spec.plain (source_column r)
                       /\ Spec.plain (constant_value r)) (rows m) ->
      map (fun e => Polars.str (Polars.ce_source_expr e))
        (Polars.t1_columns (Polars.type1_loop m)) =
        map (Spec.resolved_expression "None" "src.") (rows m)
      /\ map (fun e => Polars.str (Polars.ce_source_expr e))
        (Polars.t2_columns (Polars.type2_loop m)) =
        map (Spec.resolved_expression "None" "src.") (rows m)
      /\ map (fun e => Polars.str (Polars.ce_source_expr e))
        (Polars.insert_loop m) =
        map (Spec.resolved_expression "None" EmptyString) (rows m)).
Proof.
  split; [split; [|split]|].
  - rewrite Pandas_type1_loop. simpl. apply map_ext. intros r.
    by rewrite Pandas_type1_resolved.
  - rewrite Pandas_type2_loop. simpl. apply map_ext. intros r.
    by rewrite Pandas_type2_resolved.
  - rewrite Pandas_insert_loop. simpl. rewrite map_map. apply map_ext.
    intros r. apply Pandas_insert_resolved.
  - intros Hplain.
    rewrite Polars_type1_loop, Polars_type2_loop, Polars_insert_loop. simpl.
    rewrite !map_map. simpl.
    repeat split; apply map_ext_Forall;
      (eapply Forall_impl; [exact Hplain|]); intros r (Ht & Hs & Hc).
    + by apply Polars_type1_resolved.
    + by apply Polars_type2_resolved.
    + by apply Polars_insert_resolved.
Qed.

Lemma C1_source_expression_precedence_witness :
  map (fun e => Polars.str (Polars.ce_source_expr e))
    (Polars.t1_columns
       (Polars.type1_loop (Sample.customer_mappings (CStr "TYPE1")))) =
    ["src.email_address"; "ROW_NUMBER() OVER (ORDER BY cust_id)";
     "src.cust_id"; "1"]
  /\ map (fun e => Polars.str (Polars.ce_source_expr e))
    (Polars.insert_loop (Sample.customer_mappings (CStr "INSERT"))) =
    ["email_address"; "ROW_NUMBER() OVER (ORDER BY cust_id)"; "cust_id"; "1"].
Proof.
  destruct (C1_source_expression_precedence
              (Sample.customer_mappings (CStr "TYPE1"))) as [_ H1].
  destruct (C1_source_expression_precedence
              (Sample.customer_mappings (CStr "INSERT"))) as [_ H2].
  split.
  - destruct H1 as (H & _ & _); [|rewrite H; reflexivity].
    repeat constructor.
  - destruct H2 as (_ & _ & H); [|rewrite H; reflexivity].
    repeat constructor.
Defined.

(** C1 as stated fails for the Insert strategy: the source column of a
    row is selected without the source alias, in both generators. *)
Lemma C1_insert_has_no_alias :
  map Pandas.str
    (Pandas.ins_source_exprs
       (Pandas.insert_loop (Sample.customer_mappings (CStr "INSERT")))) <>
    map (Spec.resolved_expression "nan" "src.")
      (rows (Sample.customer_mappings (CStr "INSERT")))
  /\ Pandas.insert_source_expr (Sample.customer_id (CStr "INSERT")) =
       CStr "cust_id"
  /\ Polars.insert_source_expr (Sample.customer_id (CStr "INSERT")) =
       CStr "cust_id"
  /\ Spec.resolved_expression "nan" "src." (Sample.customer_id (CStr "INSERT")) =
       "src.cust_id".
Proof. repeat split. vm_compute. discriminate. Qed.

(** ** Frames: selection, sorting, distinct values *)

Lemma elem_of_select {R} (P : R -> bool) (df : frame R) (r : R) :
  r ∈ rows (select P df) <-> r ∈ rows df /\ P r = true.
Proof. unfold select. simpl. rewrite !list_elem_of_In. apply filter_In. Qed.

Lemma columns_select {R} (P : R -> bool) (df : frame R) :
  columns (select P df) = columns df.
Proof. reflexivity. Qed.

Lemma columns_sort_by {R} (key : R -> Z) (df : frame R) :
  columns (sort_by key df) = columns df.
Proof. reflexivity. Qed.

Lemma le_by_total {R} (key : R -> Z) : Total (le_by key).
Proof. intros a b. unfold le_by. lia. Qed.

Lemma le_by_trans {R} (key : R -> Z) : Transitive (le_by key).
Proof. intros a b c. unfold le_by. lia. Qed.

Lemma sort_by_Permutation {R} (key : R -> Z) (df : frame R) :
  rows (sort_by key df) ≡ₚ rows df.
Proof. apply merge_sort_Permutation. Qed.

Lemma sort_by_sorted {R} (key : R -> Z) (df : frame R) :
  StronglySorted (le_by key) (rows (sort_by key df)).
Proof.
  apply (@StronglySorted_merge_sort _ _ _ (le_by_trans key) (le_by_total key)).
Qed.

Lemma elem_of_sort_by {R} (key : R -> Z) (df : frame R) (r : R) :
  r ∈ rows (sort_by key df) <-> r ∈ rows df.
Proof. by rewrite sort_by_Permutation. Qed.

Lemma sort_by_nonempty {R} (key : R -> Z) (df : frame R) :
  rows df <> [] -> rows (sort_by key df) <> [].
Proof.
  intros Hne Hnil. apply Hne. apply Permutation_nil_r.
  rewrite <- Hnil. symmetry. apply sort_by_Permutation.
Qed.

(** The first row of a sorted frame is a row of the frame with the least
    key. *)
Lemma sort_by_head_least {R} (key : R -> Z) (df : frame R) (r : R) :
  head (rows (sort_by key df)) = Some r ->
  r ∈ rows df /\ forall r', r' ∈ rows df -> (key r <= key r')%Z.
Proof.
  intros Hhd. pose proof (sort_by_sorted key df) as Hs.
  destruct (rows (sort_by key df)) as [|x l] eqn:E; [discriminate|].
  simpl in Hhd. injection Hhd as ->. split.
  - apply (elem_of_sort_by key). rewrite E. left.
  - intros r' Hr'. apply (elem_of_sort_by key) in Hr'. rewrite E in Hr'.
    apply StronglySorted_inv in Hs as [_ Hall].
    apply elem_of_cons in Hr' as [->|Hin].
    + unfold le_by. lia.
    + rewrite Forall_forall in Hall. by apply Hall.
Qed.

Lemma elem_of_unique {A} `{EqDecision A} (l : list A) (x : A) :
  x ∈ Py.unique l <-> x ∈ l.
Proof.
  unfold Py.unique. by rewrite elem_of_reverse, elem_of_remove_dups,
    elem_of_reverse.
Qed.

Lemma NoDup_unique {A} `{EqDecision A} (l : list A) : NoDup (Py.unique l).
Proof.
  unfold Py.unique. rewrite reverse_Permutation. apply NoDup_remove_dups.
Qed.

(** Two ways of listing the distinct rows: in order of first appearance,
    and from the last to appear to the first. *)
Lemma lists_distinct_unique {A} `{EqDecision A} :
  Spec.lists_distinct (@Py.unique A _).
Proof.
  intros l. split; [apply NoDup_unique|]. intros x. apply elem_of_unique.
Qed.

Lemma lists_distinct_last_first {A} `{EqDecision A} :
  Spec.lists_distinct (@Sample.last_first A _).
Proof.
  intros l. unfold Sample.last_first. split.
  - rewrite reverse_Permutation. apply NoDup_unique.
  - intros x. by rewrite elem_of_reverse, elem_of_unique.
Qed.

(** ** Outcomes and loops *)

Lemma bind_Returned {A B} (m : outcome A) (k : A -> outcome B) (b : B) :
  m ≫= k = Returned b <-> exists a, m = Returned a /\ k a = Returned b.
Proof.
  destruct m as [a|e]; simpl.
  - split; [eauto|]. by intros (a' & [= ->] & H).
  - split; [discriminate|]. by intros (a' & [=] & _).
Qed.


(** A loop whose body appends a block that does not depend on the
    accumulated lines appends the blocks in order. *)
Lemma for_each_blocks {A B} (body : list B -> A -> outcome (list B))
  (block : A -> outcome (list B)) (l : list A) (acc out : list B) :
  (forall acc x, body acc x = b ← block x; mret (acc ++ b)) ->
  for_each body l acc = Returned out ->
  exists blocks,
    Forall2 (fun x b => block x = Returned b) l blocks
    /\ out = acc ++ concat blocks.
Proof.
  intros Hbody. revert acc out. induction l as [|x l IH]; intros acc out.
  - simpl. intros [= <-]. exists []. split; [constructor|].
    by rewrite app_nil_r.
  - simpl. intros H. apply bind_Returned in H as (acc' & Hx & Hrest).
    rewrite Hbody in Hx. apply bind_Returned in Hx as (b & Hb & [= <-]).
    apply IH in Hrest as (blocks & Hall & ->).
    exists (b :: blocks). split; [by constructor|].
    simpl. by rewrite <- app_assoc.
Qed.

Lemma for_each_blocks_Returned {A B} (body : list B -> A -> outcome (list B))
  (block : A -> outcome (list B)) (l : list A) (acc : list B)
  (blocks : list (list B)) :
  (forall acc x, body acc x = b ← block x; mret (acc ++ b)) ->
  Forall2 (fun x b => block x = Returned b) l blocks ->
  for_each body l acc = Returned (acc ++ concat blocks).
Proof.
  intros Hbody Hall. revert acc.
  induction Hall as [|x b l blocks Hb Hall IH]; intros acc; simpl.
  - by rewrite app_nil_r.
  - rewrite Hbody, Hb. simpl. rewrite IH. by rewrite <- app_assoc.
Qed.

(** A loop of blocks returns exactly when every block does, and raises
    what one of its blocks raises. *)
Lemma for_each_blocks_Raised {A B} (body : list B -> A -> outcome (list B))
  (block : A -> outcome (list B)) (l : list A) (acc : list B) (e : exn) :
  (forall acc x, body acc x = b ← block x; mret (acc ++ b)) ->
  for_each body l acc = Raised e ->
  exists x, x ∈ l /\ block x = Raised e.
Proof.
  intros Hbody. revert acc. induction l as [|x l IH]; intros acc; [done|].
  simpl. rewrite Hbody. destruct (block x) as [b|e'] eqn:Hx; simpl.
  - intros (y & Hy & He)%IH. exists y. split; [by right|done].
  - intros [= ->]. exists x. split; [by left|done].
Qed.

Lemma for_each_blocks_all {A B} (body : list B -> A -> outcome (list B))
  (block : A -> outcome (list B)) (l : list A) (acc : list B) :
  (forall acc x, body acc x = b ← block x; mret (acc ++ b)) ->
  (exists out, for_each body l acc = Returned out) <->
  (forall x, x ∈ l -> exists b, block x = Returned b).
Proof.
  intros Hbody. split.
  - intros [out Hout] x Hx.
    destruct (for_each_blocks _ _ _ _ _ Hbody Hout) as (blocks & Hall & _).
    apply list_elem_of_lookup in Hx as [i Hi].
    destruct (Forall2_lookup_l _ _ _ _ _ Hall Hi) as (b & _ & Hb). by exists b.
  - intros Hall. destruct (for_each body l acc) as [out|e] eqn:E; [by eexists|].
    destruct (for_each_blocks_Raised _ _ _ _ _ Hbody E) as (x & Hx & He).
    destruct (Hall x Hx) as [b Hb]. congruence.
Qed.

(** ** The DML synthesizer of [sqlcodegen.py] *)

Section PandasDML.

Import Pandas.

Lemma Pandas_elem_of_targets (m : frame ColumnMapping) (t : string) :
  t ∈ targets m <-> exists r, r ∈ rows m /\ target_table r = t.
Proof.
  unfold targets. rewrite elem_of_unique, list_elem_of_In, in_map_iff.
  split; intros (r & H1 & H2); exists r; rewrite list_elem_of_In in *; done.
Qed.

Lemma Pandas_elem_of_group (m : frame ColumnMapping) (t : string)
  (r : ColumnMapping) :
  r ∈ rows (rows_of_target m t) <-> r ∈ rows m /\ target_table r = t.
Proof.
  unfold rows_of_target. rewrite elem_of_select. by rewrite String.eqb_eq.
Qed.

(** A group is never empty: its target is taken from a row. *)
Lemma Pandas_group_nonempty (m : frame ColumnMapping) (t : string) :
  t ∈ targets m -> rows (rows_of_target m t) <> [].
Proof.
  intros (r & Hr & Ht)%Pandas_elem_of_targets Hnil.
  assert (r ∈ rows (rows_of_target m t)) as Hin
    by by apply Pandas_elem_of_group.
  rewrite Hnil in Hin. by apply elem_of_nil in Hin.
Qed.

Lemma Pandas_iloc0_head {R} (l : list R) (r : R) :
  iloc0 l = Returned r <-> head l = Some r.
Proof. destruct l; simpl; split; congruence. Qed.

Lemma Pandas_source_table_head (tm : frame ColumnMapping)
  (first : ColumnMapping) :
  head (rows tm) = Some first ->
  source_table_of tm =
    Returned (source_schema first +:+ "." +:+ source_table first).
Proof.
  intros H%Pandas_iloc0_head. unfold source_table_of. by rewrite H.
Qed.

Lemma Pandas_type1_returns (tm : frame ColumnMapping) (full : string)
  (first : ColumnMapping) :
  head (rows tm) = Some first ->
  _generate_type1_load tm full =
    Returned (merge_sql full (source_schema first +:+ "." +:+ source_table first)
                (type1_loop tm)).
Proof.
  intros H. unfold _generate_type1_load.
  by rewrite (Pandas_source_table_head _ _ H).
Qed.

Lemma Pandas_type2_returns (tm : frame ColumnMapping) (full : string)
  (first : ColumnMapping) :
  head (rows tm) = Some first ->
  _generate_type2_load tm full =
    Returned (type2_sql full (source_schema first +:+ "." +:+ source_table first)
                (type2_loop tm)).
Proof.
  intros H. unfold _generate_type2_load.
  by rewrite (Pandas_source_table_head _ _ H).
Qed.

Lemma Pandas_governing_head (tm : frame ColumnMapping) (first : ColumnMapping) :
  head (rows tm) = Some first ->
  governing_scd_type tm =
    Returned (if has_column "scd_type" tm then scd_type first
              else CStr "TYPE1").
Proof.
  intros H%Pandas_iloc0_head. unfold governing_scd_type.
  destruct (has_column "scd_type" tm); [|done]. by rewrite H.
Qed.

(** The first line of text tells the three scripts apart. *)
Lemma Pandas_type1_header (t s : string) (l : type1_lists) :
  Py.startswith (nl +:+ nl +:+ "-- SCD Type 1") (merge_sql t s l) = true.
Proof. reflexivity. Qed.

Lemma Pandas_type2_header (t s : string) (l : type2_lists) :
  Py.startswith (nl +:+ nl +:+ "-- SCD Type 2") (type2_sql t s l) = true.
Proof. reflexivity. Qed.

Lemma Pandas_insert_header (t s : string) (l : insert_lists) (script : string) :
  insert_sql t s l = Returned script ->
  Py.startswith (nl +:+ nl +:+ "-- Insert load") script = true.
Proof.
  unfold insert_sql. intros (exprs & _ & [= <-])%bind_Returned. reflexivity.
Qed.

Lemma Pandas_type1_load_header (tm : frame ColumnMapping) (full script : string) :
  _generate_type1_load tm full = Returned script ->
  Py.startswith (nl +:+ nl +:+ "-- SCD Type 1") script = true.
Proof.
  unfold _generate_type1_load. intros (s & _ & [= <-])%bind_Returned.
  apply Pandas_type1_header.
Qed.

Lemma Pandas_type2_load_header (tm : frame ColumnMapping) (full script : string) :
  _generate_type2_load tm full = Returned script ->
  Py.startswith (nl +:+ nl +:+ "-- SCD Type 2") script = true.
Proof.
  unfold _generate_type2_load. intros (s & _ & [= <-])%bind_Returned.
  apply Pandas_type2_header.
Qed.

Lemma Pandas_insert_load_header (tm : frame ColumnMapping) (full script : string) :
  _generate_insert_load tm full = Returned script ->
  Py.startswith (nl +:+ nl +:+ "-- Insert load") script = true.
Proof.
  unfold _generate_insert_load. intros (s & _ & H)%bind_Returned.
  by apply Pandas_insert_header in H.
Qed.

End PandasDML.

(** Two texts that both open a third one open each other. *)
Lemma startswith_comparable (p q s : string) :
  Py.startswith p s = true -> Py.startswith q s = true ->
  Py.startswith p q = true \/ Py.startswith q p = true.
Proof.
  unfold Py.startswith. revert q s.
  induction p as [|a p IH]; intros q s; [by left; destruct q|].
  destruct q as [|b q]; [by right|].
  destruct s as [|c s]; [discriminate|]. simpl.
  destruct (ascii_dec a c) as [->|]; [|discriminate].
  destruct (ascii_dec b c) as [->|]; [|discriminate].
  destruct (ascii_dec c c); [|done]. apply IH.
Qed.

Lemma startswith_clash (p q s : string) :
  Py.startswith p q = false -> Py.startswith q p = false ->
  Py.startswith p s = true -> Py.startswith q s = true -> False.
Proof.
  intros Hpq Hqp Hp Hq.
  destruct (startswith_comparable p q s Hp Hq); congruence.
Qed.

Lemma cell_eq_str_true (c : cell) (s : string) :
  cell_eq_str c s = true <-> c = CStr s.
Proof.
  destruct c; simpl; try (split; [discriminate|congruence]).
  rewrite String.eqb_eq. split; congruence.
Qed.

Lemma cell_eq_str_false (c : cell) (s : string) :
  cell_eq_str c s = false <-> c <> CStr s.
Proof.
  rewrite <- cell_eq_str_true. by destruct (cell_eq_str c s).
Qed.

Section PandasDispatch.

Import Pandas.

Lemma Pandas_load_script_cases (tag : cell) (tm : frame ColumnMapping)
  (full : string) :
  (tag = CStr "TYPE1"
   /\ load_script tag tm full = _generate_type1_load tm full)
  \/ (tag = CStr "TYPE2"
      /\ load_script tag tm full = _generate_type2_load tm full)
  \/ (tag <> CStr "TYPE1" /\ tag <> CStr "TYPE2"
      /\ load_script tag tm full = _generate_insert_load tm full).
Proof.
  unfold load_script.
  destruct (cell_eq_str tag "TYPE1") eqn:E1.
  - left. by apply cell_eq_str_true in E1.
  - apply cell_eq_str_false in E1.
    destruct (cell_eq_str tag "TYPE2") eqn:E2.
    + right; left. by apply cell_eq_str_true in E2.
    + apply cell_eq_str_false in E2. by right; right.
Qed.

(** No text is the script of two strategies. *)
Lemma Pandas_scripts_differ (tm : frame ColumnMapping) (full script : string) :
  (_generate_type1_load tm full = Returned script ->
   _generate_type2_load tm full = Returned script -> False)
  /\ (_generate_type1_load tm full = Returned script ->
      _generate_insert_load tm full = Returned script -> False)
  /\ (_generate_type2_load tm full = Returned script ->
      _generate_insert_load tm full = Returned script -> False).
Proof.
  repeat split.
  - intros H1%Pandas_type1_load_header H2%Pandas_type2_load_header.
    by apply (fun a b => startswith_clash _ _ _ a b H1 H2).
  - intros H1%Pandas_type1_load_header H2%Pandas_insert_load_header.
    by apply (fun a b => startswith_clash _ _ _ a b H1 H2).
  - intros H1%Pandas_type2_load_header H2%Pandas_insert_load_header.
    by apply (fun a b => startswith_clash _ _ _ a b H1 H2).
Qed.

(** What a returned script tells about the tag it was chosen by. *)
Lemma Pandas_script_tells_strategy (tag : cell) (tm : frame ColumnMapping)
  (full script : string) :
  load_script tag tm full = Returned script ->
  (_generate_type1_load tm full = Returned script <-> tag = CStr "TYPE1")
  /\ (_generate_type2_load tm full = Returned script <-> tag = CStr "TYPE2")
  /\ (_generate_insert_load tm full = Returned script <->
      tag <> CStr "TYPE1" /\ tag <> CStr "TYPE2").
Proof.
  intros Hload.
  destruct (Pandas_scripts_differ tm full script) as (H12 & H13 & H23).
  destruct (Pandas_load_script_cases tag tm full)
    as [[-> Heq]|[[-> Heq]|(Hn1 & Hn2 & Heq)]];
    rewrite Heq in Hload; (split; [|split]); split;
    try done; try (intros; exfalso; by eauto); try (by intros []).
Qed.

End PandasDispatch.

(** ** The DML synthesizer of the Polars scripts *)

Section PolarsDML.

Import Polars.

Lemma Polars_elem_of_targets (m : frame ColumnMapping) (p : string * string) :
  p ∈ unique_targets m <->
  exists r, r ∈ rows m /\ (target_schema r, target_table r) = p.
Proof.
  unfold unique_targets, unique_targets_by. rewrite elem_of_unique, list_elem_of_In, in_map_iff.
  split; intros (r & H1 & H2); exists r; rewrite list_elem_of_In in *; done.
Qed.

Lemma Polars_elem_of_group (m : frame ColumnMapping) (p : string * string)
  (r : ColumnMapping) :
  r ∈ rows (rows_of_target m p) <->
  r ∈ rows m /\ (target_schema r, target_table r) = p.
Proof.
  unfold rows_of_target. rewrite elem_of_select, andb_true_iff.
  rewrite !String.eqb_eq. destruct p as [s t]. simpl.
  split; intros [? H]; split; try done; [destruct H; congruence|].
  by injection H.
Qed.

Lemma Polars_group_nonempty (m : frame ColumnMapping) (p : string * string) :
  p ∈ unique_targets m -> rows (rows_of_target m p) <> [].
Proof.
  intros (r & Hr & Ht)%Polars_elem_of_targets Hnil.
  assert (r ∈ rows (rows_of_target m p)) as Hin
    by by apply Polars_elem_of_group.
  rewrite Hnil in Hin. by apply elem_of_nil in Hin.
Qed.

Lemma Polars_row0_head {R} (l : list R) (r : R) :
  row0 l = Returned r <-> head l = Some r.
Proof. destruct l; simpl; split; congruence. Qed.

Lemma Polars_source_table_head (tm : frame ColumnMapping)
  (first : ColumnMapping) :
  head (rows tm) = Some first ->
  source_table_of tm =
    Returned (source_schema first +:+ "." +:+ source_table first).
Proof.
  intros H%Polars_row0_head. unfold source_table_of. by rewrite H.
Qed.

Lemma Polars_type1_returns (tm : frame ColumnMapping) (full : string)
  (first : ColumnMapping) :
  head (rows tm) = Some first ->
  _generate_type1_load tm full =
    Returned (render_type1 full
                (source_schema first +:+ "." +:+ source_table first)
                (type1_loop tm)).
Proof.
  intros H. unfold _generate_type1_load.
  by rewrite (Polars_source_table_head _ _ H).
Qed.

Lemma Polars_type2_returns (tm : frame ColumnMapping) (full : string)
  (first : ColumnMapping) :
  head (rows tm) = Some first ->
  _generate_type2_load tm full =
    Returned (render_type2 full
                (source_schema first +:+ "." +:+ source_table first)
                (type2_loop tm)).
Proof.
  intros H. unfold _generate_type2_load.
  by rewrite (Polars_source_table_head _ _ H).
Qed.

Lemma Polars_governing_head (tm : frame ColumnMapping) (first : ColumnMapping) :
  head (rows tm) = Some first -> has_column "scd_type" tm = true ->
  governing_scd_type tm = Returned (scd_type first).
Proof.
  intros H%Polars_row0_head Hcol. unfold governing_scd_type.
  rewrite Hcol. by rewrite H.
Qed.

Lemma Polars_type1_load_header (tm : frame ColumnMapping) (full script : string) :
  _generate_type1_load tm full = Returned script ->
  Py.startswith "-- SCD Type 1" script = true.
Proof.
  unfold _generate_type1_load. intros (s & _ & [= <-])%bind_Returned.
  reflexivity.
Qed.

Lemma Polars_type2_load_header (tm : frame ColumnMapping) (full script : string) :
  _generate_type2_load tm full = Returned script ->
  Py.startswith "-- SCD Type 2" script = true.
Proof.
  unfold _generate_type2_load. intros (s & _ & [= <-])%bind_Returned.
  reflexivity.
Qed.

Lemma Polars_insert_load_header (tm : frame ColumnMapping) (full script : string) :
  _generate_insert_load tm full = Returned script ->
  Py.startswith "-- Insert load" script = true.
Proof.
  unfold _generate_insert_load. intros (s & _ & [= <-])%bind_Returned.
  reflexivity.
Qed.

Lemma Polars_load_script_cases (tag : cell) (tm : frame ColumnMapping)
  (full : string) :
  (tag = CStr "TYPE1"
   /\ load_script tag tm full = _generate_type1_load tm full)
  \/ (tag = CStr "TYPE2"
      /\ load_script tag tm full = _generate_type2_load tm full)
  \/ (tag <> CStr "TYPE1" /\ tag <> CStr "TYPE2"
      /\ load_script tag tm full = _generate_insert_load tm full).
Proof.
  unfold load_script.
  destruct (cell_eq_str tag "TYPE1") eqn:E1.
  - left. by apply cell_eq_str_true in E1.
  - apply cell_eq_str_false in E1.
    destruct (cell_eq_str tag "TYPE2") eqn:E2.
    + right; left. by apply cell_eq_str_true in E2.
    + apply cell_eq_str_false in E2. by right; right.
Qed.

Lemma Polars_scripts_differ (tm : frame ColumnMapping) (full script : string) :
  (_generate_type1_load tm full = Returned script ->
   _generate_type2_load tm full = Returned script -> False)
  /\ (_generate_type1_load tm full = Returned script ->
      _generate_insert_load tm full = Returned script -> False)
  /\ (_generate_type2_load tm full = Returned script ->
      _generate_insert_load tm full = Returned script -> False).
Proof.
  repeat split.
  - intros H1%Polars_type1_load_header H2%Polars_type2_load_header.
    by apply (fun a b => startswith_clash _ _ _ a b H1 H2).
  - intros H1%Polars_type1_load_header H2%Polars_insert_load_header.
    by apply (fun a b => startswith_clash _ _ _ a b H1 H2).
  - intros H1%Polars_type2_load_header H2%Polars_insert_load_header.
    by apply (fun a b => startswith_clash _ _ _ a b H1 H2).
Qed.

Lemma Polars_script_tells_strategy (tag : cell) (tm : frame ColumnMapping)
  (full script : string) :
  load_script tag tm full = Returned script ->
  (_generate_type1_load tm full = Returned script <-> tag = CStr "TYPE1")
  /\ (_generate_type2_load tm full = Returned script <-> tag = CStr "TYPE2")
  /\ (_generate_insert_load tm full = Returned script <->
      tag <> CStr "TYPE1" /\ tag <> CStr "TYPE2").
Proof.
  intros Hload.
  destruct (Polars_scripts_differ tm full script) as (H12 & H13 & H23).
  destruct (Polars_load_script_cases tag tm full)
    as [[-> Heq]|[[-> Heq]|(Hn1 & Hn2 & Heq)]];
    rewrite Heq in Hload; (split; [|split]); split;
    try done; try (intros; exfalso; by eauto); try (by intros []).
Qed.

End PolarsDML.

(** ** Load blocks *)

(** The body of the loop of [generate_dml] appends a block that does not
    depend on what has been collected so far. *)
Lemma Pandas_dml_table_acc (m : frame ColumnMapping) (acc : list string)
  (target : string) :
  Pandas.dml_table m acc target =
    b ← Pandas.dml_table m [] target; mret (acc ++ b).
Proof.
  unfold Pandas.dml_table.
  destruct (Pandas.iloc0 _) as [first|e]; [simpl|done].
  destruct (Pandas.governing_scd_type _) as [tag|e]; [simpl|done].
  destruct (Pandas.load_script _ _ _) as [script|e]; [simpl|done].
  by rewrite <- !app_assoc.
Qed.

Lemma Polars_dml_table_acc (m : frame ColumnMapping) (acc : list string)
  (target : string * string) :
  Polars.dml_table m acc target =
    b ← Polars.dml_table m [] target; mret (acc ++ b).
Proof.
  unfold Polars.dml_table.
  destruct (Polars.governing_scd_type _) as [tag|e]; [simpl|done].
  destruct (Polars.load_script _ _ _) as [script|e]; [simpl|done].
  by rewrite <- !app_assoc.
Qed.

(** The block of a target, from the two rows that govern it: the first
    row of the group as the sheet has it, and its first row in column
    order. *)
Lemma Pandas_dml_block (m : frame ColumnMapping) (target : string)
  (first lead : ColumnMapping) :
  let tm := sort_by target_column_order (Pandas.rows_of_target m target) in
  let full := target_schema first +:+ "." +:+ target in
  let tag := if has_column "scd_type" m then scd_type lead else CStr "TYPE1" in
  head (rows (Pandas.rows_of_target m target)) = Some first ->
  head (rows tm) = Some lead ->
  Pandas.dml_table m [] target =
    script ← Pandas.load_script tag tm full;
    mret [Pandas.load_comment full tag; Pandas.load_rule; script].
Proof.
  intros tm full tag Hfirst Hlead. unfold Pandas.dml_table.
  rewrite (proj2 (Pandas_iloc0_head _ _) Hfirst).
  cbn [mbind outcome_bind]. cbv zeta. fold tm.
  rewrite (Pandas_governing_head _ _ Hlead). reflexivity.
Qed.

Lemma Pandas_dml_block_rows (m : frame ColumnMapping) (acc : list string)
  (target : string) (out : list string) :
  Pandas.dml_table m acc target = Returned out ->
  exists first lead,
    head (rows (Pandas.rows_of_target m target)) = Some first
    /\ head (rows (sort_by target_column_order
                     (Pandas.rows_of_target m target))) = Some lead.
Proof.
  unfold Pandas.dml_table. intros (first & Hfirst & _)%bind_Returned.
  apply Pandas_iloc0_head in Hfirst.
  assert (rows (Pandas.rows_of_target m target) <> []) as Hne
    by (intros Hnil; by rewrite Hnil in Hfirst).
  apply (sort_by_nonempty target_column_order) in Hne.
  destruct (rows (sort_by _ _)) as [|lead l]; [done|]. by exists first, lead.
Qed.

Lemma Polars_dml_block (m : frame ColumnMapping) (target : string * string)
  (lead : ColumnMapping) :
  let tm := sort_by target_column_order (Polars.rows_of_target m target) in
  let full := target.1 +:+ "." +:+ target.2 in
  head (rows tm) = Some lead ->
  has_column "scd_type" m = true ->
  Polars.dml_table m [] target =
    script ← Polars.load_script (scd_type lead) tm full;
    mret [Polars.load_comment full (scd_type lead); Polars.load_rule; script].
Proof.
  intros tm full Hlead Hcol. unfold Polars.dml_table. cbv zeta. fold tm.
  rewrite (Polars_governing_head _ _ Hlead Hcol). reflexivity.
Qed.

Lemma Polars_dml_block_rows (m : frame ColumnMapping) (acc : list string)
  (target : string * string) (out : list string) :
  Polars.dml_table m acc target = Returned out ->
  has_column "scd_type" m = true
  /\ exists lead,
       head (rows (sort_by target_column_order
                     (Polars.rows_of_target m target))) = Some lead.
Proof.
  unfold Polars.dml_table. intros (tag & Htag & _)%bind_Returned.
  unfold Polars.governing_scd_type in Htag.
  change (has_column "scd_type" (sort_by _ _)) with (has_column "scd_type" m)
    in Htag.
  destruct (has_column "scd_type" m); [|done]. split; [done|].
  apply bind_Returned in Htag as (lead & Hlead & _).
  apply Polars_row0_head in Hlead. by exists lead.
Qed.

(** What [generate_dml] writes when it comes to its end: the banner and
    the blocks of the targets, in the order of the loop. *)
Lemma Pandas_generate_dml_blocks (now : string) (self : Pandas.generator)
  (fs : filesystem) (output_file : string) (m : frame ColumnMapping)
  (res : bool * Pandas.generator * filesystem) :
  Pandas.mappings_df self = Some m ->
  Pandas.generate_dml now self fs output_file = Returned res ->
  exists blocks,
    Forall2 (fun target block => Pandas.dml_table m [] target = Returned block)
      (Pandas.targets m) blocks
    /\ res = (true, self,
              <[output_file :=
                  Py.join nl (Pandas.dml_banner now ++ concat blocks)]> fs).
Proof.
  intros Hm. unfold Pandas.generate_dml. rewrite Hm.
  intros (scripts & Hloop & [= <-])%bind_Returned.
  destruct (for_each_blocks _ _ _ _ _ (Pandas_dml_table_acc m) Hloop)
    as (blocks & Hall & ->).
  by exists blocks.
Qed.

Lemma Polars_generate_dml_blocks
  (distinct : list (string * string) -> list (string * string))
  (now : string) (self : Polars.generator) (fs : filesystem)
  (output_file : string) (m : frame ColumnMapping) :
  Polars.mappings_df self = Some m ->
  (Polars.generate_dml_by distinct now self fs output_file).1.1 = true ->
  exists blocks,
    Forall2 (fun target block => Polars.dml_table m [] target = Returned block)
      (Polars.unique_targets_by distinct m) blocks
    /\ Polars.generate_dml_by distinct now self fs output_file =
         (true, self,
          <[output_file :=
              Py.join nl (Polars.dml_banner now ++ concat blocks)]> fs).
Proof.
  intros Hm. unfold Polars.generate_dml_by. rewrite Hm.
  destruct (for_each _ _ _) as [scripts|e] eqn:Hloop; [|done]. intros _.
  destruct (for_each_blocks _ _ _ _ _ (Polars_dml_table_acc m) Hloop)
    as (blocks & Hall & ->).
  by exists blocks.
Qed.

(** ** C7: dispatch on the governing scd_type *)

(** C7.  The tag that governs a mapping group is the scd_type cell of the
    group's first row in column order (in [sqlcodegen.py] the text TYPE1
    when the sheet has no scd_type column; the Polars scripts have no
    block without that column).  The load block of the group is the
    comment naming that tag, the rule, and one script: the script of the
    Type1 strategy exactly when the tag is the text TYPE1, of the Type2
    strategy exactly when it is TYPE2, and of the Insert strategy for
    every other tag.  The file [generate_dml] writes when it comes to its
    end is the banner followed by these blocks, one for each target of
    the loop; in the Polars scripts for every order in which [unique()]
    may list the targets. *)
Theorem C7_strategy_dispatch :
  (forall (m : frame ColumnMapping) (acc : list string) (target : string)
          (out : list string),
      Pandas.dml_table m acc target = Returned out ->
      exists first lead script,
        let tm := sort_by target_column_order (Pandas.rows_of_target m target) in
        let full := target_schema first +:+ "." +:+ target in
        let tag :=
          if has_column "scd_type" m then scd_type lead else CStr "TYPE1" in
        head (rows (Pandas.rows_of_target m target)) = Some first
        /\ head (rows tm) = Some lead
        /\ out = acc ++ [Pandas.load_comment full tag; Pandas.load_rule; script]
        /\ (Pandas._generate_type1_load tm full = Returned script <->
            tag = CStr "TYPE1")
        /\ (Pandas._generate_type2_load tm full = Returned script <->
            tag = CStr "TYPE2")
        /\ (Pandas._generate_insert_load tm full = Returned script <->
            tag <> CStr "TYPE1" /\ tag <> CStr "TYPE2"))
  /\ (forall (now : string) (self : Pandas.generator) (fs : filesystem)
             (output_file : string) (m : frame ColumnMapping)
             (res : bool * Pandas.generator * filesystem),
      Pandas.mappings_df self = Some m ->
      Pandas.generate_dml now self fs output_file = Returned res ->
      exists blocks,
        Forall2
          (fun target block => Pandas.dml_table m [] target = Returned block)
          (Pandas.targets m) blocks
        /\ res = (true, self,
                  <[output_file :=
                      Py.join nl (Pandas.dml_banner now ++ concat blocks)]> fs))
  /\ (forall (m : frame ColumnMapping) (acc : list string)
             (target : string * string) (out : list string),
      Polars.dml_table m acc target = Returned out ->
      exists lead script,
        let tm := sort_by target_column_order (Polars.rows_of_target m target) in
        let full := target.1 +:+ "." +:+ target.2 in
        let tag := scd_type lead in
        has_column "scd_type" m = true
        /\ head (rows tm) = Some lead
        /\ out = acc ++ [Polars.load_comment full tag; Polars.load_rule; script]
        /\ (Polars._generate_type1_load tm full = Returned script <->
            tag = CStr "TYPE1")
        /\ (Polars._generate_type2_load tm full = Returned script <->
            tag = CStr "TYPE2")
        /\ (Polars._generate_insert_load tm full = Returned script <->
            tag <> CStr "TYPE1" /\ tag <> CStr "TYPE2"))
  /\ (forall (distinct : list (string * string) -> list (string * string))
             (now : string) (self : Polars.generator) (fs : filesystem)
             (output_file : string) (m : frame ColumnMapping),
      Polars.mappings_df self = Some m ->
      (Polars.generate_dml_by distinct now self fs output_file).1.1 = true ->
      exists blocks,
        Forall2
          (fun target block => Polars.dml_table m [] target = Returned block)
          (Polars.unique_targets_by distinct m) blocks
        /\ Polars.generate_dml_by distinct now self fs output_file =
             (true, self,
              <[output_file :=
                  Py.join nl (Polars.dml_banner now ++ concat blocks)]> fs)).
Proof.
  split; [|split; [|split]].
  - intros m acc target out H.
    destruct (Pandas_dml_block_rows _ _ _ _ H) as (first & lead & Hfirst & Hlead).
    rewrite Pandas_dml_table_acc, (Pandas_dml_block _ _ _ _ Hfirst Hlead) in H.
    apply bind_Returned in H as (b & Hb & [= <-]).
    apply bind_Returned in Hb as (script & Hscript & [= <-]).
    exists first, lead, script. cbv zeta.
    split; [done|]. split; [done|]. split; [done|].
    by apply Pandas_script_tells_strategy.
  - apply Pandas_generate_dml_blocks.
  - intros m acc target out H.
    destruct (Polars_dml_block_rows _ _ _ _ H) as (Hcol & lead & Hlead).
    rewrite Polars_dml_table_acc, (Polars_dml_block _ _ _ Hlead Hcol) in H.
    apply bind_Returned in H as (b & Hb & [= <-]).
    apply bind_Returned in Hb as (script & Hscript & [= <-]).
    exists lead, script. cbv zeta.
    split; [done|]. split; [done|]. split; [done|].
    by apply Polars_script_tells_strategy.
  - apply Polars_generate_dml_blocks.
Qed.

Lemma C7_strategy_dispatch_witness :
  (exists s1 s2 s3,
     Pandas.generate_dml Sample.timestamp
       (Pandas.Generator None None (Some Sample.three_loads) [])
       ∅ "dml_scripts.sql" =
     Returned
       (true, Pandas.Generator None None (Some Sample.three_loads) [],
        <["dml_scripts.sql" :=
            Py.join nl
              (Pandas.dml_banner Sample.timestamp ++
               [Pandas.load_comment "dwh.dim_customer" (CStr "TYPE1");
                Pandas.load_rule; s1;
                Pandas.load_comment "dwh.dim_product" (CStr "TYPE2");
                Pandas.load_rule; s2;
                Pandas.load_comment "dwh.fact_sales" (CStr "FOO");
                Pandas.load_rule; s3])]> ∅)
     /\ Pandas._generate_type1_load
          (sort_by target_column_order
             (Pandas.rows_of_target Sample.three_loads "dim_customer"))
          "dwh.dim_customer" = Returned s1
     /\ Pandas._generate_type2_load
          (sort_by target_column_order
             (Pandas.rows_of_target Sample.three_loads "dim_product"))
          "dwh.dim_product" = Returned s2
     /\ Pandas._generate_insert_load
          (sort_by target_column_order
             (Pandas.rows_of_target Sample.three_loads "fact_sales"))
          "dwh.fact_sales" = Returned s3)
  /\ (exists s1 s2 s3,
        Polars.generate_dml_by Sample.last_first Sample.timestamp
          (Polars.Generator None None (Some Sample.three_loads) [])
          ∅ "dml_scripts.sql" =
        (true, Polars.Generator None None (Some Sample.three_loads) [],
         <["dml_scripts.sql" :=
             Py.join nl
               (Polars.dml_banner Sample.timestamp ++
                [Polars.load_comment "dwh.fact_sales" (CStr "FOO");
                 Polars.load_rule; s3;
                 Polars.load_comment "dwh.dim_product" (CStr "TYPE2");
                 Polars.load_rule; s2;
                 Polars.load_comment "dwh.dim_customer" (CStr "TYPE1");
                 Polars.load_rule; s1])]> ∅)
        /\ Polars._generate_type1_load
             (sort_by target_column_order
                (Polars.rows_of_target Sample.three_loads
                   ("dwh", "dim_customer")))
             "dwh.dim_customer" = Returned s1
        /\ Polars._generate_type2_load
             (sort_by target_column_order
                (Polars.rows_of_target Sample.three_loads
                   ("dwh", "dim_product")))
             "dwh.dim_product" = Returned s2
        /\ Polars._generate_insert_load
             (sort_by target_column_order
                (Polars.rows_of_target Sample.three_loads
                   ("dwh", "fact_sales")))
             "dwh.fact_sales" = Returned s3).
Proof.
  destruct C7_strategy_dispatch as (Hpd & Hpd_file & Hpl & Hpl_file).
  split.
  - destruct (Pandas.generate_dml Sample.timestamp
                (Pandas.Generator None None (Some Sample.three_loads) [])
                ∅ "dml_scripts.sql") as [res|e] eqn:E;
      [|vm_compute in E; discriminate E].
    destruct (Hpd_file Sample.timestamp
                (Pandas.Generator None None (Some Sample.three_loads) [])
                ∅ "dml_scripts.sql" Sample.three_loads res eq_refl E)
      as (blocks & Hall & ->).
    change (Pandas.targets Sample.three_loads)
      with ["dim_customer"; "dim_product"; "fact_sales"] in Hall.
    apply Forall2_cons_inv_l in Hall as (b1 & bs1 & H1 & Hall & ->).
    apply Forall2_cons_inv_l in Hall as (b2 & bs2 & H2 & Hall & ->).
    apply Forall2_cons_inv_l in Hall as (b3 & bs3 & H3 & Hall & ->).
    apply Forall2_nil_inv_l in Hall as ->.
    destruct (Hpd _ _ _ _ H1)
      as (f1 & l1 & s1 & Hf1 & Hl1 & -> & T1 & _ & _).
    destruct (Hpd _ _ _ _ H2)
      as (f2 & l2 & s2 & Hf2 & Hl2 & -> & _ & T2 & _).
    destruct (Hpd _ _ _ _ H3)
      as (f3 & l3 & s3 & Hf3 & Hl3 & -> & _ & _ & T3).
    vm_compute in Hf1, Hl1, Hf2, Hl2, Hf3, Hl3.
    injection Hf1 as <-. injection Hl1 as <-. injection Hf2 as <-.
    injection Hl2 as <-. injection Hf3 as <-. injection Hl3 as <-.
    exists s1, s2, s3. split; [reflexivity|].
    split; [by apply T1|]. split; [by apply T2|].
    apply T3. split; discriminate.
  - pose proof (Hpl_file Sample.last_first Sample.timestamp
                  (Polars.Generator None None (Some Sample.three_loads) [])
                  ∅ "dml_scripts.sql" Sample.three_loads eq_refl) as H.
    destruct H as (blocks & Hall & ->); [by vm_compute|].
    change (Polars.unique_targets_by Sample.last_first Sample.three_loads)
      with [("dwh", "fact_sales"); ("dwh", "dim_product");
            ("dwh", "dim_customer")] in Hall.
    apply Forall2_cons_inv_l in Hall as (b3 & bs3 & H3 & Hall & ->).
    apply Forall2_cons_inv_l in Hall as (b2 & bs2 & H2 & Hall & ->).
    apply Forall2_cons_inv_l in Hall as (b1 & bs1 & H1 & Hall & ->).
    apply Forall2_nil_inv_l in Hall as ->.
    destruct (Hpl _ _ _ _ H1) as (l1 & s1 & _ & Hl1 & -> & T1 & _ & _).
    destruct (Hpl _ _ _ _ H2) as (l2 & s2 & _ & Hl2 & -> & _ & T2 & _).
    destruct (Hpl _ _ _ _ H3) as (l3 & s3 & _ & Hl3 & -> & _ & _ & T3).
    vm_compute in Hl1, Hl2, Hl3.
    injection Hl1 as <-. injection Hl2 as <-. injection Hl3 as <-.
    exists s1, s2, s3. split; [reflexivity|].
    split; [by apply T1|]. split; [by apply T2|].
    apply T3. split; discriminate.
Defined.

(** ** C8: groups without a business key *)

Lemma string_app_assoc (a b c : string) : (a +:+ b) +:+ c = a +:+ (b +:+ c).
Proof.
  induction a as [|x a IH]; [done|].
  change (String x ((a +:+ b) +:+ c) = String x (a +:+ (b +:+ c))).
  by rewrite IH.
Qed.

Lemma contains_app_r (needle a b : string) :
  Spec.contains needle b -> Spec.contains needle (a +:+ b).
Proof.
  intros (pre & post & ->). exists (a +:+ pre), post.
  by rewrite string_app_assoc.
Qed.

Lemma filter_none {A} (P : A -> bool) (l : list A) :
  (forall x, x ∈ l -> P x = false) -> List.filter P l = [].
Proof.
  induction l as [|x l IH]; intros H; simpl; [done|].
  rewrite (H x) by left. apply IH. intros y Hy. apply H. by right.
Qed.

Lemma head_is_Some_nonempty {A} (l : list A) :
  l <> [] -> exists x, head l = Some x.
Proof. destruct l; [done|eauto]. Qed.

(** With an empty key list the MERGE has a bare ON line, and the Type2
    statements a bare AND line. *)
Lemma Pandas_merge_sql_bare_on (t s : string) (l : Pandas.type1_lists) :
  Pandas.t1_business_keys l = [] ->
  Spec.contains (nl +:+ "ON " +:+ nl +:+ "WHEN MATCHED THEN")
    (Pandas.merge_sql t s l).
Proof.
  intros Hk. unfold Pandas.merge_sql. rewrite Hk.
  unfold Py.join. cbn [String.concat Pandas.business_key_join map].
  do 23 apply contains_app_r. eexists EmptyString, _. reflexivity.
Qed.

Lemma Pandas_type2_sql_bare_and (t s : string) (l : Pandas.type2_lists) :
  Pandas.t2_business_keys l = [] ->
  Spec.contains (nl +:+ "AND " +:+ nl +:+ "AND (") (Pandas.type2_sql t s l).
Proof.
  intros Hk. unfold Pandas.type2_sql. rewrite Hk.
  unfold Py.join. cbn [String.concat Pandas.business_key_join map].
  do 31 apply contains_app_r. eexists EmptyString, _. reflexivity.
Qed.

Ltac find_occurrence :=
  first [ by (eexists EmptyString, _; reflexivity)
        | apply contains_app_r; find_occurrence ].

Lemma Polars_render_type1_bare_on (t s : string) (l : Polars.type1_lists) :
  Polars.t1_business_keys l = [] ->
  Spec.contains (nl +:+ "ON " +:+ nl +:+ "WHEN MATCHED THEN")
    (Polars.render_type1 t s l).
Proof.
  intros Hk. unfold Polars.render_type1. rewrite Hk.
  cbv zeta. cbn [Polars.business_key_join map Py.join String.concat].
  find_occurrence.
Qed.

Lemma Polars_render_type2_bare_and (t s : string) (l : Polars.type2_lists) :
  Polars.t2_business_keys l = [] ->
  Spec.contains (nl +:+ "AND " +:+ nl +:+ "AND (") (Polars.render_type2 t s l).
Proof.
  intros Hk. unfold Polars.render_type2. rewrite Hk.
  cbv zeta. cbn [Polars.business_key_join map Py.join String.concat].
  find_occurrence.
Qed.

Lemma Pandas_no_key_lists (tm : frame ColumnMapping) :
  (forall r, r ∈ rows tm -> Pandas.business_key r = false) ->
  Pandas.t1_business_keys (Pandas.type1_loop tm) = []
  /\ Pandas.t2_business_keys (Pandas.type2_loop tm) = [].
Proof.
  intros H. rewrite Pandas_type1_loop, Pandas_type2_loop. simpl.
  by rewrite (filter_none _ _ H).
Qed.

Lemma Polars_no_key_lists (tm : frame ColumnMapping) :
  (forall r, r ∈ rows tm -> Polars.business_key r = false) ->
  Polars.t1_business_keys (Polars.type1_loop tm) = []
  /\ Polars.t2_business_keys (Polars.type2_loop tm) = [].
Proof.
  intros H. rewrite Polars_type1_loop, Polars_type2_loop. simpl.
  by rewrite (filter_none _ _ H).
Qed.

Lemma head_elem_of {A} (l : list A) (x : A) : head l = Some x -> x ∈ l.
Proof. destruct l; [done|]. intros [= ->]. left. Qed.

(** A block of the loop is found in what the loop collects, between the
    lines before it and the lines after it. *)
Lemma block_in_concat {A} (R : A -> list string -> Prop) (l : list A)
  (blocks : list (list string)) (banner : list string) (x : A) :
  Forall2 R l blocks -> x ∈ l ->
  exists block before after,
    R x block /\ banner ++ concat blocks = before ++ block ++ after.
Proof.
  intros Hall [i Hi]%list_elem_of_lookup.
  destruct (Forall2_lookup_l _ _ _ _ _ Hall Hi) as (block & Hb & HR).
  exists block, (banner ++ concat (take i blocks)),
    (concat (drop (S i) blocks)).
  split; [done|].
  rewrite <- (take_drop_middle blocks i block Hb) at 1.
  rewrite concat_app. simpl. by rewrite <- !app_assoc.
Qed.

(** C8.  A Type1 or Type2 mapping group none of whose rows is a business
    key is loaded like any other.  Its script is the strategy's template
    with the empty text as join predicate: a bare ON line in the MERGE, a
    bare AND line in the Type2 statements.  The body of the loop returns
    with the block of the group appended, so whether [generate_dml] comes
    to its end depends on the other groups only; and when it does, it
    has recorded no error and the file it has written holds the block.
    In the pandas generator and in the Polars generator, whatever the
    order in which [unique()] lists the targets. *)
Theorem C8_no_business_key :
  (forall (now : string) (self : Pandas.generator) (fs : filesystem)
          (output_file : string) (m : frame ColumnMapping) (target : string)
          (lead : ColumnMapping),
      let tm := sort_by target_column_order (Pandas.rows_of_target m target) in
      let tag :=
        if has_column "scd_type" m then scd_type lead else CStr "TYPE1" in
      let src := source_schema lead +:+ "." +:+ source_table lead in
      Pandas.mappings_df self = Some m ->
      head (rows tm) = Some lead ->
      (forall r, r ∈ rows m -> target_table r = target ->
                 Pandas.business_key r = false) ->
      tag = CStr "TYPE1" \/ tag = CStr "TYPE2" ->
      exists first script,
        let full := target_schema first +:+ "." +:+ target in
        let block := [Pandas.load_comment full tag; Pandas.load_rule; script] in
        head (rows (Pandas.rows_of_target m target)) = Some first
        /\ (tag = CStr "TYPE1" ->
            script = Pandas.merge_sql full src (Pandas.type1_loop tm)
            /\ Pandas.business_key_join
                 (Pandas.t1_business_keys (Pandas.type1_loop tm)) = EmptyString
            /\ Spec.contains (nl +:+ "ON " +:+ nl +:+ "WHEN MATCHED THEN") script)
        /\ (tag = CStr "TYPE2" ->
            script = Pandas.type2_sql full src (Pandas.type2_loop tm)
            /\ Pandas.business_key_join
                 (Pandas.t2_business_keys (Pandas.type2_loop tm)) = EmptyString
            /\ Spec.contains (nl +:+ "AND " +:+ nl +:+ "AND (") script)
        /\ (forall acc, Pandas.dml_table m acc target = Returned (acc ++ block))
        /\ ((exists res,
               Pandas.generate_dml now self fs output_file = Returned res) <->
            (forall t, t ∈ Pandas.targets m -> t <> target ->
                       exists b, Pandas.dml_table m [] t = Returned b))
        /\ (forall res,
               Pandas.generate_dml now self fs output_file = Returned res ->
               exists before after,
                 res = (true, self,
                        <[output_file :=
                            Py.join nl (before ++ block ++ after)]> fs)))
  /\ (forall (distinct : list (string * string) -> list (string * string))
             (now : string) (self : Polars.generator) (fs : filesystem)
             (output_file : string) (m : frame ColumnMapping)
             (target : string * string) (lead : ColumnMapping),
      let tm := sort_by target_column_order (Polars.rows_of_target m target) in
      let tag := scd_type lead in
      let src := source_schema lead +:+ "." +:+ source_table lead in
      let full := target.1 +:+ "." +:+ target.2 in
      let run := Polars.generate_dml_by distinct now self fs output_file in
      Spec.lists_distinct distinct ->
      Polars.mappings_df self = Some m ->
      has_column "scd_type" m = true ->
      head (rows tm) = Some lead ->
      (forall r, r ∈ rows m ->
                 (target_schema r, target_table r) = target ->
                 Polars.business_key r = false) ->
      tag = CStr "TYPE1" \/ tag = CStr "TYPE2" ->
      exists script,
        let block := [Polars.load_comment full tag; Polars.load_rule; script] in
        (tag = CStr "TYPE1" ->
         script = Polars.render_type1 full src (Polars.type1_loop tm)
         /\ Polars.business_key_join
              (Polars.t1_business_keys (Polars.type1_loop tm)) = EmptyString
         /\ Spec.contains (nl +:+ "ON " +:+ nl +:+ "WHEN MATCHED THEN") script)
        /\ (tag = CStr "TYPE2" ->
            script = Polars.render_type2 full src (Polars.type2_loop tm)
            /\ Polars.business_key_join
                 (Polars.t2_business_keys (Polars.type2_loop tm)) = EmptyString
            /\ Spec.contains (nl +:+ "AND " +:+ nl +:+ "AND (") script)
        /\ (forall acc, Polars.dml_table m acc target = Returned (acc ++ block))
        /\ (run.1.1 = true <->
            (forall t, t ∈ Polars.unique_targets_by distinct m -> t <> target ->
                       exists b, Polars.dml_table m [] t = Returned b))
        /\ (run.1.1 = true ->
            exists before after,
              run = (true, self,
                     <[output_file :=
                         Py.join nl (before ++ block ++ after)]> fs))).
Proof.
  split.
  - intros now self fs output_file m target lead tm tag src Hm Hlead Hnokey
      Hcases.
    assert (lead ∈ rows m /\ target_table lead = target) as [Hin Ht].
    { apply Pandas_elem_of_group, (elem_of_sort_by target_column_order).
      by apply head_elem_of. }
    assert (target ∈ Pandas.targets m) as Htarget
      by (apply Pandas_elem_of_targets; by exists lead).
    destruct (head_is_Some_nonempty _ (Pandas_group_nonempty m target Htarget))
      as [first Hfirst].
    assert (forall r, r ∈ rows tm -> Pandas.business_key r = false) as Hnk.
    { intros r Hr. apply elem_of_sort_by, Pandas_elem_of_group in Hr as [? ?].
      by apply Hnokey. }
    destruct (Pandas_no_key_lists tm Hnk) as [Hk1 Hk2].
    set (full := target_schema first +:+ "." +:+ target).
    set (script := if cell_eq_str tag "TYPE1"
                   then Pandas.merge_sql full src (Pandas.type1_loop tm)
                   else Pandas.type2_sql full src (Pandas.type2_loop tm)).
    assert (Pandas.load_script tag tm full = Returned script) as Hload.
    { unfold Pandas.load_script, script. destruct Hcases as [-> | ->]; simpl.
      - by apply Pandas_type1_returns.
      - by apply Pandas_type2_returns. }
    assert (Pandas.dml_table m [] target =
              Returned [Pandas.load_comment full tag; Pandas.load_rule; script])
      as Hblock.
    { rewrite (Pandas_dml_block _ _ _ _ Hfirst Hlead). fold tm tag full.
      by rewrite Hload. }
    exists first, script. cbv zeta. fold full.
    split; [done|]. split; [|split; [|split; [|split]]].
    + intros Htag. unfold script. rewrite Htag. simpl. rewrite Hk1.
      split; [done|]. split; [done|]. by apply Pandas_merge_sql_bare_on.
    + intros Htag. unfold script. rewrite Htag. simpl. rewrite Hk2.
      split; [done|]. split; [done|]. by apply Pandas_type2_sql_bare_and.
    + intros acc. by rewrite Pandas_dml_table_acc, Hblock.
    + unfold Pandas.generate_dml. rewrite Hm.
      transitivity (exists out, for_each (Pandas.dml_table m) (Pandas.targets m)
                                  (Pandas.dml_banner now) = Returned out).
      { destruct (for_each _ _ _); split; intros [? ?]; by eauto. }
      rewrite (for_each_blocks_all _ _ _ _ (Pandas_dml_table_acc m)).
      split; [by eauto|]. intros H t Hin'.
      destruct (decide (t = target)) as [->|Hne]; [by eexists|by apply H].
    + intros res Hres.
      destruct (Pandas_generate_dml_blocks _ _ _ _ _ _ Hm Hres)
        as (blocks & Hall & ->).
      destruct (block_in_concat _ _ _ (Pandas.dml_banner now) _ Hall Htarget)
        as (b & before & after & Hb & ->).
      rewrite Hblock in Hb. injection Hb as <-. by exists before, after.
  - intros distinct now self fs output_file m target lead tm tag src full run
      Hd Hm Hcol Hlead Hnokey Hcases.
    assert (lead ∈ rows m /\ (target_schema lead, target_table lead) = target)
      as [Hin Ht].
    { apply Polars_elem_of_group, (elem_of_sort_by target_column_order).
      by apply head_elem_of. }
    assert (target ∈ Polars.unique_targets_by distinct m) as Htarget.
    { apply Hd. rewrite <- Ht.
      by apply (list_elem_of_fmap_2
                  (fun r => (target_schema r, target_table r))). }
    assert (forall r, r ∈ rows tm -> Polars.business_key r = false) as Hnk.
    { intros r Hr. apply elem_of_sort_by, Polars_elem_of_group in Hr as [? ?].
      by apply Hnokey. }
    destruct (Polars_no_key_lists tm Hnk) as [Hk1 Hk2].
    set (script := if cell_eq_str tag "TYPE1"
                   then Polars.render_type1 full src (Polars.type1_loop tm)
                   else Polars.render_type2 full src (Polars.type2_loop tm)).
    assert (Polars.load_script tag tm full = Returned script) as Hload.
    { unfold Polars.load_script, script. destruct Hcases as [-> | ->]; simpl.
      - by apply Polars_type1_returns.
      - by apply Polars_type2_returns. }
    assert (Polars.dml_table m [] target =
              Returned [Polars.load_comment full tag; Polars.load_rule; script])
      as Hblock.
    { rewrite (Polars_dml_block _ _ _ Hlead Hcol). fold tm tag full.
      by rewrite Hload. }
    exists script. cbv zeta.
    split; [|split; [|split; [|split]]].
    + intros Htag. unfold script. rewrite Htag. simpl. rewrite Hk1.
      split; [done|]. split; [done|]. by apply Polars_render_type1_bare_on.
    + intros Htag. unfold script. rewrite Htag. simpl. rewrite Hk2.
      split; [done|]. split; [done|]. by apply Polars_render_type2_bare_and.
    + intros acc. by rewrite Polars_dml_table_acc, Hblock.
    + unfold run, Polars.generate_dml_by. rewrite Hm.
      transitivity (exists out, for_each (Polars.dml_table m)
                                  (Polars.unique_targets_by distinct m)
                                  (Polars.dml_banner now) = Returned out).
      { destruct (for_each _ _ _); split; try done; [by eauto|by intros [? ?]]. }
      rewrite (for_each_blocks_all _ _ _ _ (Polars_dml_table_acc m)).
      split; [by eauto|]. intros H t Hin'.
      destruct (decide (t = target)) as [->|Hne]; [by eexists|by apply H].
    + intros Hrun.
      destruct (Polars_generate_dml_blocks _ _ _ _ _ _ Hm Hrun)
        as (blocks & Hall & Heq).
      destruct (block_in_concat _ _ _ (Polars.dml_banner now) _ Hall Htarget)
        as (b & before & after & Hb & Hsplit).
      rewrite Hblock in Hb. injection Hb as <-.
      exists before, after. unfold run. by rewrite Heq, Hsplit.
Qed.

Lemma C8_no_business_key_witness :
  (exists script before after,
     Pandas.generate_dml Sample.timestamp
       (Pandas.Generator None None
          (Some (Sample.keyless_mappings (CStr "TYPE1"))) [])
       ∅ "dml_scripts.sql" =
     Returned
       (true,
        Pandas.Generator None None
          (Some (Sample.keyless_mappings (CStr "TYPE1"))) [],
        <["dml_scripts.sql" :=
            Py.join nl
              (before ++
               [Pandas.load_comment "dwh.dim_customer" (CStr "TYPE1");
                Pandas.load_rule; script] ++ after)]> ∅)
     /\ Spec.contains (nl +:+ "ON " +:+ nl +:+ "WHEN MATCHED THEN") script)
  /\ (exists script before after,
        Pandas.generate_dml Sample.timestamp
          (Pandas.Generator None None
             (Some (Sample.keyless_mappings (CStr "TYPE2"))) [])
          ∅ "dml_scripts.sql" =
        Returned
          (true,
           Pandas.Generator None None
             (Some (Sample.keyless_mappings (CStr "TYPE2"))) [],
           <["dml_scripts.sql" :=
               Py.join nl
                 (before ++
                  [Pandas.load_comment "dwh.dim_customer" (CStr "TYPE2");
                   Pandas.load_rule; script] ++ after)]> ∅)
        /\ Spec.contains (nl +:+ "AND " +:+ nl +:+ "AND (") script)
  /\ (exists script before after,
        Polars.generate_dml Sample.timestamp
          (Polars.Generator None None
             (Some (Sample.keyless_mappings (CStr "TYPE1"))) [])
          ∅ "dml_scripts.sql" =
        (true,
         Polars.Generator None None
           (Some (Sample.keyless_mappings (CStr "TYPE1"))) [],
         <["dml_scripts.sql" :=
             Py.join nl
               (before ++
                [Polars.load_comment "dwh.dim_customer" (CStr "TYPE1");
                 Polars.load_rule; script] ++ after)]> ∅)
        /\ Spec.contains (nl +:+ "ON " +:+ nl +:+ "WHEN MATCHED THEN") script)
  /\ (exists script before after,
        Polars.generate_dml_by Sample.last_first Sample.timestamp
          (Polars.Generator None None
             (Some (Sample.keyless_mappings (CStr "TYPE2"))) [])
          ∅ "dml_scripts.sql" =
        (true,
         Polars.Generator None None
           (Some (Sample.keyless_mappings (CStr "TYPE2"))) [],
         <["dml_scripts.sql" :=
             Py.join nl
               (before ++
                [Polars.load_comment "dwh.dim_customer" (CStr "TYPE2");
                 Polars.load_rule; script] ++ after)]> ∅)
        /\ Spec.contains (nl +:+ "AND " +:+ nl +:+ "AND (") script).
Proof.
  assert (forall tag r, r ∈ rows (Sample.keyless_mappings tag) ->
                        Pandas.business_key r = false) as Hpd.
  { intros tag. apply Forall_forall. repeat constructor. }
  assert (forall tag r, r ∈ rows (Sample.keyless_mappings tag) ->
                        Polars.business_key r = false) as Hpl.
  { intros tag. apply Forall_forall. repeat constructor. }
  split; [|split; [|split]].
  - destruct (proj1 C8_no_business_key Sample.timestamp
                (Pandas.Generator None None
                   (Some (Sample.keyless_mappings (CStr "TYPE1"))) [])
                ∅ "dml_scripts.sql" (Sample.keyless_mappings (CStr "TYPE1"))
                "dim_customer" (Sample.customer_key (CStr "TYPE1")))
      as (first & script & Hfirst & H1 & _ & _ & Hruns & Hfile).
    + reflexivity.
    + vm_compute. reflexivity.
    + intros r Hr _. by apply (Hpd (CStr "TYPE1")).
    + left. vm_compute. reflexivity.
    + vm_compute in Hfirst. injection Hfirst as <-.
      destruct (proj2 Hruns) as [res Hres].
      { intros t Ht Hne.
        change (t ∈ ["dim_customer"]) in Ht.
        by apply list_elem_of_singleton in Ht. }
      destruct (Hfile res Hres) as (before & after & ->).
      exists script, before, after. split; [exact Hres|].
      apply H1. vm_compute. reflexivity.
  - destruct (proj1 C8_no_business_key Sample.timestamp
                (Pandas.Generator None None
                   (Some (Sample.keyless_mappings (CStr "TYPE2"))) [])
                ∅ "dml_scripts.sql" (Sample.keyless_mappings (CStr "TYPE2"))
                "dim_customer" (Sample.customer_key (CStr "TYPE2")))
      as (first & script & Hfirst & _ & H2 & _ & Hruns & Hfile).
    + reflexivity.
    + vm_compute. reflexivity.
    + intros r Hr _. by apply (Hpd (CStr "TYPE2")).
    + right. vm_compute. reflexivity.
    + vm_compute in Hfirst. injection Hfirst as <-.
      destruct (proj2 Hruns) as [res Hres].
      { intros t Ht Hne.
        change (t ∈ ["dim_customer"]) in Ht.
        by apply list_elem_of_singleton in Ht. }
      destruct (Hfile res Hres) as (before & after & ->).
      exists script, before, after. split; [exact Hres|].
      apply H2. vm_compute. reflexivity.
  - destruct (proj2 C8_no_business_key Py.unique Sample.timestamp
                (Polars.Generator None None
                   (Some (Sample.keyless_mappings (CStr "TYPE1"))) [])
                ∅ "dml_scripts.sql" (Sample.keyless_mappings (CStr "TYPE1"))
                ("dwh", "dim_customer") (Sample.customer_key (CStr "TYPE1")))
      as (script & H1 & _ & _ & Hruns & Hfile).
    + apply lists_distinct_unique.
    + reflexivity.
    + vm_compute. reflexivity.
    + vm_compute. reflexivity.
    + intros r Hr _. by apply (Hpl (CStr "TYPE1")).
    + left. reflexivity.
    + destruct Hfile as (before & after & Hres).
      { apply Hruns. intros t Ht Hne.
        change (t ∈ [("dwh", "dim_customer")]) in Ht.
        by apply list_elem_of_singleton in Ht. }
      exists script, before, after. split; [exact Hres|].
      apply H1. reflexivity.
  - destruct (proj2 C8_no_business_key Sample.last_first Sample.timestamp
                (Polars.Generator None None
                   (Some (Sample.keyless_mappings (CStr "TYPE2"))) [])
                ∅ "dml_scripts.sql" (Sample.keyless_mappings (CStr "TYPE2"))
                ("dwh", "dim_customer") (Sample.customer_key (CStr "TYPE2")))
      as (script & _ & H2 & _ & Hruns & Hfile).
    + apply lists_distinct_last_first.
    + reflexivity.
    + vm_compute. reflexivity.
    + vm_compute. reflexivity.
    + intros r Hr _. by apply (Hpl (CStr "TYPE2")).
    + right. reflexivity.
    + destruct Hfile as (before & after & Hres).
      { apply Hruns. intros t Ht Hne.
        change (t ∈ [("dwh", "dim_customer")]) in Ht.
        by apply list_elem_of_singleton in Ht. }
      exists script, before, after. split; [exact Hres|].
      apply H2. reflexivity.
Defined.

(** ** C6: the change-detection predicate of the Type2 strategy *)

Lemma StronglySorted_filter {A} (R : relation A) (P : A -> bool) (l : list A) :
  StronglySorted R l -> StronglySorted R (List.filter P l).
Proof.
  induction 1 as [|x l Hs IH Hall]; simpl; [constructor|].
  destruct (P x); [|done]. constructor; [done|].
  rewrite Forall_forall in *. intros y Hy. apply Hall.
  apply list_elem_of_In in Hy. apply filter_In in Hy as [Hy _].
  by apply list_elem_of_In.
Qed.

Lemma Pandas_type2_sql_change_check (t s : string) (l : Pandas.type2_lists) :
  Spec.contains
    (nl +:+ "AND (" +:+ Pandas.change_check (Pandas.t2_compare_cols l) +:+ ");")
    (Pandas.type2_sql t s l)
  /\ Spec.contains
    (nl +:+ "AND (" +:+ Pandas.change_check (Pandas.t2_compare_cols l) +:+ ")"
        +:+ nl +:+ ");")
    (Pandas.type2_sql t s l).
Proof.
  unfold Pandas.type2_sql. cbv zeta. unfold Py.join.
  cbn [String.concat].
  generalize (Pandas.change_check (Pandas.t2_compare_cols l)). intros pred.
  split.
  - do 33 apply contains_app_r. eexists EmptyString, _.
    cbn [String.append]. rewrite !string_app_assoc. reflexivity.
  - do 85 apply contains_app_r. eexists EmptyString, _.
    cbn [String.append]. rewrite !string_app_assoc. reflexivity.
Qed.

Ltac find_occurrence_assoc :=
  first [ by (eexists EmptyString, _; cbn [String.append];
              rewrite ?string_app_assoc; reflexivity)
        | apply contains_app_r; find_occurrence_assoc ].

Lemma Polars_render_type2_change_detection (t s : string)
  (l : Polars.type2_lists) :
  Spec.contains
    (nl +:+ "AND (" +:+ Polars.change_detection (Polars.t2_compare_cols l)
        +:+ ");")
    (Polars.render_type2 t s l)
  /\ Spec.contains
    (nl +:+ "AND (" +:+ Polars.change_detection (Polars.t2_compare_cols l)
        +:+ ")" +:+ nl +:+ ");")
    (Polars.render_type2 t s l).
Proof.
  unfold Polars.render_type2. cbv zeta.
  generalize (Polars.change_detection (Polars.t2_compare_cols l)).
  intros pred. split.
  - do 34 apply contains_app_r. find_occurrence_assoc.
  - do 90 apply contains_app_r. find_occurrence_assoc.
Qed.

(** C6 (as amended).  In a Type2 group, ordered by target_column_order,
    the change-detection predicate is the OR-disjunction of the tests
    [NVL(tgt.<col>, 'NULL') <> NVL(src.<col>, 'NULL')] over the first five
    columns that are not business keys, in mapping order; it has at most
    five tests, does not depend on the non-key columns after the fifth,
    and is the predicate of both Type2 statements; in the pandas
    generator and in the Polars generator. *)
Theorem C6_change_detection (group : frame ColumnMapping) :
  let tm := sort_by target_column_order group in
  (let non_key := Spec.non_key_columns Pandas.business_key (rows tm) in
   let predicate :=
     Pandas.change_check (Pandas.t2_compare_cols (Pandas.type2_loop tm)) in
   predicate = Py.join " OR " (map Pandas.change_test (take 5 non_key))
   /\ length (take 5 non_key) <= 5
   /\ StronglySorted (le_by target_column_order)
        (List.filter (fun r => negb (Pandas.business_key r)) (rows tm))
   /\ (forall cols, Pandas.change_check cols = Pandas.change_check (take 5 cols))
   /\ (forall c, Pandas.change_test c =
         "NVL(tgt." +:+ c +:+ ", 'NULL') <> NVL(src." +:+ c +:+ ", 'NULL')")
   /\ (forall full src,
         Spec.contains (nl +:+ "AND (" +:+ predicate +:+ ");")
           (Pandas.type2_sql full src (Pandas.type2_loop tm))
         /\ Spec.contains
              (nl +:+ "AND (" +:+ predicate +:+ ")" +:+ nl +:+ ");")
              (Pandas.type2_sql full src (Pandas.type2_loop tm))))
  /\ (let non_key := Spec.non_key_columns Polars.business_key (rows tm) in
      let predicate :=
        Polars.change_detection
          (Polars.t2_compare_cols (Polars.type2_loop tm)) in
      predicate = Py.join " OR " (map Polars.change_test (take 5 non_key))
      /\ length (take 5 non_key) <= 5
      /\ StronglySorted (le_by target_column_order)
           (List.filter (fun r => negb (Polars.business_key r)) (rows tm))
      /\ (forall cols,
            Polars.change_detection cols = Polars.change_detection (take 5 cols))
      /\ (forall c, Polars.change_test c =
            "NVL(tgt." +:+ c +:+ ", 'NULL') <> NVL(src." +:+ c +:+ ", 'NULL')")
      /\ (forall full src,
            Spec.contains (nl +:+ "AND (" +:+ predicate +:+ ");")
              (Polars.render_type2 full src (Polars.type2_loop tm))
            /\ Spec.contains
                 (nl +:+ "AND (" +:+ predicate +:+ ")" +:+ nl +:+ ");")
                 (Polars.render_type2 full src (Polars.type2_loop tm)))).
Proof.
  intros tm. split; cbv zeta.
  - split.
    { rewrite Pandas_type2_loop. reflexivity. }
    split; [rewrite length_take; lia|].
    split; [apply StronglySorted_filter, sort_by_sorted|].
    split.
    { intros cols. unfold Pandas.change_check. by rewrite take_take. }
    split; [done|].
    intros full src. apply Pandas_type2_sql_change_check.
  - split.
    { rewrite Polars_type2_loop. reflexivity. }
    split; [rewrite length_take; lia|].
    split; [apply StronglySorted_filter, sort_by_sorted|].
    split.
    { intros cols. unfold Polars.change_detection. by rewrite take_take. }
    split; [done|].
    intros full src. apply Polars_render_type2_change_detection.
Qed.

(** C6 as stated fails: the tests are written with NVL and a space after
    the comma, not as coalesce(tgt.<col>,'NULL') <> coalesce(src.<col>,'NULL'). *)
Lemma C6_tests_are_not_coalesce :
  let tm := sort_by target_column_order (Sample.customer_mappings (CStr "TYPE2")) in
  Pandas.change_check (Pandas.t2_compare_cols (Pandas.type2_loop tm)) <>
    Py.join " OR "
      (map Spec.coalesce_test
         (take 5 (Spec.non_key_columns Pandas.business_key (rows tm))))
  /\ Pandas.change_check (Pandas.t2_compare_cols (Pandas.type2_loop tm)) =
       "NVL(tgt.customer_key, 'NULL') <> NVL(src.customer_key, 'NULL')"
       +:+ " OR NVL(tgt.load_flag, 'NULL') <> NVL(src.load_flag, 'NULL')"
       +:+ " OR NVL(tgt.email, 'NULL') <> NVL(src.email, 'NULL')"
  /\ Polars.change_detection (Polars.t2_compare_cols (Polars.type2_loop tm)) =
       Pandas.change_check (Pandas.t2_compare_cols (Pandas.type2_loop tm)).
Proof. cbv zeta. split; [vm_compute; discriminate|]. split; reflexivity. Qed.

(** ** C2: one load block per target *)

(** In the Polars scripts the load blocks are in one-to-one correspondence
    with the distinct (target_schema, target_table) pairs, and the block
    of a pair is built from the rows of that pair. *)
Lemma Polars_one_block_per_pair (m : frame ColumnMapping)
  (banner out : list string) :
  for_each (Polars.dml_table m) (Polars.unique_targets m) banner = Returned out ->
  NoDup (Polars.unique_targets m)
  /\ (forall p, p ∈ Polars.unique_targets m <-> p ∈ Spec.target_pairs (rows m))
  /\ (forall p r, r ∈ rows (sort_by target_column_order
                             (Polars.rows_of_target m p)) <->
                  r ∈ rows m /\ (target_schema r, target_table r) = p)
  /\ exists blocks,
       Forall2 (fun p b => Polars.dml_table m [] p = Returned b)
         (Polars.unique_targets m) blocks
       /\ out = banner ++ concat blocks.
Proof.
  intros Hrun. split; [apply NoDup_unique|]. split.
  { intros p. unfold Polars.unique_targets, Polars.unique_targets_by,
      Spec.target_pairs.
    by rewrite elem_of_unique, elem_of_remove_dups. }
  split.
  { intros p r. by rewrite elem_of_sort_by, Polars_elem_of_group. }
  eapply for_each_blocks; [|exact Hrun]. apply Polars_dml_table_acc.
Qed.

(** The load blocks of [sqlcodegen.py] are in one-to-one correspondence
    with the distinct target table names, whatever their schemas. *)
Lemma Pandas_one_block_per_table_name (m : frame ColumnMapping)
  (banner out : list string) :
  for_each (Pandas.dml_table m) (Pandas.targets m) banner = Returned out ->
  NoDup (Pandas.targets m)
  /\ (forall t, t ∈ Pandas.targets m <-> exists r, r ∈ rows m /\ target_table r = t)
  /\ (forall t r, r ∈ rows (sort_by target_column_order (Pandas.rows_of_target m t)) <->
                  r ∈ rows m /\ target_table r = t)
  /\ exists blocks,
       Forall2 (fun t b => Pandas.dml_table m [] t = Returned b)
         (Pandas.targets m) blocks
       /\ out = banner ++ concat blocks.
Proof.
  intros Hrun. split; [apply NoDup_unique|].
  split; [apply Pandas_elem_of_targets|]. split.
  { intros t r. by rewrite elem_of_sort_by, Pandas_elem_of_group. }
  eapply for_each_blocks; [|exact Hrun]. apply Pandas_dml_table_acc.
Qed.

(** The row that governs a group is a row of the group with the least
    target_column_order. *)
Lemma Pandas_governing_row (m : frame ColumnMapping) (target : string)
  (tag : cell) :
  let tm := sort_by target_column_order (Pandas.rows_of_target m target) in
  has_column "scd_type" m = true ->
  Pandas.governing_scd_type tm = Returned tag ->
  exists first,
    head (rows tm) = Some first /\ scd_type first = tag
    /\ Pandas.source_table_of tm =
         Returned (source_schema first +:+ "." +:+ source_table first)
    /\ first ∈ rows m /\ target_table first = target
    /\ forall r, r ∈ rows m -> target_table r = target ->
                 (target_column_order first <= target_column_order r)%Z.
Proof.
  intros tm Hcol. unfold Pandas.governing_scd_type.
  change (has_column "scd_type" tm) with (has_column "scd_type" m).
  rewrite Hcol. intros (first & Hfirst & [= <-])%bind_Returned.
  apply Pandas_iloc0_head in Hfirst. exists first.
  split; [done|]. split; [done|].
  split; [by apply Pandas_source_table_head|].
  destruct (sort_by_head_least _ _ _ Hfirst) as [Hin Hleast].
  apply Pandas_elem_of_group in Hin as [Hin Ht]. split; [done|].
  split; [done|]. intros r Hr Hrt. apply Hleast.
  by apply Pandas_elem_of_group.
Qed.

Lemma Polars_governing_row (m : frame ColumnMapping) (target : string * string)
  (tag : cell) :
  let tm := sort_by target_column_order (Polars.rows_of_target m target) in
  Polars.governing_scd_type tm = Returned tag ->
  exists first,
    head (rows tm) = Some first /\ scd_type first = tag
    /\ Polars.source_table_of tm =
         Returned (source_schema first +:+ "." +:+ source_table first)
    /\ first ∈ rows m /\ (target_schema first, target_table first) = target
    /\ forall r, r ∈ rows m -> (target_schema r, target_table r) = target ->
                 (target_column_order first <= target_column_order r)%Z.
Proof.
  intros tm. unfold Polars.governing_scd_type.
  destruct (has_column "scd_type" tm); [|discriminate].
  intros (first & Hfirst & [= <-])%bind_Returned.
  apply Polars_row0_head in Hfirst. exists first.
  split; [done|]. split; [done|].
  split; [by apply Polars_source_table_head|].
  destruct (sort_by_head_least _ _ _ Hfirst) as [Hin Hleast].
  apply Polars_elem_of_group in Hin as [Hin Ht]. split; [done|].
  split; [done|]. intros r Hr Hrt. apply Hleast.
  by apply Polars_elem_of_group.
Qed.

(** C2, at the failing input.  For two mapping rows that target tables of
    the same name in the schemas dwh and mart, there are two distinct
    (target_schema, target_table) pairs, but [generate_dml] of
    [sqlcodegen.py] loops over the single table name, and emits one load
    block, named dwh.customer, whose MERGE also carries the column of the
    mart row; the Polars scripts emit one block per pair. *)
Theorem C2_pandas_groups_by_table_name :
  let m := Sample.two_schemas in
  Spec.target_pairs (rows m) = [("dwh", "customer"); ("mart", "customer")]
  /\ Pandas.targets m = ["customer"]
  /\ rows (Pandas.rows_of_target m "customer") = rows m
  /\ (let tm := sort_by target_column_order
                  (Pandas.rows_of_target m "customer") in
      for_each (Pandas.dml_table m) (Pandas.targets m) [] =
        Returned [Pandas.load_comment "dwh.customer" (CStr "TYPE1");
                  Pandas.load_rule;
                  Pandas.merge_sql "dwh.customer" "staging.stg_customers"
                    (Pandas.type1_loop tm)]
      /\ Pandas.t1_target_cols (Pandas.type1_loop tm) = ["id"; "name"])
  /\ (exists script1 script2,
        for_each (Polars.dml_table m) (Polars.unique_targets m) [] =
          Returned [Polars.load_comment "dwh.customer" (CStr "TYPE1");
                    Polars.load_rule; script1;
                    Polars.load_comment "mart.customer" (CStr "TYPE2");
                    Polars.load_rule; script2]).
Proof.
  cbv zeta. split; [reflexivity|]. split; [reflexivity|].
  split; [reflexivity|]. split.
  - split; vm_compute; reflexivity.
  - eexists _, _. vm_compute. reflexivity.
Qed.

(** ** The DDL synthesizer of [sqlcodegen.py] *)

(** A loop over a pair of lists whose body appends a block to each. *)
Lemma for_each_blocks2 {A B C}
  (body : list B * list C -> A -> outcome (list B * list C))
  (l : list A) (acc out : list B * list C) :
  (forall acc x, body acc x =
     b ← body ([], []) x; mret (acc.1 ++ b.1, acc.2 ++ b.2)) ->
  for_each body l acc = Returned out ->
  exists blocks,
    Forall2 (fun x b => body ([], []) x = Returned b) l blocks
    /\ out = (acc.1 ++ concat (map fst blocks), acc.2 ++ concat (map snd blocks)).
Proof.
  intros Hbody. revert acc out. induction l as [|x l IH]; intros acc out.
  - simpl. intros [= <-]. exists []. split; [constructor|].
    simpl. rewrite !app_nil_r. by destruct acc.
  - simpl. intros H. apply bind_Returned in H as (acc' & Hx & Hrest).
    rewrite Hbody in Hx. apply bind_Returned in Hx as (b & Hb & [= <-]).
    apply IH in Hrest as (blocks & Hall & ->).
    exists (b :: blocks). split; [by constructor|].
    simpl. by rewrite <- !app_assoc.
Qed.

Section PandasDDL.

Import Pandas.

Lemma Pandas_ddl_table_acc (columns : frame ColumnDefinition)
  (tables : frame TableDefinition) (acc : list string * list string)
  (table : TableDefinition) :
  ddl_table columns tables acc table =
    b ← ddl_table columns tables ([], []) table;
    mret (acc.1 ++ b.1, acc.2 ++ b.2).
Proof.
  destruct acc as [scripts errs]. unfold ddl_table.
  destruct (rows (columns_of columns _ _)) as [|c cs]; [simpl|].
  - by rewrite <- !app_assoc.
  - destruct (create_table _ _ _) as [stmt|e]; [simpl|done].
    destruct (notna (description table)); [|simpl; by rewrite <- !app_assoc, app_nil_r].
    destruct (cell_double_quotes _) as [comment|e]; [simpl|done].
    by rewrite <- !app_assoc, app_nil_r.
Qed.

(** A table without column records has no rows in its sorted selection. *)
Lemma Pandas_columns_of_none (columns : frame ColumnDefinition)
  (table : TableDefinition) :
  Spec.no_columns columns table ->
  rows (columns_of columns (tbl_schema_name table) (tbl_table_name table)) = [].
Proof.
  intros Hnone. unfold columns_of, sort_by, select. simpl.
  rewrite filter_none; [done|]. intros c Hc.
  apply not_true_is_false. rewrite andb_true_iff, !String.eqb_eq.
  by apply Hnone.
Qed.

(** The lines a table contributes always start with its comment and its
    DROP statement. *)
Lemma Pandas_ddl_block_starts_with_drop (columns : frame ColumnDefinition)
  (tables : frame TableDefinition) (table : TableDefinition)
  (block : list string * list string) :
  ddl_table columns tables ([], []) table = Returned block ->
  exists rest,
    block.1 = [table_comment (Spec.full_name table);
               drop_statement (Spec.full_name table)] ++ rest.
Proof.
  unfold ddl_table.
  destruct (rows (columns_of columns _ _)) as [|c cs]; simpl.
  - intros [= <-]. by exists [].
  - intros (stmt & _ & H)%bind_Returned.
    destruct (notna (description table)).
    + apply bind_Returned in H as (comment & _ & [= <-]). simpl. eauto.
    + injection H as <-. simpl. eauto.
Qed.

(** The block of a table without column records: the comment, the DROP
    statement, and the recorded error. *)
Lemma Pandas_ddl_block_no_columns (columns : frame ColumnDefinition)
  (tables : frame TableDefinition) (table : TableDefinition) :
  Spec.no_columns columns table ->
  ddl_table columns tables ([], []) table =
    Returned ([table_comment (Spec.full_name table);
               drop_statement (Spec.full_name table)],
              [no_columns_error (Spec.full_name table)]).
Proof.
  intros Hnone. unfold ddl_table.
  by rewrite (Pandas_columns_of_none _ _ Hnone).
Qed.

End PandasDDL.

(** ** C10: the DROP statement of a table without columns *)

(** C10.  In [generate_ddl] of [sqlcodegen.py] the DROP TABLE IF EXISTS
    statement of a table is appended before the columns are looked up: a
    run that returns has written, for every table in order, a block that
    starts with the table's comment and its DROP statement, and the block
    of a table with no column records is exactly these two lines, with
    the error recorded and no CREATE TABLE. *)
Theorem C10_drop_precedes_column_check (now : string) (self : Pandas.generator)
  (fs : filesystem) (file : string) (tables : frame TableDefinition)
  (columns : frame ColumnDefinition)
  (res : bool * Pandas.generator * filesystem) :
  Pandas.tables_df self = Some tables ->
  Pandas.columns_df self = Some columns ->
  Pandas.generate_ddl now self fs file = Returned res ->
  exists blocks : list (list string * list string),
    res.2 !! file =
      Some (Py.join nl (Pandas.ddl_banner now ++ concat (map fst blocks)))
    /\ Pandas.errors res.1.2 = Pandas.errors self ++ concat (map snd blocks)
    /\ Forall2
         (fun table block =>
            Pandas.ddl_table columns tables ([], []) table = Returned block
            /\ (exists rest,
                  block.1 =
                    [Pandas.table_comment (Spec.full_name table);
                     Pandas.drop_statement (Spec.full_name table)] ++ rest)
            /\ (Spec.no_columns columns table ->
                block =
                  ([Pandas.table_comment (Spec.full_name table);
                    Pandas.drop_statement (Spec.full_name table)],
                   [Pandas.no_columns_error (Spec.full_name table)])))
         (rows tables) blocks.
Proof.
  intros Ht Hc. unfold Pandas.generate_ddl. rewrite Ht, Hc.
  intros (st & Hloop & [= <-])%bind_Returned.
  apply for_each_blocks2 in Hloop as (blocks & Hall & ->);
    [|apply Pandas_ddl_table_acc].
  exists blocks. simpl. split; [by rewrite lookup_insert_eq|].
  split; [done|].
  eapply Forall2_impl; [exact Hall|]. intros table block Hb.
  split; [done|]. split; [apply (Pandas_ddl_block_starts_with_drop _ _ _ _ Hb)|].
  intros Hnone.
  pose proof (Pandas_ddl_block_no_columns columns tables _ Hnone) as Hn.
  cbv beta in Hb. congruence.
Qed.

Lemma C10_drop_precedes_column_check_witness :
  exists res,
    Pandas.generate_ddl Sample.timestamp
      (Sample.pandas_generator
         [Sample.dim_orphan; Sample.dim_customer (CStr "COMPOUND")]) ∅ "ddl_scripts.sql"
    = Returned res
    /\ Pandas.errors res.1.2 = ["No columns defined for dwh.dim_orphan"]
    /\ exists rest,
         res.2 !! "ddl_scripts.sql" =
           Some (Py.join nl
                   (Pandas.ddl_banner Sample.timestamp
                      ++ [Pandas.table_comment "dwh.dim_orphan";
                          "DROP TABLE IF EXISTS dwh.dim_orphan CASCADE;";
                          Pandas.table_comment "dwh.dim_customer";
                          "DROP TABLE IF EXISTS dwh.dim_customer CASCADE;"]
                      ++ rest)).
Proof.
  destruct (Pandas.generate_ddl Sample.timestamp
              (Sample.pandas_generator
         [Sample.dim_orphan; Sample.dim_customer (CStr "COMPOUND")]) ∅ "ddl_scripts.sql")
    as [res|e] eqn:E; [|vm_compute in E; discriminate E].
  destruct (C10_drop_precedes_column_check Sample.timestamp
              (Sample.pandas_generator
         [Sample.dim_orphan; Sample.dim_customer (CStr "COMPOUND")]) ∅ "ddl_scripts.sql"
              _ _ res eq_refl eq_refl E)
    as (blocks & Hfile & Herr & Hall).
  exists res. split; [done|].
  apply Forall2_cons_inv_l in Hall as (b1 & bs & (_ & _ & Hb1) & Hall & ->).
  apply Forall2_cons_inv_l in Hall as (b2 & bs' & (Hb2 & _ & _) & Hall & ->).
  apply Forall2_nil_inv_l in Hall as ->.
  assert (Spec.no_columns Sample.customer_columns Sample.dim_orphan) as Hnone.
  { intros c Hc [Hs Hn]. vm_compute in Hc.
    repeat (apply elem_of_cons in Hc as [->|Hc]; [discriminate Hn|]).
    by apply elem_of_nil in Hc. }
  specialize (Hb1 Hnone). subst b1.
  vm_compute in Hb2. injection Hb2 as <-.
  split; [by rewrite Herr|].
  eexists. rewrite Hfile. reflexivity.
Defined.

(** ** C9: the sort-key clause *)

Lemma join_snoc (sep x : string) (l : list string) :
  l <> [] -> Py.join sep (l ++ [x]) = Py.join sep l +:+ sep +:+ x.
Proof.
  unfold Py.join. induction l as [|y l IH]; [done|]. intros _.
  destruct l as [|z l]; [done|].
  change (y +:+ sep +:+ String.concat sep ((z :: l) ++ [x]) =
            (y +:+ sep +:+ String.concat sep (z :: l)) +:+ sep +:+ x).
  rewrite IH by done. by rewrite !string_app_assoc.
Qed.

Section PandasSort.

Import Pandas.

(** The sort-key entry when the cell of sort_type is text, and when the
    Tables sheet has no sort_type column. *)
Lemma Pandas_sort_props_text (tables : frame TableDefinition)
  (table : TableDefinition) (s : string) :
  notna (sort_keys table) = true ->
  has_column "sort_type" tables = true -> sort_type table = CStr s ->
  sort_props tables table =
    Returned [Py.upper s +:+ " SORTKEY(" +:+ str (sort_keys table) +:+ ")"].
Proof.
  intros Hk Hc Hs. unfold sort_props, get_sort_type.
  by rewrite Hk, Hc, Hs.
Qed.

Lemma Pandas_sort_props_no_column (tables : frame TableDefinition)
  (table : TableDefinition) :
  notna (sort_keys table) = true ->
  has_column "sort_type" tables = false ->
  sort_props tables table =
    Returned ["COMPOUND SORTKEY(" +:+ str (sort_keys table) +:+ ")"].
Proof.
  intros Hk Hc. unfold sort_props, get_sort_type.
  by rewrite Hk, Hc.
Qed.

(** An empty sort_type cell next to a sort key makes the method raise. *)
Lemma Pandas_sort_props_empty (tables : frame TableDefinition)
  (table : TableDefinition) :
  notna (sort_keys table) = true ->
  has_column "sort_type" tables = true -> sort_type table = CNull ->
  sort_props tables table =
    Raised (AttributeError "'float' object has no attribute 'upper'").
Proof.
  intros Hk Hc Hs. unfold sort_props, get_sort_type.
  by rewrite Hk, Hc, Hs.
Qed.

(** The sort-key entry closes the CREATE TABLE statement. *)
Lemma Pandas_create_table_ends_with_sort (tables : frame TableDefinition)
  (table : TableDefinition) (cols : list ColumnDefinition)
  (stmt clause : string) :
  create_table tables table cols = Returned stmt ->
  sort_props tables table = Returned [clause] ->
  exists pre, stmt = pre +:+ clause +:+ nl +:+ ";".
Proof.
  unfold create_table, table_props. cbv zeta.
  intros (props & Hprops & [= <-])%bind_Returned Hsort.
  apply bind_Returned in Hprops as (dist & Hdist & Hprops).
  rewrite Hsort in Hprops. simpl in Hprops. injection Hprops as <-.
  set (head := if notna (primary_key table) then _ else _).
  assert (exists body, head ++ [")"] = body /\ body <> []) as (body & -> & Hne).
  { eexists. split; [done|]. by destruct head. }
  destruct dist as [|d dist].
  - cbn [app].
    rewrite (join_snoc _ _ (body ++ [_])) by (by destruct body).
    rewrite join_snoc by done.
    exists (Py.join nl body +:+ nl +:+ nl).
    change (Py.join nl [clause]) with clause.
    by rewrite !string_app_assoc.
  - cbn [app].
    rewrite (join_snoc _ _ (body ++ [_])) by (by destruct body).
    rewrite (join_snoc _ _ body) by done.
    change (d :: dist ++ [clause]) with ((d :: dist) ++ [clause]).
    rewrite (join_snoc _ clause (d :: dist)) by done.
    exists (Py.join nl body +:+ nl +:+ nl +:+ Py.join nl (d :: dist) +:+ nl).
    by rewrite !string_app_assoc.
Qed.

End PandasSort.

Section PolarsSort.

Import Polars.

Lemma Polars_render_sort_text (tables : frame TableDefinition)
  (table : TableDefinition) (s : string) :
  truthy (sort_keys table) = true ->
  has_column "sort_type" tables = true -> sort_type table = CStr s ->
  render_sort tables table =
    nl +:+ s +:+ " SORTKEY(" +:+ str (sort_keys table) +:+ ")".
Proof.
  intros Hk Hc Hs. unfold render_sort, sort_type_or_default.
  by rewrite Hk, Hc, Hs.
Qed.

Lemma Polars_render_sort_no_column (tables : frame TableDefinition)
  (table : TableDefinition) :
  truthy (sort_keys table) = true ->
  has_column "sort_type" tables = false ->
  render_sort tables table =
    nl +:+ "COMPOUND SORTKEY(" +:+ str (sort_keys table) +:+ ")".
Proof.
  intros Hk Hc. unfold render_sort, sort_type_or_default.
  by rewrite Hk, Hc.
Qed.

(** An empty sort_type cell is rendered as the text None. *)
Lemma Polars_render_sort_empty (tables : frame TableDefinition)
  (table : TableDefinition) :
  truthy (sort_keys table) = true ->
  has_column "sort_type" tables = true -> sort_type table = CNull ->
  render_sort tables table =
    nl +:+ "None SORTKEY(" +:+ str (sort_keys table) +:+ ")".
Proof.
  intros Hk Hc Hs. unfold render_sort, sort_type_or_default.
  by rewrite Hk, Hc, Hs.
Qed.

End PolarsSort.

(** C9, at the failing input.  For the customer table of the
    specification's scenario, with sort_keys set and the sort_type cell
    left empty, [sqlcodegen.py] raises AttributeError in the sort-key step
    and [generate_ddl] aborts without output, and the Polars template
    renders the clause as None SORTKEY(customer_id); the clause is
    COMPOUND SORTKEY(customer_id) only when the Tables sheet has no
    sort_type column at all, and INTERLEAVED SORTKEY(customer_id) when the
    cell says so. *)
Theorem C9_empty_sort_type_is_not_defaulted :
  let tables := Frame Sample.table_columns [Sample.dim_customer CNull] in
  let no_column :=
    Frame ["schema_name"; "table_name"; "sort_keys"]
      [Sample.dim_customer CNull] in
  Pandas.sort_props tables (Sample.dim_customer CNull) =
    Raised (AttributeError "'float' object has no attribute 'upper'")
  /\ Pandas.generate_ddl Sample.timestamp
       (Sample.pandas_generator [Sample.dim_customer CNull]) ∅
       "ddl_scripts.sql" =
     Raised (AttributeError "'float' object has no attribute 'upper'")
  /\ Polars.render_sort tables (Sample.dim_customer CNull) =
       nl +:+ "None SORTKEY(customer_id)"
  /\ Pandas.sort_props no_column (Sample.dim_customer CNull) =
       Returned ["COMPOUND SORTKEY(customer_id)"]
  /\ Polars.render_sort no_column (Sample.dim_customer CNull) =
       nl +:+ "COMPOUND SORTKEY(customer_id)"
  /\ Pandas.sort_props tables (Sample.dim_customer (CStr "INTERLEAVED")) =
       Returned ["INTERLEAVED SORTKEY(customer_id)"]
  /\ Polars.render_sort tables (Sample.dim_customer (CStr "INTERLEAVED")) =
       nl +:+ "INTERLEAVED SORTKEY(customer_id)".
Proof. cbv zeta. repeat split; vm_compute; reflexivity. Qed.

(** ** When DDL generation returns *)

Lemma for_each_Returned {A S} (body : S -> A -> outcome S) (l : list A) (s : S) :
  (forall x, x ∈ l -> forall st, exists st', body st x = Returned st') ->
  exists out, for_each body l s = Returned out.
Proof.
  revert s. induction l as [|x l IH]; intros s Hbody; simpl; [eauto|].
  destruct (Hbody x ltac:(by left) s) as [s' ->]. simpl.
  apply IH. intros y Hy. apply Hbody. by right.
Qed.

Section PandasTotal.

Import Pandas.

Lemma Pandas_table_props_returns (tables : frame TableDefinition)
  (table : TableDefinition) :
  Spec.text_cells tables table -> exists props, table_props tables table = Returned props.
Proof.
  intros (Hdist & _ & Hsort). unfold table_props, dist_props, sort_props.
  assert (exists d, (if notna (dist_style table)
                     then style ← cell_upper (dist_style table);
                          if String.eqb style "KEY" && notna (dist_key table)
                          then mret ["DISTKEY(" +:+ str (dist_key table) +:+ ")"]
                          else style' ← cell_upper (dist_style table);
                               mret ["DISTSTYLE " +:+ style']
                     else mret []) = Returned d) as [d ->].
  { destruct Hdist as [->|Hs]; [by eexists|].
    destruct (dist_style table) as [|s| |]; try done. simpl.
    destruct (_ && _); by eexists. }
  simpl. destruct (notna (sort_keys table)) eqn:Hk; [|by eexists].
  unfold get_sort_type.
  destruct (has_column "sort_type" tables) eqn:Hc; [|by eexists].
  specialize (Hsort eq_refl eq_refl).
  destruct (sort_type table); try done. by eexists.
Qed.

Lemma Pandas_ddl_table_returns (columns : frame ColumnDefinition)
  (tables : frame TableDefinition) (table : TableDefinition)
  (st : list string * list string) :
  Spec.text_cells tables table ->
  exists st', ddl_table columns tables st table = Returned st'.
Proof.
  intros Htext. destruct st as [scripts errs]. unfold ddl_table.
  destruct (rows (columns_of columns _ _)) as [|c cs]; [by eexists|].
  unfold create_table. cbv zeta.
  destruct (Pandas_table_props_returns tables table Htext) as [props ->].
  simpl. destruct Htext as (_ & [Hd|Hd] & _).
  - rewrite Hd. by eexists.
  - destruct (description table); try done. by eexists.
Qed.

(** With the frames loaded and text in the cells that must hold text,
    [generate_ddl] returns [True]. *)
Lemma Pandas_generate_ddl_returns (now : string) (self : generator)
  (fs : filesystem) (file : string) (tables : frame TableDefinition)
  (columns : frame ColumnDefinition) :
  tables_df self = Some tables -> columns_df self = Some columns ->
  Forall (Spec.text_cells tables) (rows tables) ->
  exists res, generate_ddl now self fs file = Returned res /\ res.1.1 = true.
Proof.
  intros Ht Hc Hall. unfold generate_ddl. rewrite Ht, Hc.
  destruct (for_each_Returned (ddl_table columns tables) (rows tables)
              (ddl_banner now, errors self)) as [out ->].
  { intros table Hin st. apply Pandas_ddl_table_returns.
    rewrite Forall_forall in Hall. by apply Hall. }
  by eexists.
Qed.

End PandasTotal.

(** ** C3: failure modes of DDL generation *)

(** [generate_ddl] of the Polars scripts has no check on the columns of a
    table: with the frames loaded it always returns [True] and records
    nothing. *)
Lemma Polars_generate_ddl_records_nothing (now : string)
  (self : Polars.generator) (fs : filesystem) (file : string) :
  is_Some (Polars.tables_df self) -> is_Some (Polars.columns_df self) ->
  (Polars.generate_ddl now self fs file).1.1 = true
  /\ Polars.errors (Polars.generate_ddl now self fs file).1.2 =
       Polars.errors self.
Proof.
  intros [tables Ht] [columns Hc]. unfold Polars.generate_ddl.
  by rewrite Ht, Hc.
Qed.

(** C3, at the failing inputs.  In [sqlcodegen.py] a table that has its
    columns, a sort key and an empty sort_type cell makes [generate_ddl]
    raise AttributeError: DDL generation fails although no table lacks
    columns, and nothing is written.  In the Polars scripts a table with
    no column records is not skipped: [generate_ddl] returns [True],
    records no error and writes a CREATE TABLE with an empty column
    list. *)
Theorem C3_ddl_failure_modes :
  Pandas.generate_ddl Sample.timestamp
    (Sample.pandas_generator [Sample.dim_customer CNull]) ∅ "ddl_scripts.sql" =
    Raised (AttributeError "'float' object has no attribute 'upper'")
  /\ rows (Pandas.columns_of Sample.customer_columns "dwh" "dim_customer") =
       [Sample.column "customer_key" 1 "BIGINT" true;
        Sample.column "customer_id" 2 "VARCHAR(50)" false]
  /\ (let res :=
        Polars.generate_ddl Sample.timestamp
          (Sample.polars_generator [Sample.dim_orphan]) ∅ "ddl_scripts.sql" in
      res.1.1 = true
      /\ Polars.errors res.1.2 = []
      /\ rows (Polars.columns_of Sample.customer_columns Sample.dim_orphan) = []
      /\ res.2 !! "ddl_scripts.sql" =
           Some ("-- AWS Redshift DDL Scripts" +:+ nl
                 +:+ "-- Generated on: 2024-01-01 00:00:00" +:+ nl
                 +:+ "-- " +:+ Py.repeat_char "="%char 70 +:+ nl
                 +:+ nl +:+ nl
                 +:+ "-- Table: dwh.dim_orphan" +:+ nl +:+ nl
                 +:+ "DROP TABLE IF EXISTS dwh.dim_orphan CASCADE;" +:+ nl
                 +:+ nl
                 +:+ "CREATE TABLE dwh.dim_orphan (" +:+ nl
                 +:+ ");" +:+ nl +:+ nl)).
Proof. cbv zeta. repeat split; vm_compute; reflexivity. Qed.

(** ** The SQL validator *)


Lemma map_snd_enumerate {A} (i : nat) (l : list A) :
  map snd (enumerate i l) = l.
Proof.
  revert i. induction l as [|x l IH]; intros i; simpl; [done|].
  by rewrite IH.
Qed.

Lemma enumerate_lookup {A} (i k : nat) (l : list A) (x : A) :
  (k, x) ∈ enumerate i l <-> i <= k /\ l !! (k - i) = Some x.
Proof.
  revert i. induction l as [|y l IH]; intros i; simpl.
  - rewrite elem_of_nil. split; [done|]. by intros [_ ?].
  - rewrite elem_of_cons, IH. split.
    + intros [[= -> ->]|[Hle Hl]].
      * split; [lia|]. by rewrite Nat.sub_diag.
      * split; [lia|]. by replace (k - i) with (S (k - S i)) by lia.
    + intros [Hle Hl]. destruct (decide (k = i)) as [->|Hne].
      * left. rewrite Nat.sub_diag in Hl. simpl in Hl. congruence.
      * right. split; [lia|].
        by replace (k - i) with (S (k - S i)) in Hl by lia.
Qed.

Lemma filter_cons_if {A} (f : A -> bool) (x : A) (l : list A) :
  List.filter f (x :: l) = if f x then x :: List.filter f l else List.filter f l.
Proof. reflexivity. Qed.

Lemma failures_of_cons (parse_one : string -> parse_outcome) (i : nat)
  (stmt : string) (entries : list (nat * string)) :
  Spec.failures_of parse_one ((i, stmt) :: entries) =
  (if (10 <=? Py.len stmt)%nat then
     match parse_one stmt with
     | ParseError e => [(i, e)]
     | Parsed => []
     end
   else []) ++ Spec.failures_of parse_one entries.
Proof. reflexivity. Qed.

(** The loop skips a statement exactly when it is shorter than ten
    characters. *)
Lemma skip_short (stmt : string) :
  negb (Py.nonempty stmt) || (Py.len stmt <? 10)%nat =
  negb (10 <=? Py.len stmt)%nat.
Proof.
  unfold Py.len. destruct stmt as [|c s]; [done|]. simpl negb at 1. simpl orb.
  apply Nat.ltb_antisym.
Qed.

Lemma slice_to_length (n : nat) (s : string) :
  Py.len (Py.slice_to n s) <= n.
Proof.
  unfold Py.len, Py.slice_to. revert s.
  induction n as [|n IH]; intros s; destruct s as [|c s]; simpl; try lia.
  specialize (IH s). lia.
Qed.

Lemma slice_to_prefix (n : nat) (s : string) :
  Py.startswith (Py.slice_to n s) s = true.
Proof.
  unfold Py.startswith, Py.slice_to. revert s.
  induction n as [|n IH]; intros s; destruct s as [|c s]; simpl; try done.
  destruct (ascii_dec c c); [apply IH|done].
Qed.

Lemma slice_to_short (n : nat) (s : string) :
  Py.len s <= n -> Py.slice_to n s = s.
Proof.
  unfold Py.len, Py.slice_to. revert s.
  induction n as [|n IH]; intros s; destruct s as [|c s]; simpl; try done;
    try lia.
  intros H. rewrite IH; [done|lia].
Qed.


Section PandasValidator.

Import Pandas.

Variable parse_one : string -> parse_outcome.

Lemma Pandas_validate_fold (entries : list (nat * string)) (st : validation) :
  fold_left (validate_statement parse_one) entries st =
  Validation
    (valid_count st +
       length (List.filter
                 (fun s => (10 <=? Py.len s)%nat && Spec.parses parse_one s)
                 (map snd entries)))
    (error_count st + length (Spec.failures_of parse_one entries))
    (val_errors st ++
       map (fun f => validation_error f.1 f.2)
         (Spec.failures_of parse_one entries))
    (parser_calls st ++
       List.filter (fun s => (10 <=? Py.len s)%nat) (map snd entries)).
Proof.
  revert st. induction entries as [|[i stmt] entries IH]; intros st.
  - destruct st; simpl. by rewrite !Nat.add_0_r, !app_nil_r.
  - simpl fold_left. rewrite IH. unfold validate_statement.
    rewrite skip_short.
    change (map snd ((i, stmt) :: entries)) with (stmt :: map snd entries).
    rewrite !filter_cons_if, failures_of_cons. unfold Spec.parses.
    destruct (10 <=? Py.len stmt)%nat; [|done].
    destruct (parse_one stmt) as [|e]; cbn [negb andb app length map fst snd
      valid_count error_count val_errors parser_calls];
      rewrite <- ?app_assoc; f_equal; lia.
Qed.

Lemma Pandas_validate_content_spec (errs : list string) (sql_content : string) :
  validate_content parse_one errs sql_content =
  Validation
    (length (List.filter
               (fun s => (10 <=? Py.len s)%nat && Spec.parses parse_one s)
               (statements sql_content)))
    (length (Spec.parse_failures parse_one (statements sql_content)))
    (errs ++
       map (fun f => validation_error f.1 f.2)
         (Spec.parse_failures parse_one (statements sql_content)))
    (List.filter (fun s => (10 <=? Py.len s)%nat) (statements sql_content)).
Proof.
  unfold validate_content. rewrite Pandas_validate_fold.
  by rewrite map_snd_enumerate.
Qed.

End PandasValidator.

Section PolarsValidator.

Import Polars.

Variable parse_one : string -> parse_outcome.

Lemma Polars_validate_fold (entries : list (nat * string)) (st : validation) :
  fold_left (validate_statement parse_one) entries st =
  Validation
    (valid_count st +
       length (List.filter
                 (fun s => (10 <=? Py.len s)%nat && Spec.parses parse_one s)
                 (map snd entries)))
    (error_count st + length (Spec.failures_of parse_one entries))
    (val_errors st ++
       map (fun f => validation_error f.1 f.2)
         (Spec.failures_of parse_one entries))
    (parser_calls st ++
       List.filter (fun s => (10 <=? Py.len s)%nat) (map snd entries)).
Proof.
  revert st. induction entries as [|[i stmt] entries IH]; intros st.
  - destruct st; simpl. by rewrite !Nat.add_0_r, !app_nil_r.
  - simpl fold_left. rewrite IH. unfold validate_statement.
    rewrite skip_short.
    change (map snd ((i, stmt) :: entries)) with (stmt :: map snd entries).
    rewrite !filter_cons_if, failures_of_cons. unfold Spec.parses.
    destruct (10 <=? Py.len stmt)%nat; [|done].
    destruct (parse_one stmt) as [|e]; cbn [negb andb app length map fst snd
      valid_count error_count val_errors parser_calls];
      rewrite <- ?app_assoc; f_equal; lia.
Qed.

Lemma Polars_validate_content_spec (sql_content : string) :
  validate_content parse_one sql_content =
  Validation
    (length (List.filter
               (fun s => (10 <=? Py.len s)%nat && Spec.parses parse_one s)
               (statements sql_content)))
    (length (Spec.parse_failures parse_one (statements sql_content)))
    (map (fun f => validation_error f.1 f.2)
       (Spec.parse_failures parse_one (statements sql_content)))
    (List.filter (fun s => (10 <=? Py.len s)%nat) (statements sql_content)).
Proof.
  unfold validate_content. rewrite Polars_validate_fold.
  by rewrite map_snd_enumerate.
Qed.

End PolarsValidator.


Lemma elem_of_failures_of (parse_one : string -> parse_outcome)
  (entries : list (nat * string)) (i : nat) (msg : string) :
  (i, msg) ∈ Spec.failures_of parse_one entries <->
  exists stmt, (i, stmt) ∈ entries /\ 10 <= Py.len stmt
               /\ parse_one stmt = ParseError msg.
Proof.
  unfold Spec.failures_of. rewrite list_elem_of_In, in_flat_map. split.
  - intros ([k stmt] & Hin & Hf). cbn [fst snd] in Hf.
    destruct (10 <=? Py.len stmt)%nat eqn:Hlen; [|by destruct Hf].
    destruct (parse_one stmt) as [|e] eqn:Hp; [by destruct Hf|].
    destruct Hf as [[= -> ->]|[]]. exists stmt.
    split; [by apply list_elem_of_In|]. split; [|done].
    by apply Nat.leb_le.
  - intros (stmt & Hin & Hlen & Hp). exists (i, stmt).
    split; [by apply list_elem_of_In|]. cbn [fst snd].
    apply Nat.leb_le in Hlen. rewrite Hlen, Hp. by left.
Qed.


(** ** C4: which fragments reach the parser *)


(** ** C5: the validator's result *)

(** C5.  On a readable file the validator returns success exactly when no
    statement failed to parse; the invalid counter is the number of
    failed statements, and each failure records one diagnostic made of
    the statement's index (its position, from 1, among the non-empty,
    non-comment fragments) and the first 100 characters of the parser's
    message; the file system, and with it the input text, is left as it
    was; in the pandas validator, which appends the diagnostics to the
    generator's errors, and in the Polars validator. *)
Theorem C5_validator_result (parse_one : string -> parse_outcome)
  (self : Pandas.generator) (fs : filesystem) (sql_file sql_content : string) :
  fs !! sql_file = Some sql_content ->
  let failures :=
    Spec.parse_failures parse_one (Pandas.statements sql_content) in
  (forall i msg,
      (i, msg) ∈ failures <->
      exists stmt,
        1 <= i /\ Pandas.statements sql_content !! (i - 1) = Some stmt
        /\ 10 <= Py.len stmt /\ parse_one stmt = ParseError msg)
  /\ (forall msg, Py.len (Py.slice_to 100 msg) <= 100
                  /\ Py.startswith (Py.slice_to 100 msg) msg = true)
  /\ (let res := Pandas.validate_sql parse_one self fs sql_file in
      let st := Pandas.validate_content parse_one (Pandas.errors self)
                  sql_content in
      (res.1.1 = true <-> length failures = 0)
      /\ Pandas.error_count st = length failures
      /\ Pandas.errors res.1.2 =
           Pandas.errors self ++
             map (fun f => "Statement " +:+ pretty f.1 +:+ " validation error: "
                             +:+ Py.slice_to 100 f.2) failures
      /\ res.2 = fs /\ res.2 !! sql_file = Some sql_content)
  /\ (let res := Polars.validate_sql_file parse_one fs sql_file in
      let st := Polars.validate_content parse_one sql_content in
      (res.1 = true <-> length failures = 0)
      /\ Polars.error_count st = length failures
      /\ Polars.val_errors st =
           map (fun f => "Statement " +:+ pretty f.1 +:+ ": "
                           +:+ Py.slice_to 100 f.2) failures
      /\ res.2 = fs /\ res.2 !! sql_file = Some sql_content).
Proof.
  intros Hfile failures. split.
  { intros i msg. unfold failures, Spec.parse_failures.
    rewrite elem_of_failures_of. split.
    - intros (stmt & Hin & Hlen & Hp). exists stmt.
      apply enumerate_lookup in Hin as [Hle Hl]. done.
    - intros (stmt & Hle & Hl & Hlen & Hp). exists stmt.
      split; [by apply enumerate_lookup|done]. }
  split.
  { intros msg. split; [apply slice_to_length|apply slice_to_prefix]. }
  split; cbv zeta.
  - unfold Pandas.validate_sql, Pandas.read_file. rewrite Hfile.
    rewrite Pandas_validate_content_spec.
    cbn [fst snd Pandas.error_count Pandas.val_errors Pandas.errors
         Pandas.set_errors].
    fold failures. split; [apply Nat.eqb_eq|done].
  - unfold Polars.validate_sql_file. rewrite Hfile.
    rewrite Polars_validate_content_spec.
    cbn [fst snd Polars.error_count Polars.val_errors].
    change (Polars.statements sql_content)
      with (Pandas.statements sql_content). fold failures.
    split; [apply Nat.eqb_eq|done].
Qed.

Lemma C5_validator_result_witness :
  let res :=
    Pandas.validate_sql Sample.drop_only (Sample.pandas_generator [])
      Sample.sample_fs "ddl_scripts.sql" in
  res.1.1 = false
  /\ Pandas.errors res.1.2 =
       ["Statement 2 validation error: Invalid expression / Unexpected token"]
  /\ res.2 = Sample.sample_fs.
Proof.
  destruct (C5_validator_result Sample.drop_only (Sample.pandas_generator [])
              Sample.sample_fs "ddl_scripts.sql" Sample.script)
    as (_ & _ & (Hok & _ & Herr & Hfs & _) & _); [by vm_compute|].
  cbv zeta. split; [|split; [|exact Hfs]].
  - apply not_true_is_false. intros Htrue. apply Hok in Htrue.
    vm_compute in Htrue. discriminate Htrue.
  - rewrite Herr. vm_compute. reflexivity.
Defined.

(** ** Text: splitting and stripping *)

Lemma split_nonempty (c : ascii) (s : string) : Py.split c s <> [].
Proof.
  destruct s as [|x s]; simpl; [done|].
  destruct (Ascii.eqb x c); [done|]. by destruct (Py.split c s).
Qed.

Lemma split_String_other (c x : ascii) (s : string) :
  Ascii.eqb x c = false ->
  exists w ws, Py.split c s = w :: ws
               /\ Py.split c (String x s) = String x w :: ws.
Proof.
  intros Hx. destruct (Py.split c s) as [|w ws] eqn:E.
  - by destruct (split_nonempty c s).
  - exists w, ws. split; [done|]. simpl. by rewrite Hx, E.
Qed.

(** Splitting a text and another one put together with the separator
    gives the fragments of the first, then those of the second. *)
Lemma split_app_sep (c : ascii) (a b : string) :
  Py.split c (a +:+ String c b) = Py.split c a ++ Py.split c b.
Proof.
  induction a as [|x a IH].
  - simpl. by rewrite Ascii.eqb_refl.
  - change (String x a +:+ String c b) with (String x (a +:+ String c b)).
    destruct (Ascii.eqb x c) eqn:Hx.
    + simpl. rewrite Hx. by rewrite IH.
    + destruct (split_String_other c x a Hx) as (w & ws & Ea & ->).
      destruct (split_String_other c x (a +:+ String c b) Hx)
        as (w' & ws' & Eab & ->).
      rewrite IH, Ea in Eab. simpl in Eab. by injection Eab as <- <-.
Qed.

Lemma split_free (c : ascii) (s : string) :
  Spec.free_of c s = true -> Py.split c s = [s].
Proof.
  induction s as [|x s IH]; simpl; [done|].
  intros [Hx Hs]%andb_true_iff. apply negb_true_iff in Hx.
  by rewrite Hx, (IH Hs).
Qed.

Lemma split_fragments_free (c : ascii) (s : string) :
  Forall (fun f => Spec.free_of c f = true) (Py.split c s).
Proof.
  induction s as [|x s IH]; simpl; [by repeat constructor|].
  destruct (Ascii.eqb x c) eqn:Hx; [by constructor|].
  destruct (Py.split c s) as [|w ws].
  - constructor; [|done]. simpl. by rewrite Hx.
  - apply Forall_cons in IH as [Hw Hws]. constructor; [|done].
    simpl. by rewrite Hx, Hw.
Qed.

Lemma free_of_app (c : ascii) (a b : string) :
  Spec.free_of c (a +:+ b) = Spec.free_of c a && Spec.free_of c b.
Proof.
  induction a as [|x a IH]; [done|].
  change (String x a +:+ b) with (String x (a +:+ b)). simpl.
  by rewrite IH, andb_assoc.
Qed.

Lemma free_of_concat (c : ascii) (sep : string) (l : list string) :
  Spec.free_of c sep = true ->
  Forall (fun s => Spec.free_of c s = true) l ->
  Spec.free_of c (String.concat sep l) = true.
Proof.
  intros Hsep. induction 1 as [|x l Hx Hl IH]; [done|].
  destruct l as [|y l]; [done|].
  change (String.concat sep (x :: y :: l))
    with (x +:+ sep +:+ String.concat sep (y :: l)).
  by rewrite !free_of_app, Hx, Hsep, IH.
Qed.

(** The text made of fragments that hold no separator splits back into
    its fragments. *)
Lemma split_concat (c : ascii) (l : list string) :
  l <> [] -> Forall (fun s => Spec.free_of c s = true) l ->
  Py.split c (String.concat (String c EmptyString) l) = l.
Proof.
  intros Hne Hall. induction Hall as [|x l Hx Hl IH]; [done|].
  destruct l as [|y l]; [by apply split_free|].
  change (String.concat (String c EmptyString) (x :: y :: l))
    with (x +:+ String c (String.concat (String c EmptyString) (y :: l))).
  rewrite split_app_sep, (split_free _ _ Hx), IH; done.
Qed.

Lemma lstrip_free (c : ascii) (s : string) :
  Spec.free_of c s = true -> Spec.free_of c (Py.lstrip s) = true.
Proof.
  induction s as [|x s IH]; [done|]. intros H. simpl.
  destruct (Py.isspace x); [|done].
  simpl in H. apply andb_true_iff in H as [_ H]. by apply IH.
Qed.

Lemma rstrip_free (c : ascii) (s : string) :
  Spec.free_of c s = true -> Spec.free_of c (Py.rstrip s) = true.
Proof.
  induction s as [|x s IH]; [done|]. simpl.
  intros [Hx Hs]%andb_true_iff. specialize (IH Hs).
  destruct (Py.rstrip s) as [|y r].
  - destruct (Py.isspace x); [done|]. simpl. by rewrite Hx.
  - simpl in *. by rewrite Hx, IH.
Qed.

Lemma strip_free (c : ascii) (s : string) :
  Spec.free_of c s = true -> Spec.free_of c (Py.strip s) = true.
Proof. intros H. by apply lstrip_free, rstrip_free. Qed.

(** [rstrip] keeps everything up to a character that is not white
    space. *)
Lemma rstrip_String_nonspace (x : ascii) (s : string) :
  Py.isspace x = false -> Py.rstrip (String x s) = String x (Py.rstrip s).
Proof. intros Hx. simpl. rewrite Hx. by destruct (Py.rstrip s). Qed.

Lemma rstrip_app (a b : string) :
  Py.rstrip b <> EmptyString -> Py.rstrip (a +:+ b) = a +:+ Py.rstrip b.
Proof.
  intros Hb. induction a as [|x a IH]; [done|].
  change (String x a +:+ b) with (String x (a +:+ b)).
  change (String x a +:+ Py.rstrip b) with (String x (a +:+ Py.rstrip b)).
  simpl. rewrite IH. destruct (a +:+ Py.rstrip b) eqn:E; [|done].
  destruct a; simpl in E; [done|discriminate].
Qed.

Lemma rstrip_all_space (s : string) :
  Spec.all_space s = true -> Py.rstrip s = EmptyString.
Proof.
  induction s as [|x s IH]; [done|]. simpl.
  intros [Hx Hs]%andb_true_iff. by rewrite (IH Hs), Hx.
Qed.

Lemma rstrip_app_space (a ws : string) :
  Spec.all_space ws = true -> Py.rstrip (a +:+ ws) = Py.rstrip a.
Proof.
  intros Hws. induction a as [|x a IH]; [by apply rstrip_all_space|].
  change (String x a +:+ ws) with (String x (a +:+ ws)). simpl.
  by rewrite IH.
Qed.

Lemma lstrip_app_space (ws b : string) :
  Spec.all_space ws = true -> Py.lstrip (ws +:+ b) = Py.lstrip b.
Proof.
  induction ws as [|x ws IH]; [done|]. simpl.
  intros [Hx Hs]%andb_true_iff. rewrite Hx. by apply IH.
Qed.

Lemma lstrip_String_nonspace (x : ascii) (s : string) :
  Py.isspace x = false -> Py.lstrip (String x s) = String x s.
Proof. intros Hx. simpl. by rewrite Hx. Qed.

Lemma all_space_app (a b : string) :
  Spec.all_space (a +:+ b) = Spec.all_space a && Spec.all_space b.
Proof.
  induction a as [|x a IH]; [done|].
  change (String x a +:+ b) with (String x (a +:+ b)). simpl.
  by rewrite IH, andb_assoc.
Qed.

(** Stripping looks through white space on both sides. *)
Lemma strip_app_space (ws1 s ws2 : string) :
  Spec.all_space ws1 = true -> Spec.all_space ws2 = true ->
  Py.strip (ws1 +:+ s +:+ ws2) = Py.strip s.
Proof.
  intros H1 H2. unfold Py.strip.
  destruct (Py.rstrip s) as [|y r] eqn:E.
  - assert (Py.rstrip (ws1 +:+ s +:+ ws2) = EmptyString) as ->; [|done].
    rewrite <- string_app_assoc, rstrip_app_space by done.
    clear H2. induction ws1 as [|x ws1 IH]; [done|].
    simpl in H1. apply andb_true_iff in H1 as [Hx H1].
    change (String x ws1 +:+ s) with (String x (ws1 +:+ s)). simpl.
    by rewrite (IH H1), Hx.
  - rewrite <- string_app_assoc, rstrip_app_space by done.
    rewrite rstrip_app by (by rewrite E). rewrite E.
    by apply lstrip_app_space.
Qed.

(** A stripped text is left alone by a second stripping. *)
Lemma rstrip_tail_fixed (x : ascii) (s : string) :
  Py.rstrip (String x s) = String x s -> Py.rstrip s = s.
Proof.
  simpl. destruct (Py.rstrip s) as [|y r] eqn:E.
  - destruct (Py.isspace x); [discriminate|]. by intros [= <-].
  - by intros [= <-].
Qed.

Lemma rstrip_idempotent (s : string) : Py.rstrip (Py.rstrip s) = Py.rstrip s.
Proof.
  induction s as [|x s IH]; [done|]. simpl.
  destruct (Py.rstrip s) as [|y r] eqn:E.
  - destruct (Py.isspace x) eqn:Hx; [done|]. simpl. by rewrite Hx.
  - change (Py.rstrip (String x (String y r)) = String x (String y r)).
    simpl in IH |- *. by rewrite IH.
Qed.

Lemma rstrip_lstrip_fixed (s : string) :
  Py.rstrip s = s -> Py.rstrip (Py.lstrip s) = Py.lstrip s.
Proof.
  induction s as [|x s IH]; [done|]. intros H. simpl.
  destruct (Py.isspace x); [|done].
  apply IH. by apply rstrip_tail_fixed in H.
Qed.

Lemma lstrip_idempotent (s : string) : Py.lstrip (Py.lstrip s) = Py.lstrip s.
Proof.
  induction s as [|x s IH]; [done|]. simpl.
  destruct (Py.isspace x) eqn:Hx; [done|]. simpl. by rewrite Hx.
Qed.

Lemma strip_idempotent (s : string) : Py.strip (Py.strip s) = Py.strip s.
Proof.
  unfold Py.strip.
  rewrite (rstrip_lstrip_fixed (Py.rstrip s)) by apply rstrip_idempotent.
  apply lstrip_idempotent.
Qed.

(** A text that opens with the comment marker after white space is a
    comment for the validator, whatever follows. *)
Lemma comment_led_strip (s : string) :
  Spec.comment_led s -> Py.startswith "--" (Py.strip s) = true.
Proof.
  intros (ws & rest & Hws & ->). unfold Py.strip.
  rewrite rstrip_app.
  - rewrite (lstrip_app_space _ _ Hws).
    change ("--" +:+ rest) with (String "-" (String "-" rest)).
    rewrite !rstrip_String_nonspace by done.
    rewrite lstrip_String_nonspace by done.
    unfold Py.startswith. simpl. by destruct (Py.rstrip rest).
  - change ("--" +:+ rest) with (String "-" (String "-" rest)).
    by rewrite !rstrip_String_nonspace by done.
Qed.

Lemma comment_led_app (a b : string) :
  Spec.comment_led a -> Spec.comment_led (a +:+ b).
Proof.
  intros (ws & rest & Hws & ->). exists ws, (rest +:+ b).
  split; [done|]. by rewrite !string_app_assoc.
Qed.

Lemma comment_led_space_app (ws b : string) :
  Spec.all_space ws = true -> Spec.comment_led b -> Spec.comment_led (ws +:+ b).
Proof.
  intros Hws (ws' & rest & Hws' & ->). exists (ws +:+ ws'), rest.
  split; [by rewrite all_space_app, Hws, Hws'|].
  by rewrite !string_app_assoc.
Qed.

(** ** The validator on a text put together from two *)

Lemma statements_app_sep (a b : string) :
  Pandas.statements (a +:+ ";" +:+ b) =
  Pandas.statements a ++ Pandas.statements b.
Proof.
  unfold Pandas.statements.
  change (a +:+ ";" +:+ b) with (a +:+ String ";" b).
  by rewrite split_app_sep, List.filter_app, map_app.
Qed.

Lemma enumerate_app {A} (i : nat) (l1 l2 : list A) :
  enumerate i (l1 ++ l2) = enumerate i l1 ++ enumerate (i + length l1) l2.
Proof.
  revert i. induction l1 as [|x l1 IH]; intros i; simpl.
  - by rewrite Nat.add_0_r.
  - rewrite IH. by replace (S i + length l1) with (i + S (length l1)) by lia.
Qed.

Lemma failures_of_app (parse_one : string -> parse_outcome)
  (l1 l2 : list (nat * string)) :
  Spec.failures_of parse_one (l1 ++ l2) =
  Spec.failures_of parse_one l1 ++ Spec.failures_of parse_one l2.
Proof. unfold Spec.failures_of. apply flat_map_app. Qed.

Lemma failures_of_shift (parse_one : string -> parse_outcome) (i k : nat)
  (l : list string) :
  Spec.failures_of parse_one (enumerate (i + k) l) =
  map (fun f => (f.1 + k, f.2)) (Spec.failures_of parse_one (enumerate i l)).
Proof.
  revert i. induction l as [|stmt l IH]; intros i; [done|].
  change (enumerate (i + k) (stmt :: l))
    with ((i + k, stmt) :: enumerate (S i + k) l).
  change (enumerate i (stmt :: l)) with ((i, stmt) :: enumerate (S i) l).
  rewrite !failures_of_cons, map_app, IH. f_equal.
  destruct (10 <=? Py.len stmt)%nat; [|done]. by destruct (parse_one stmt).
Qed.

Lemma parse_failures_app (parse_one : string -> parse_outcome)
  (l1 l2 : list string) :
  Spec.parse_failures parse_one (l1 ++ l2) =
  Spec.parse_failures parse_one l1 ++
    map (fun f => (f.1 + length l1, f.2)) (Spec.parse_failures parse_one l2).
Proof.
  unfold Spec.parse_failures.
  by rewrite enumerate_app, failures_of_app, failures_of_shift.
Qed.

Lemma statements_stripped (content stmt : string) :
  stmt ∈ Pandas.statements content ->
  Py.strip stmt = stmt /\ Spec.no_semicolon stmt
  /\ Py.startswith "--" stmt = false.
Proof.
  unfold Pandas.statements. rewrite list_elem_of_In, in_map_iff.
  intros (f & <- & Hin). apply filter_In in Hin as [Hin Hkeep].
  apply andb_true_iff in Hkeep as [_ Hc]. apply negb_true_iff in Hc.
  split; [apply strip_idempotent|]. split; [|done].
  apply strip_free.
  pose proof (split_fragments_free ";" content) as Hall.
  rewrite Forall_forall in Hall. by apply Hall, list_elem_of_In.
Qed.

(** X1.  Validating the text [a;b] is validating [a] and then [b]: the
    statements are those of [a] followed by those of [b], the counters
    add up, the parser sees the statements of [a] and then those of
    [b], and a failure of [b] is reported under its index moved on by
    the number of statements of [a]; in the pandas validator and in the
    Polars validator. *)
Theorem validator_concatenation (parse_one : string -> parse_outcome)
  (errs : list string) (a b : string) :
  let whole := a +:+ ";" +:+ b in
  Pandas.statements whole = Pandas.statements a ++ Pandas.statements b
  /\ Spec.parse_failures parse_one (Pandas.statements whole) =
       Spec.parse_failures parse_one (Pandas.statements a) ++
         map (fun f => (f.1 + length (Pandas.statements a), f.2))
           (Spec.parse_failures parse_one (Pandas.statements b))
  /\ (let v := Pandas.validate_content parse_one errs whole in
      let va := Pandas.validate_content parse_one errs a in
      let vb := Pandas.validate_content parse_one errs b in
      Pandas.valid_count v = Pandas.valid_count va + Pandas.valid_count vb
      /\ Pandas.error_count v = Pandas.error_count va + Pandas.error_count vb
      /\ Pandas.parser_calls v = Pandas.parser_calls va ++ Pandas.parser_calls vb)
  /\ (let v := Polars.validate_content parse_one whole in
      let va := Polars.validate_content parse_one a in
      let vb := Polars.validate_content parse_one b in
      Polars.statements whole = Polars.statements a ++ Polars.statements b
      /\ Polars.valid_count v = Polars.valid_count va + Polars.valid_count vb
      /\ Polars.error_count v = Polars.error_count va + Polars.error_count vb
      /\ Polars.parser_calls v = Polars.parser_calls va ++ Polars.parser_calls vb).
Proof.
  cbv zeta. split; [apply statements_app_sep|].
  split; [by rewrite statements_app_sep, parse_failures_app|].
  split.
  - rewrite !Pandas_validate_content_spec.
    cbn [Pandas.valid_count Pandas.error_count Pandas.parser_calls].
    rewrite statements_app_sep, parse_failures_app, !List.filter_app,
      !length_app, length_map. done.
  - rewrite !Polars_validate_content_spec.
    cbn [Polars.valid_count Polars.error_count Polars.parser_calls].
    change Polars.statements with Pandas.statements.
    rewrite statements_app_sep, parse_failures_app, !List.filter_app,
      !length_app, length_map. done.
Qed.

(** X2.  Whatever the file holds, a statement handed to the parser is
    stripped of outer white space, holds no semicolon (so a semicolon
    inside a quoted literal or a comment still cuts the statement), has
    ten characters or more and does not start with the comment marker;
    in the pandas validator and in the Polars validator. *)
Theorem validator_parser_inputs (parse_one : string -> parse_outcome)
  (errs : list string) (content stmt : string) :
  stmt ∈ Pandas.parser_calls (Pandas.validate_content parse_one errs content)
  \/ stmt ∈ Polars.parser_calls (Polars.validate_content parse_one content) ->
  Py.strip stmt = stmt /\ Spec.no_semicolon stmt
  /\ 10 <= Py.len stmt /\ Py.startswith "--" stmt = false.
Proof.
  rewrite Pandas_validate_content_spec, Polars_validate_content_spec.
  cbn [Pandas.parser_calls Polars.parser_calls].
  change Polars.statements with Pandas.statements.
  intros H. assert (stmt ∈ List.filter (fun s => (10 <=? Py.len s)%nat)
                      (Pandas.statements content)) as Hin by tauto.
  clear H. apply list_elem_of_In, filter_In in Hin as [Hin Hlen].
  apply list_elem_of_In, statements_stripped in Hin as (Hs & Hf & Hc).
  apply Nat.leb_le in Hlen. done.
Qed.

Lemma validator_parser_inputs_witness :
  Py.strip "MERGE INTO t" = "MERGE INTO t"
  /\ Spec.no_semicolon "MERGE INTO t"
  /\ 10 <= Py.len "MERGE INTO t"
  /\ Py.startswith "--" "MERGE INTO t" = false.
Proof.
  apply (validator_parser_inputs (fun _ => Parsed) []
           "-- x'; MERGE INTO t; COMMIT;" "MERGE INTO t").
  left. vm_compute. by left.
Defined.

(** ** What the validator sees of a generated script *)

Lemma string_app_nil_r (s : string) : s +:+ EmptyString = s.
Proof.
  induction s as [|x s IH]; [done|].
  change (String x s +:+ EmptyString) with (String x (s +:+ EmptyString)).
  by rewrite IH.
Qed.

Lemma all_space_strip (s : string) :
  Spec.all_space s = true -> Py.strip s = EmptyString.
Proof. intros H. unfold Py.strip. by rewrite rstrip_all_space. Qed.

(** A fragment that is white space, or a comment from its first visible
    character on, is no statement. *)
Lemma fragment_dropped (f : string) :
  Spec.all_space f = true \/ Spec.comment_led f ->
  Py.nonempty (Py.strip f) && negb (Py.startswith "--" (Py.strip f)) = false.
Proof.
  intros [H|H].
  - by rewrite (all_space_strip _ H).
  - rewrite (comment_led_strip _ H). apply andb_false_r.
Qed.

Lemma statements_single (f : string) :
  Spec.no_semicolon f ->
  Pandas.statements f =
  if Py.nonempty (Py.strip f) && negb (Py.startswith "--" (Py.strip f))
  then [Py.strip f] else [].
Proof.
  intros H. unfold Pandas.statements. rewrite (split_free _ _ H).
  rewrite filter_cons_if.
  by destruct (Py.nonempty (Py.strip f)
               && negb (Py.startswith "--" (Py.strip f))).
Qed.

Lemma statements_dropped (f : string) :
  Spec.no_semicolon f -> Spec.all_space f = true \/ Spec.comment_led f ->
  Pandas.statements f = [].
Proof.
  intros Hf Hd. by rewrite (statements_single _ Hf), (fragment_dropped _ Hd).
Qed.

Lemma statements_dropped_head (f rest : string) :
  Spec.no_semicolon f -> Spec.all_space f = true \/ Spec.comment_led f ->
  Pandas.statements (f +:+ ";" +:+ rest) = Pandas.statements rest.
Proof.
  intros Hf Hd. by rewrite statements_app_sep, (statements_dropped _ Hf Hd).
Qed.

Lemma statements_kept_head (f rest : string) :
  Spec.no_semicolon f -> Py.strip f <> EmptyString ->
  Py.startswith "--" (Py.strip f) = false ->
  Pandas.statements (f +:+ ";" +:+ rest) = Py.strip f :: Pandas.statements rest.
Proof.
  intros Hf Hne Hc. rewrite statements_app_sep, (statements_single _ Hf), Hc.
  by destruct (Py.strip f).
Qed.

(** Texts that [rstrip] leaves alone: those that end in a character
    which is not white space. *)
Lemma tight_app (a b : string) :
  Py.rstrip b = b /\ b <> EmptyString ->
  Py.rstrip (a +:+ b) = a +:+ b /\ a +:+ b <> EmptyString.
Proof.
  intros [Hb Hne]. split.
  - rewrite rstrip_app; by rewrite Hb.
  - destruct a; simpl; [done|discriminate].
Qed.

Lemma tight_String (c : ascii) (b : string) :
  Py.rstrip b = b /\ b <> EmptyString ->
  Py.rstrip (String c b) = String c b /\ String c b <> EmptyString.
Proof. apply (tight_app (String c EmptyString) b). Qed.

Lemma strip_tight (c : ascii) (s : string) :
  Py.isspace c = false ->
  Py.rstrip (String c s) = String c s ->
  Py.strip (String c s) = String c s.
Proof. intros Hc Hr. unfold Py.strip. rewrite Hr. simpl. by rewrite Hc. Qed.

Lemma strip_lead_space (ws s : string) :
  Spec.all_space ws = true -> Py.strip (ws +:+ s) = Py.strip s.
Proof.
  intros H. rewrite <- (string_app_nil_r s) at 1.
  by apply strip_app_space.
Qed.

Ltac tight :=
  repeat first
    [ solve [split; [reflexivity|discriminate]]
    | apply tight_String
    | apply tight_app ].

(** A join of lines, appended to a list of lines that is not empty. *)
Lemma join_app_lines (sep : string) (l m : list string) :
  l <> [] ->
  Py.join sep (l ++ m) =
  Py.join sep l +:+ fold_right (fun x acc => sep +:+ x +:+ acc) EmptyString m.
Proof.
  intros Hl. induction l as [|x l IH]; [done|]. destruct l as [|y l].
  - clear IH Hl. revert x. induction m as [|z m IHm]; intros x.
    + simpl. by rewrite string_app_nil_r.
    + change (Py.join sep ([x] ++ z :: m))
        with (x +:+ sep +:+ Py.join sep ([z] ++ m)).
      rewrite IHm. simpl. by rewrite ?string_app_assoc.
  - change (Py.join sep ((x :: y :: l) ++ m))
      with (x +:+ sep +:+ Py.join sep ((y :: l) ++ m)).
    rewrite IH by done.
    change (Py.join sep (x :: y :: l))
      with (x +:+ sep +:+ Py.join sep (y :: l)).
    by rewrite !string_app_assoc.
Qed.

Lemma free_of_join (c : ascii) (sep : string) (l : list string) :
  Spec.free_of c sep = true ->
  Forall (fun s => Spec.free_of c s = true) l ->
  Spec.free_of c (Py.join sep l) = true.
Proof. apply free_of_concat. Qed.

Ltac same_text :=
  unfold Py.join; cbn [String.concat];
  rewrite ?string_app_assoc; cbn [String.append]; reflexivity.

Lemma Forall_free_map {A} (c : ascii) (f : A -> string) (P : A -> Prop)
  (l : list A) :
  (forall x, P x -> Spec.free_of c (f x) = true) ->
  Forall P l -> Forall (fun s => Spec.free_of c s = true) (map f l).
Proof.
  intros Hf Hl. apply Forall_map. eapply Forall_impl; [exact Hl|done].
Qed.

Lemma Forall_take_free (c : ascii) (n : nat) (l : list string) :
  Forall (fun s => Spec.free_of c s = true) l ->
  Forall (fun s => Spec.free_of c s = true) (take n l).
Proof.
  apply Forall_take.
Qed.

Ltac free_step :=
  first
    [ assumption
    | reflexivity
    | rewrite free_of_app; apply andb_true_intro; split
    | apply free_of_join; [reflexivity|]
    | apply Forall_cons_2
    | apply Forall_nil
    | apply Forall_take_free
    | apply Forall_free_map with (P := fun s => Spec.free_of ";" s = true);
      [intros ? ?|] ].

Ltac free := unfold Spec.no_semicolon in *; repeat free_step.

Section PandasScripts.

Import Pandas.

Lemma free_business_key_join (keys : list string) :
  Forall Spec.no_semicolon keys ->
  Spec.no_semicolon (business_key_join keys).
Proof. intros H. unfold business_key_join. free. Qed.

Lemma free_change_check (cols : list string) :
  Forall Spec.no_semicolon cols -> Spec.no_semicolon (change_check cols).
Proof. intros H. unfold change_check, change_test. free. Qed.

(** The Type 1 script, cut at its semicolons. *)
Lemma merge_sql_fragments (t s : string) (l : type1_lists) :
  merge_sql t s l =
  (nl +:+ nl +:+ "-- SCD Type 1: Update existing, Insert new" +:+ nl
     +:+ "BEGIN TRANSACTION")
  +:+ ";" +:+ (nl +:+ nl +:+ Spec.merge_statement t s l)
  +:+ ";" +:+ (nl +:+ nl +:+ "COMMIT")
  +:+ ";" +:+ nl.
Proof. unfold merge_sql, Spec.merge_statement. same_text. Qed.

(** The Type 2 script, cut at its semicolons: the UPDATE and the INSERT
    both come behind a comment line. *)
Lemma type2_sql_fragments (t s : string) (l : type2_lists) :
  exists update insert,
    type2_sql t s l =
    (nl +:+ nl +:+ "-- SCD Type 2: Track history with effective dates" +:+ nl
       +:+ "BEGIN TRANSACTION")
    +:+ ";" +:+ (nl +:+ nl +:+ "-- Expire changed records" +:+ nl +:+ update)
    +:+ ";" +:+ (nl +:+ nl +:+ "-- Insert new versions" +:+ nl +:+ insert)
    +:+ ";" +:+ (nl +:+ nl +:+ "COMMIT")
    +:+ ";" +:+ nl
    /\ (Spec.no_semicolon t -> Spec.no_semicolon s ->
        Forall Spec.no_semicolon (t2_target_cols l) ->
        Forall Spec.no_semicolon (t2_source_exprs l) ->
        Forall Spec.no_semicolon (t2_business_keys l) ->
        Forall Spec.no_semicolon (t2_compare_cols l) ->
        Spec.no_semicolon update /\ Spec.no_semicolon insert).
Proof.
  exists
    (Py.join nl [
       "UPDATE " +:+ t +:+ " AS tgt";
       "SET";
       "tgt.effective_end_date = DATEADD(day, -1, GETDATE()),";
       "tgt.is_current = FALSE,";
       "tgt.updated_date = GETDATE()";
       "FROM (";
       "SELECT " +:+ Py.join ", " (map (fun k => "src." +:+ k) (t2_business_keys l));
       "FROM " +:+ s +:+ " AS src";
       ") AS src";
       "WHERE tgt.is_current = TRUE";
       "AND " +:+ business_key_join (t2_business_keys l);
       "AND (" +:+ change_check (t2_compare_cols l) +:+ ")"]),
    (Py.join nl [
       "INSERT INTO " +:+ t +:+ " (";
       Py.join ", " (t2_target_cols l) +:+ ",";
       "effective_start_date,";
       "effective_end_date,";
       "is_current,";
       "created_date";
       ")";
       "SELECT";
       Py.join ("," +:+ nl +:+ "    ") (t2_source_exprs l) +:+ ",";
       "GETDATE() AS effective_start_date,";
       "'9999-12-31'::DATE AS effective_end_date,";
       "TRUE AS is_current,";
       "GETDATE() AS created_date";
       "FROM " +:+ s +:+ " AS src";
       "WHERE NOT EXISTS (";
       "SELECT 1 FROM " +:+ t +:+ " AS tgt";
       "WHERE tgt.is_current = TRUE";
       "AND " +:+ business_key_join (t2_business_keys l);
       ")";
       "OR EXISTS (";
       "SELECT 1 FROM " +:+ t +:+ " AS tgt";
       "WHERE tgt.is_current = TRUE";
       "AND " +:+ business_key_join (t2_business_keys l);
       "AND (" +:+ change_check (t2_compare_cols l) +:+ ")";
       ")"]).
  split.
  - unfold type2_sql. cbv zeta. same_text.
  - intros Ht Hs H1 H2 H3 H4.
    pose proof (free_business_key_join _ H3) as Hk.
    pose proof (free_change_check _ H4) as Hc.
    split; free.
Qed.

Lemma join_items_Returned (i : nat) (l : list cell) (items : list string) :
  join_items i l = Returned items -> l = map CStr items.
Proof.
  revert i items. induction l as [|c l IH]; intros i items.
  - by intros [= <-].
  - destruct c; try discriminate. simpl.
    intros (rest & Hrest & [= <-])%bind_Returned.
    simpl. by rewrite (IH _ _ Hrest).
Qed.

(** The Insert script, cut at its semicolon: the statement comes behind
    a comment line, and what follows it is a comment. *)
Lemma insert_sql_fragments (t s : string) (l : insert_lists) (script : string) :
  insert_sql t s l = Returned script ->
  exists body,
    script =
    (nl +:+ nl +:+ "-- Insert load" +:+ nl +:+ body)
    +:+ ";" +:+ ("  -- Add filter conditions here" +:+ nl)
    /\ (Spec.no_semicolon t -> Spec.no_semicolon s ->
        Forall Spec.no_semicolon (ins_target_cols l) ->
        Forall (fun c => Spec.no_semicolon (str c)) (ins_source_exprs l) ->
        Spec.no_semicolon body).
Proof.
  unfold insert_sql, join_cells.
  intros (exprs & (items & Hitems & [= <-])%bind_Returned & [= <-])%bind_Returned.
  exists
    (Py.join nl [
       "INSERT INTO " +:+ t +:+ " (";
       Py.join ", " (ins_target_cols l);
       ")";
       "SELECT";
       Py.join ("," +:+ nl +:+ "    ") items;
       "FROM " +:+ s;
       "WHERE 1=1"]).
  split; [same_text|].
  intros Ht Hs H1 H2. apply join_items_Returned in Hitems.
  rewrite Hitems in H2. apply (proj1 (Forall_map _ _ _)) in H2.
  free.
Qed.

Lemma free_merge_statement (t s : string) (l : type1_lists) :
  Spec.no_semicolon t -> Spec.no_semicolon s ->
  Forall Spec.no_semicolon (t1_target_cols l) ->
  Forall Spec.no_semicolon (t1_source_exprs l) ->
  Forall Spec.no_semicolon (t1_update_sets l) ->
  Forall Spec.no_semicolon (t1_business_keys l) ->
  Spec.no_semicolon (Spec.merge_statement t s l).
Proof.
  intros Ht Hs H1 H2 H3 H4.
  pose proof (free_business_key_join _ H4) as Hk.
  unfold Spec.merge_statement. free.
Qed.

(** The fragment that holds the MERGE is handed over as the MERGE
    statement itself. *)
Lemma strip_merge_statement (t s : string) (l : type1_lists) :
  Py.strip (nl +:+ nl +:+ Spec.merge_statement t s l) =
  Spec.merge_statement t s l
  /\ Py.startswith "MERGE INTO" (Spec.merge_statement t s l) = true.
Proof.
  rewrite <- string_app_assoc, strip_lead_space by reflexivity.
  unfold Spec.merge_statement, Py.join. cbn [String.concat].
  rewrite ?string_app_assoc. cbn [String.append].
  split; [|reflexivity].
  apply strip_tight; [reflexivity|]. by tight.
Qed.

End PandasScripts.

Section PandasBlocks.

Import Pandas.

Local Abbreviation lines_after :=
  (fold_right (fun x acc : string => nl +:+ x +:+ acc)).

Lemma clean_mapping_facts (r : ColumnMapping) :
  Spec.clean_mapping r = true ->
  Spec.no_semicolon (target_schema r) /\ Spec.no_semicolon (target_table r)
  /\ Spec.no_semicolon (target_column r)
  /\ Spec.no_semicolon (source_schema r) /\ Spec.no_semicolon (source_table r)
  /\ Spec.no_semicolon (str (source_column r))
  /\ Spec.no_semicolon (str (transformation r))
  /\ Spec.no_semicolon (str (constant_value r))
  /\ Spec.no_semicolon (str (scd_type r)).
Proof.
  unfold Spec.clean_mapping, Spec.no_semicolon. cbn [forallb].
  rewrite !andb_true_iff. tauto.
Qed.

Lemma clean_resolved (alias : string) (r : ColumnMapping) :
  Spec.clean_mapping r = true -> Spec.no_semicolon alias ->
  Spec.no_semicolon (Spec.resolved_expression "nan" alias r).
Proof.
  intros (_ & _ & _ & _ & _ & Hs & Ht & Hc & _)%clean_mapping_facts Ha.
  unfold Spec.resolved_expression, str in *.
  destruct (transformation r); try done;
    destruct (source_column r); try (cbn [py_str] in *; by free);
    destruct (constant_value r); try done; cbn [py_str] in *; by free.
Qed.

Lemma clean_insert_expr (r : ColumnMapping) :
  Spec.clean_mapping r = true ->
  Spec.no_semicolon (str (insert_source_expr r)).
Proof.
  intros H. rewrite Pandas_insert_resolved. by apply clean_resolved.
Qed.

Lemma clean_type1_lists (tm : frame ColumnMapping) :
  Forall (fun r => Spec.clean_mapping r = true) (rows tm) ->
  Forall Spec.no_semicolon (t1_target_cols (type1_loop tm))
  /\ Forall Spec.no_semicolon (t1_source_exprs (type1_loop tm))
  /\ Forall Spec.no_semicolon (t1_update_sets (type1_loop tm))
  /\ Forall Spec.no_semicolon (t1_business_keys (type1_loop tm)).
Proof.
  intros H. rewrite Pandas_type1_loop.
  cbn [t1_target_cols t1_source_exprs t1_update_sets t1_business_keys].
  unfold Spec.non_key_columns. rewrite map_map.
  assert (forall f, Forall (fun r => Spec.clean_mapping r = true)
                      (List.filter f (rows tm))) as Hf.
  { intros f. rewrite Forall_forall in *. intros r Hr. apply H.
    apply list_elem_of_In. apply list_elem_of_In in Hr.
    by apply filter_In in Hr as [Hr _]. }
  repeat split; (eapply Forall_free_map; [|first [exact H|apply Hf]]);
    intros r Hr; pose proof (clean_resolved "src." r Hr eq_refl) as He;
    apply clean_mapping_facts in Hr as (_ & _ & Hc & _);
    rewrite ?Pandas_type1_resolved; by free.
Qed.

Lemma clean_type2_lists (tm : frame ColumnMapping) :
  Forall (fun r => Spec.clean_mapping r = true) (rows tm) ->
  Forall Spec.no_semicolon (t2_target_cols (type2_loop tm))
  /\ Forall Spec.no_semicolon (t2_source_exprs (type2_loop tm))
  /\ Forall Spec.no_semicolon (t2_business_keys (type2_loop tm))
  /\ Forall Spec.no_semicolon (t2_compare_cols (type2_loop tm)).
Proof.
  intros H. rewrite Pandas_type2_loop.
  cbn [t2_target_cols t2_source_exprs t2_business_keys t2_compare_cols].
  unfold Spec.non_key_columns.
  assert (forall f, Forall (fun r => Spec.clean_mapping r = true)
                      (List.filter f (rows tm))) as Hf.
  { intros f. rewrite Forall_forall in *. intros r Hr. apply H.
    apply list_elem_of_In. apply list_elem_of_In in Hr.
    by apply filter_In in Hr as [Hr _]. }
  repeat split; (eapply Forall_free_map; [|first [exact H|apply Hf]]);
    intros r Hr; pose proof (clean_resolved "src." r Hr eq_refl) as He;
    apply clean_mapping_facts in Hr as (_ & _ & Hc & _);
    rewrite ?Pandas_type2_resolved; by free.
Qed.

Lemma clean_insert_lists (tm : frame ColumnMapping) :
  Forall (fun r => Spec.clean_mapping r = true) (rows tm) ->
  Forall Spec.no_semicolon (ins_target_cols (insert_loop tm))
  /\ Forall (fun c => Spec.no_semicolon (str c))
       (ins_source_exprs (insert_loop tm)).
Proof.
  intros H. rewrite Pandas_insert_loop.
  cbn [ins_target_cols ins_source_exprs]. split.
  - eapply Forall_free_map; [|exact H]. intros r Hr.
    by apply clean_mapping_facts in Hr as (_ & _ & Hc & _).
  - apply Forall_map. eapply Forall_impl; [exact H|].
    intros r Hr. by apply clean_insert_expr.
Qed.

(** The head of a block: the two comment lines and what the script
    holds before its first semicolon. *)
Lemma block_text (p lc rule f0 rest R : string) :
  p +:+ lines_after R [lc; rule; f0 +:+ ";" +:+ rest] =
  (p +:+ nl +:+ lc +:+ nl +:+ rule +:+ nl +:+ f0) +:+ ";" +:+ (rest +:+ R).
Proof. simpl. by rewrite !string_app_assoc. Qed.

Lemma app_sep_assoc (a b R : string) :
  (a +:+ ";" +:+ b) +:+ R = a +:+ ";" +:+ (b +:+ R).
Proof. by rewrite !string_app_assoc. Qed.

Lemma block_head_led (p full : string) (tag : cell) (rest : string) :
  Spec.all_space p = true \/ Spec.comment_led p ->
  Spec.comment_led (p +:+ nl +:+ load_comment full tag +:+ rest).
Proof.
  intros [Hp|Hp]; [|by apply comment_led_app].
  apply comment_led_space_app; [done|].
  exists (nl +:+ nl),
    (" Load: " +:+ full +:+ " (SCD " +:+ str tag +:+ ")" +:+ rest).
  split; [reflexivity|]. unfold load_comment.
  rewrite ?string_app_assoc. cbn [String.append]. reflexivity.
Qed.

Lemma block_head_free (p full : string) (tag : cell) (f0 : string) :
  Spec.no_semicolon p -> Spec.no_semicolon full ->
  Spec.no_semicolon (str tag) -> Spec.no_semicolon f0 ->
  Spec.no_semicolon
    (p +:+ nl +:+ load_comment full tag +:+ nl +:+ load_rule +:+ nl +:+ f0).
Proof. intros Hp Hf Ht H0. unfold load_comment. free. Qed.

Lemma led_after_blank (text rest : string) :
  Spec.comment_led (nl +:+ nl +:+ "--" +:+ text +:+ nl +:+ rest).
Proof.
  exists (nl +:+ nl), (text +:+ nl +:+ rest). split; [reflexivity|].
  by rewrite ?string_app_assoc.
Qed.

Lemma merge_statement_kept (t s : string) (l : type1_lists) :
  Spec.merge_statement t s l <> EmptyString
  /\ Py.startswith "--" (Spec.merge_statement t s l) = false
  /\ (10 <=? Py.len (Spec.merge_statement t s l))%nat = true.
Proof.
  unfold Spec.merge_statement, Py.join. cbn [String.concat].
  rewrite ?string_app_assoc. cbn [String.append]. done.
Qed.

(** What the validator makes of one load block, standing behind a text
    [p] that holds no statement of its own: the statements of the
    block, and a rest [q] that again holds none. *)
Lemma dml_block_statements (m : frame ColumnMapping) (t : string)
  (b : list string) (p : string) :
  (forall r, r ∈ rows m -> Spec.clean_mapping r = true) ->
  dml_table m [] t = Returned b ->
  Spec.no_semicolon p -> Spec.all_space p = true \/ Spec.comment_led p ->
  exists q,
    Spec.no_semicolon q /\ (Spec.all_space q = true \/ Spec.comment_led q)
    /\ forall R,
         statements (p +:+ lines_after R b) =
         Spec.dml_statements m t ++ statements (q +:+ R).
Proof.
  intros Hclean Hb Hp Hpd. unfold dml_table in Hb.
  apply bind_Returned in Hb as (first & Hfirst & Hb).
  apply Pandas_iloc0_head in Hfirst. cbv zeta in Hb.
  apply bind_Returned in Hb as (tag & Htag & Hb).
  apply bind_Returned in Hb as (script & Hscript & [= <-]).
  set (tm := sort_by target_column_order (rows_of_target m t)) in *.
  assert (first ∈ rows m /\ target_table first = t) as [Hfin Hft].
  { apply Pandas_elem_of_group.
    destruct (rows (rows_of_target m t)) as [|x l]; [discriminate|].
    injection Hfirst as ->. left. }
  assert (Forall (fun r => Spec.clean_mapping r = true) (rows tm)) as Htm.
  { apply Forall_forall. intros r Hr. apply Hclean.
    apply elem_of_sort_by, Pandas_elem_of_group in Hr. tauto. }
  destruct (head (rows tm)) as [lead|] eqn:Hlead.
  2:{ exfalso. apply (sort_by_nonempty target_column_order (rows_of_target m t)).
      - intros E. by rewrite E in Hfirst.
      - fold tm. by destruct (rows tm). }
  rewrite (Pandas_governing_head _ _ Hlead) in Htag.
  change (has_column "scd_type" tm) with (has_column "scd_type" m) in Htag.
  injection Htag as Htag.
  assert (lead ∈ rows tm) as Hlin
    by (destruct (rows tm); [discriminate|injection Hlead as ->; left]).
  rewrite Forall_forall in Htm. pose proof (Htm _ Hlin) as Hlc.
  rewrite <- Forall_forall in Htm.
  apply clean_mapping_facts in Hlc
    as (_ & _ & _ & Hss & Hst & _ & _ & _ & Hscd).
  destruct (clean_mapping_facts _ (Hclean _ Hfin))
    as (Hfs & Hftt & _). rewrite Hft in Hftt.
  assert (Spec.no_semicolon (target_schema first +:+ "." +:+ t)) as Hfull
    by by free.
  assert (Spec.no_semicolon (source_schema lead +:+ "." +:+ source_table lead))
    as Hsrc by by free.
  assert (Spec.no_semicolon (str tag)) as Htagf.
  { rewrite <- Htag. by destruct (has_column "scd_type" m). }
  unfold Spec.dml_statements. cbv zeta. fold tm. rewrite Hfirst, Hlead, Htag.
  unfold load_script in Hscript.
  destruct (cell_eq_str tag "TYPE1") eqn:E1;
    [|destruct (cell_eq_str tag "TYPE2") eqn:E2].
  - rewrite (Pandas_type1_returns _ _ _ Hlead) in Hscript.
    injection Hscript as <-. exists nl. split; [reflexivity|].
    split; [by left|]. intros R.
    destruct (clean_type1_lists tm Htm) as (H1 & H2 & H3 & H4).
    pose proof (free_merge_statement _ _ _ Hfull Hsrc H1 H2 H3 H4) as Hms.
    destruct (strip_merge_statement (target_schema first +:+ "." +:+ t)
                (source_schema lead +:+ "." +:+ source_table lead)
                (type1_loop tm)) as [Hstrip _].
    destruct (merge_statement_kept (target_schema first +:+ "." +:+ t)
                (source_schema lead +:+ "." +:+ source_table lead)
                (type1_loop tm)) as (Hne & Hnc & _).
    rewrite merge_sql_fragments, block_text, !app_sep_assoc.
    rewrite statements_dropped_head;
      [|by apply block_head_free|right; by apply block_head_led].
    rewrite statements_kept_head; rewrite ?Hstrip; [|by free|done|done].
    rewrite (statements_kept_head (nl +:+ nl +:+ "COMMIT")); done.
  - destruct (type2_sql_fragments (target_schema first +:+ "." +:+ t)
                (source_schema lead +:+ "." +:+ source_table lead)
                (type2_loop tm)) as (update & insert & Heq & Hfree).
    rewrite (Pandas_type2_returns _ _ _ Hlead) in Hscript.
    injection Hscript as <-. exists nl. split; [reflexivity|].
    split; [by left|]. intros R.
    destruct (clean_type2_lists tm Htm) as (H1 & H2 & H3 & H4).
    destruct (Hfree Hfull Hsrc H1 H2 H3 H4) as [Hu Hi].
    rewrite Heq, block_text, !app_sep_assoc.
    rewrite statements_dropped_head;
      [|by apply block_head_free|right; by apply block_head_led].
    rewrite statements_dropped_head;
      [|by free|right; apply (led_after_blank " Expire changed records")].
    rewrite statements_dropped_head;
      [|by free|right; apply (led_after_blank " Insert new versions")].
    rewrite (statements_kept_head (nl +:+ nl +:+ "COMMIT")); done.
  - unfold _generate_insert_load in Hscript.
    rewrite (Pandas_source_table_head _ _ Hlead) in Hscript.
    cbn [mbind outcome_bind] in Hscript.
    destruct (insert_sql_fragments _ _ _ _ Hscript) as (body & -> & Hfree).
    destruct (clean_insert_lists tm Htm) as (H1 & H2).
    pose proof (Hfree Hfull Hsrc H1 H2) as Hbody.
    exists ("  -- Add filter conditions here" +:+ nl).
    split; [reflexivity|]. split.
    { right. exists "  ", (" Add filter conditions here" +:+ nl). done. }
    intros R. rewrite block_text.
    rewrite statements_dropped_head;
      [done|apply block_head_free; [done..|by free]|right; by apply block_head_led].
Qed.

End PandasBlocks.

Section PandasFile.

Import Pandas.

Local Abbreviation lines_after :=
  (fold_right (fun x acc : string => nl +:+ x +:+ acc)).

Lemma dml_blocks_statements (m : frame ColumnMapping) (ts : list string)
  (blocks : list (list string)) (p : string) :
  (forall r, r ∈ rows m -> Spec.clean_mapping r = true) ->
  Forall2 (fun t b => dml_table m [] t = Returned b) ts blocks ->
  Spec.no_semicolon p -> Spec.all_space p = true \/ Spec.comment_led p ->
  statements (p +:+ lines_after EmptyString (concat blocks)) =
  flat_map (Spec.dml_statements m) ts.
Proof.
  intros Hclean Hall. revert p.
  induction Hall as [|t b ts blocks Hb Hall IH]; intros p Hp Hd.
  - simpl. rewrite string_app_nil_r. by apply statements_dropped.
  - destruct (dml_block_statements m t b p Hclean Hb Hp Hd)
      as (q & Hq & Hqd & Heq).
    simpl concat. rewrite fold_right_app, Heq. simpl flat_map.
    by rewrite (IH q Hq Hqd).
Qed.

Lemma dml_statements_cases (m : frame ColumnMapping) (t : string) :
  (exists target source l,
      Spec.dml_statements m t =
      [Spec.merge_statement target source l; "COMMIT"])
  \/ Spec.dml_statements m t = ["COMMIT"]
  \/ Spec.dml_statements m t = [].
Proof.
  unfold Spec.dml_statements. cbv zeta.
  destruct (head (rows (rows_of_target m t))) as [first|]; [|by right; right].
  destruct (head (rows (sort_by _ _))) as [lead|]; [|by right; right].
  destruct (cell_eq_str _ "TYPE1"); [left; by eauto|].
  destruct (cell_eq_str _ "TYPE2"); [by right; left|by right; right].
Qed.

(** Of the statements of the load blocks, those long enough for the
    parser are the MERGE statements. *)
Lemma dml_statements_parsed (m : frame ColumnMapping) (ts : list string) :
  List.filter (fun s => (10 <=? Py.len s)%nat)
    (flat_map (Spec.dml_statements m) ts) =
  List.filter (Py.startswith "MERGE INTO")
    (flat_map (Spec.dml_statements m) ts).
Proof.
  induction ts as [|t ts IH]; [done|]. simpl flat_map.
  rewrite !List.filter_app, IH. f_equal.
  destruct (dml_statements_cases m t)
    as [(target & source & l & ->)|[->| ->]]; [|done..].
  destruct (merge_statement_kept target source l) as (_ & _ & Hlen).
  destruct (strip_merge_statement target source l) as [_ Hm].
  rewrite !filter_cons_if, Hlen, Hm. done.
Qed.

Lemma dml_banner_text (now : string) :
  Spec.no_semicolon now ->
  Spec.no_semicolon (Py.join nl (dml_banner now))
  /\ Spec.comment_led (Py.join nl (dml_banner now)).
Proof.
  intros Hnow. split.
  - unfold dml_banner, banner_rule. by free.
  - exists EmptyString,
      (" AWS Redshift DML Scripts (Incremental Load)" +:+ nl
         +:+ "-- Generated on: " +:+ now +:+ nl +:+ banner_rule).
    split; reflexivity.
Qed.

End PandasFile.

(** X3.  [sqlcodegen.py] checking its own DML script.  When no text of
    the mappings and of the time stamp holds a semicolon, the validator
    finds in the file that [generate_dml] wrote, block by block: for a
    Type 1 load the MERGE statement and COMMIT; for a Type 2 load COMMIT
    alone, because its UPDATE and its INSERT each follow a comment line
    within their fragment; for an Insert load nothing, for the same
    reason; and never BEGIN TRANSACTION.  COMMIT is numbered but too
    short to be parsed, so the parser is handed the MERGE statements and
    nothing else. *)
Theorem generated_dml_validation (parse_one : string -> parse_outcome)
  (errs : list string) (now : string) (self : Pandas.generator)
  (fs : filesystem) (output_file : string) (m : frame ColumnMapping)
  (res : bool * Pandas.generator * filesystem) :
  Pandas.mappings_df self = Some m ->
  Spec.no_semicolon now ->
  (forall r, r ∈ rows m -> Spec.clean_mapping r = true) ->
  Pandas.generate_dml now self fs output_file = Returned res ->
  exists content,
    res.2 !! output_file = Some content
    /\ Pandas.statements content =
         flat_map (Spec.dml_statements m) (Pandas.targets m)
    /\ Pandas.parser_calls (Pandas.validate_content parse_one errs content) =
         List.filter (Py.startswith "MERGE INTO")
           (flat_map (Spec.dml_statements m) (Pandas.targets m)).
Proof.
  intros Hm Hnow Hclean Hrun. unfold Pandas.generate_dml in Hrun.
  rewrite Hm in Hrun.
  apply bind_Returned in Hrun as (out & Hloop & [= <-]).
  destruct (for_each_blocks _ _ _ _ _ (Pandas_dml_table_acc m) Hloop)
    as (blocks & Hall & ->).
  exists (Py.join nl (Pandas.dml_banner now ++ concat blocks)).
  split; [apply lookup_insert_eq|].
  assert (Pandas.statements
            (Py.join nl (Pandas.dml_banner now ++ concat blocks)) =
          flat_map (Spec.dml_statements m) (Pandas.targets m)) as Hst.
  { rewrite join_app_lines by done.
    destruct (dml_banner_text now Hnow) as [Hf Hl].
    apply dml_blocks_statements; [done|done|done|by right]. }
  split; [done|].
  rewrite Pandas_validate_content_spec. cbn [Pandas.parser_calls].
  rewrite Hst. apply dml_statements_parsed.
Qed.

Lemma generated_dml_validation_witness :
  exists content,
    Pandas.statements content = ["COMMIT"]
    /\ Pandas.parser_calls
         (Pandas.validate_content Sample.drop_only [] content) = [].
Proof.
  destruct (Pandas.generate_dml Sample.timestamp
              (Pandas.Generator None None
                 (Some (Sample.customer_mappings (CStr "TYPE2"))) [])
              ∅ "dml_scripts.sql") as [res|e] eqn:E;
    [|vm_compute in E; discriminate E].
  destruct (generated_dml_validation Sample.drop_only [] Sample.timestamp
              (Pandas.Generator None None
                 (Some (Sample.customer_mappings (CStr "TYPE2"))) [])
              ∅ "dml_scripts.sql" (Sample.customer_mappings (CStr "TYPE2"))
              res eq_refl eq_refl) as
    (content & _ & Hst & Hcalls).
  - apply Forall_forall. repeat constructor.
  - exact E.
  - exists content. rewrite Hst, Hcalls. split; vm_compute; reflexivity.
Defined.

(** ** The lineage diagram of the Polars scripts *)

Section PolarsLineage.

Import Polars.

Variable distinct : list (string * string) -> list (string * string).

Lemma lineage_fold (schema table : string)
  (entries : list (nat * (string * string))) (acc : list string) :
  fold_left (lineage_source schema table) entries acc =
  acc ++ flat_map (fun e => lineage_source schema table [] e) entries.
Proof.
  revert acc. induction entries as [|[i src] entries IH]; intros acc.
  - by rewrite app_nil_r.
  - simpl fold_left. rewrite IH. simpl flat_map.
    unfold lineage_source. cbv zeta. by rewrite <- !app_assoc.
Qed.

Lemma lineage_sources (m : frame ColumnMapping) (schema table : string)
  (p : string * string) :
  (forall l, NoDup (distinct l) /\ forall q, q ∈ distinct l <-> q ∈ l) ->
  p ∈ sources distinct (rows_of_target m (schema, table)) <->
  exists r, r ∈ rows m
            /\ (target_schema r, target_table r) = (schema, table)
            /\ (source_schema r, source_table r) = p.
Proof.
  intros Hd. unfold sources. rewrite (proj2 (Hd _)).
  rewrite list_elem_of_In, in_map_iff. split.
  - intros (r & Hp & Hr). apply list_elem_of_In in Hr.
    apply Polars_elem_of_group in Hr as [Hr Ht]. by exists r.
  - intros (r & Hr & Ht & Hp). exists r. split; [done|].
    apply list_elem_of_In. by apply Polars_elem_of_group.
Qed.

End PolarsLineage.

(** X4.  The lineage diagram.  Whatever order [unique()] gives the
    distinct rows in: without mappings, or for a table no mapping row
    targets, the diagram is the fixed two-line text; otherwise it is
    never that text, and its lines are the heading followed, for each
    distinct (source_schema, source_table) pair of the rows of the
    table, numbered from 0, by the node of the source, the node TGT of
    the table once more, and the edge from the source to TGT. *)
Theorem lineage_diagram_shape
  (distinct : list (string * string) -> list (string * string))
  (self : Polars.generator) (schema table : string) :
  (forall l, NoDup (distinct l) /\ forall q, q ∈ distinct l <-> q ∈ l) ->
  let targeted (m : frame ColumnMapping) (r : ColumnMapping) :=
    r ∈ rows m /\ (target_schema r, target_table r) = (schema, table) in
  let diagram := Polars._build_lineage_diagram distinct self schema table in
  (Polars.mappings_df self = None -> diagram = Polars.no_lineage)
  /\ forall m, Polars.mappings_df self = Some m ->
       ((forall r, ~ targeted m r) -> diagram = Polars.no_lineage)
       /\ ((exists r, targeted m r) ->
           diagram <> Polars.no_lineage
           /\ exists srcs,
                NoDup srcs
                /\ (forall p, p ∈ srcs <->
                      exists r, targeted m r
                                /\ (source_schema r, source_table r) = p)
                /\ diagram =
                   Py.join nl
                     ("graph LR" ::
                      flat_map
                        (fun e : nat * (string * string) =>
                           ["    SRC" +:+ pretty e.1 +:+ "[" +:+ e.2.1 +:+ "."
                              +:+ e.2.2 +:+ "]";
                            "    TGT[" +:+ schema +:+ "." +:+ table +:+ "]";
                            "    SRC" +:+ pretty e.1 +:+ " -->|ETL Process| TGT"])
                        (enumerate 0 srcs))).
Proof.
  intros Hd targeted diagram. subst diagram.
  unfold Polars._build_lineage_diagram. split; [by intros ->|].
  intros m ->. split.
  - intros Hnone.
    destruct (rows (Polars.rows_of_target m (schema, table))) as [|r l] eqn:E;
      [done|].
    destruct (Hnone r). apply Polars_elem_of_group. rewrite E. left.
  - intros (r & Hr). destruct Hr as [Hr Hrt].
    assert (r ∈ rows (Polars.rows_of_target m (schema, table))) as Hin
      by by apply Polars_elem_of_group.
    destruct (rows (Polars.rows_of_target m (schema, table))) as [|r0 l] eqn:E;
      [by apply elem_of_nil in Hin|].
    assert (Polars.lineage_lines distinct (Polars.rows_of_target m (schema, table))
              schema table =
            "graph LR" ::
              flat_map
                (fun e : nat * (string * string) =>
                   ["    SRC" +:+ pretty e.1 +:+ "[" +:+ e.2.1 +:+ "."
                      +:+ e.2.2 +:+ "]";
                    "    TGT[" +:+ schema +:+ "." +:+ table +:+ "]";
                    "    SRC" +:+ pretty e.1 +:+ " -->|ETL Process| TGT"])
                (enumerate 0
                   (Polars.sources distinct
                      (Polars.rows_of_target m (schema, table))))) as Hlines.
    { unfold Polars.lineage_lines. rewrite lineage_fold. simpl app. f_equal.
      apply flat_map_ext. intros [i [a b]]. unfold Polars.lineage_source.
      cbn [app fst snd]. rewrite !string_app_assoc. reflexivity. }
    rewrite Hlines. split.
    + assert ((source_schema r, source_table r) ∈
                Polars.sources distinct (Polars.rows_of_target m (schema, table)))
        as Hs by (apply lineage_sources; [done|by exists r]).
      destruct (Polars.sources distinct _) as [|p ps];
        [by apply elem_of_nil in Hs|].
      simpl. unfold Polars.no_lineage. discriminate.
    + exists (Polars.sources distinct (Polars.rows_of_target m (schema, table))).
      split; [apply Hd|]. split; [|done].
      intros p. rewrite lineage_sources by done. unfold targeted.
      split; intros (r' & H); exists r'; tauto.
Qed.

Lemma lineage_diagram_shape_witness :
  exists srcs,
    NoDup srcs
    /\ Polars._build_lineage_diagram Py.unique
         (Polars.Generator None None (Some Sample.two_schemas) [])
         "mart" "customer" =
       Py.join nl
         ("graph LR" ::
          flat_map
            (fun e : nat * (string * string) =>
               ["    SRC" +:+ pretty e.1 +:+ "[" +:+ e.2.1 +:+ "."
                  +:+ e.2.2 +:+ "]";
                "    TGT[" +:+ "mart" +:+ "." +:+ "customer" +:+ "]";
                "    SRC" +:+ pretty e.1 +:+ " -->|ETL Process| TGT"])
            (enumerate 0 srcs)).
Proof.
  destruct (lineage_diagram_shape Py.unique
              (Polars.Generator None None (Some Sample.two_schemas) [])
              "mart" "customer") as [_ H].
  - intros l. split; [apply NoDup_unique|]. intros q. apply elem_of_unique.
  - destruct (H Sample.two_schemas eq_refl) as [_ H2].
    destruct H2 as (_ & srcs & Hnd & _ & Heq).
    + eexists. split; [right; left|reflexivity].
    + exists srcs. split; [exact Hnd|exact Heq].
Defined.

(** ** When the DML generators fail *)

Section PandasFailure.

Import Pandas.

Lemma join_items_returns (i : nat) (l : list cell) :
  (exists items, join_items i l = Returned items) <->
  Forall (fun c => is_str c = true) l.
Proof.
  revert i. induction l as [|c l IH]; intros i.
  - split; [constructor|by eexists].
  - rewrite Forall_cons, <- (IH (S i)).
    destruct c; simpl; try (split; [by intros [? ?]|by intros [? ?]]).
    split.
    + intros [items (rest & Hrest & _)%bind_Returned]. eauto.
    + intros [_ [rest ->]]. by eexists.
Qed.

Lemma join_items_raises (i : nat) (l : list cell) (e : exn) :
  join_items i l = Raised e -> exists msg, e = TypeError msg.
Proof.
  revert i. induction l as [|c l IH]; intros i; [done|].
  destruct c; simpl; try (intros [= <-]; by eexists).
  destruct (join_items (S i) l) eqn:E; [done|].
  simpl. intros [= <-]. by eapply IH.
Qed.

(** On rows whose target columns are text, the script of a group is
    built unless the group is loaded by plain insert and one of its
    source expressions is not text: the Type 1 and Type 2 strategies
    format the expression into a line, the Insert strategy joins the
    values as they are. *)
Lemma Pandas_load_script_outcome (tag : cell) (tm : frame ColumnMapping)
  (full : string) :
  rows tm <> [] ->
  ((exists script, load_script tag tm full = Returned script) <->
   (tag <> CStr "TYPE1" -> tag <> CStr "TYPE2" ->
    Forall (fun r => is_str (insert_source_expr r) = true) (rows tm)))
  /\ forall e, load_script tag tm full = Raised e -> exists msg, e = TypeError msg.
Proof.
  intros Hne. destruct (rows tm) as [|lead l] eqn:E; [done|].
  assert (head (rows tm) = Some lead) as Hlead by by rewrite E.
  rewrite <- E.
  destruct (Pandas_load_script_cases tag tm full)
    as [[-> ->]|[[-> ->]|(H1 & H2 & ->)]].
  - rewrite (Pandas_type1_returns _ _ _ Hlead). split; [|done].
    split; [done|by eexists].
  - rewrite (Pandas_type2_returns _ _ _ Hlead). split; [|done].
    split; [done|by eexists].
  - unfold _generate_insert_load.
    rewrite (Pandas_source_table_head _ _ Hlead). cbn [mbind outcome_bind].
    unfold insert_sql, join_cells. rewrite Pandas_insert_loop.
    cbn [ins_source_exprs].
    pose proof (join_items_returns 0 (map insert_source_expr (rows tm))) as Hr.
    pose proof (join_items_raises 0 (map insert_source_expr (rows tm))) as Hx.
    rewrite Forall_map in Hr.
    destruct (join_items 0 (map insert_source_expr (rows tm))) as [items|e'];
      cbn [mbind outcome_bind mret outcome_ret].
    + split; [|done]. split; [intros _ _ _; apply Hr; by eexists|by eexists].
    + split; [|intros e [= <-]; by apply Hx].
      split; [by intros [? ?]|]. intros H.
      apply Hr in H as [? ?]; done.
Qed.

End PandasFailure.

(** X5.  A group that [generate_dml] of [sqlcodegen.py] loads by plain
    insert (its governing tag is neither TYPE1 nor TYPE2) and in which
    some row has a transformation that is set but is not text, or no
    transformation and a source column that is set but is not text: the
    Insert strategy hands the value as it is to [str.join], so the body
    of the loop dies of a TypeError at this group, for whatever has been
    collected before, and [generate_dml] does not come to its end: it
    returns nothing and writes no file. *)
Theorem insert_group_type_error (now : string) (self : Pandas.generator)
  (fs : filesystem) (output_file : string) (m : frame ColumnMapping)
  (target : string) (lead r : ColumnMapping) :
  let tm := sort_by target_column_order (Pandas.rows_of_target m target) in
  let tag := if has_column "scd_type" m then scd_type lead else CStr "TYPE1" in
  Pandas.mappings_df self = Some m ->
  head (rows tm) = Some lead ->
  tag <> CStr "TYPE1" -> tag <> CStr "TYPE2" ->
  r ∈ rows m -> target_table r = target ->
  (notna (transformation r) = true /\ is_str (transformation r) = false)
  \/ (transformation r = CNull /\ notna (source_column r) = true
      /\ is_str (source_column r) = false) ->
  (forall acc, exists msg,
      Pandas.dml_table m acc target = Raised (TypeError msg))
  /\ exists e, Pandas.generate_dml now self fs output_file = Raised e.
Proof.
  intros tm tag Hm Hlead H1 H2 Hr Ht Hcell.
  assert (lead ∈ rows m /\ target_table lead = target) as [Hin Hlt].
  { apply Pandas_elem_of_group, (elem_of_sort_by target_column_order).
    by apply head_elem_of. }
  assert (target ∈ Pandas.targets m) as Htarget
    by (apply Pandas_elem_of_targets; by exists lead).
  destruct (head_is_Some_nonempty _ (Pandas_group_nonempty m target Htarget))
    as [first Hfirst].
  assert (is_str (Pandas.insert_source_expr r) = false) as Hexpr.
  { unfold Pandas.insert_source_expr.
    destruct Hcell as [[Hn Hs]|(-> & Hn & Hs)]; [by rewrite Hn|].
    simpl. by rewrite Hn. }
  assert (rows tm <> []) as Hne by (intros Hnil; by rewrite Hnil in Hlead).
  assert (exists msg,
            Pandas.load_script tag tm (target_schema first +:+ "." +:+ target)
            = Raised (TypeError msg)) as [msg Hload].
  { destruct (Pandas_load_script_outcome tag tm
                (target_schema first +:+ "." +:+ target) Hne) as [Hiff Hexn].
    destruct (Pandas.load_script tag tm _) as [script|e] eqn:E.
    - exfalso. assert (Forall (fun r => is_str (Pandas.insert_source_expr r)
                                         = true) (rows tm)) as Hall
        by (apply Hiff; [by eexists|done..]).
      rewrite Forall_forall in Hall.
      assert (r ∈ rows tm) as Hrt
        by by apply elem_of_sort_by, Pandas_elem_of_group.
      apply Hall in Hrt. congruence.
    - destruct (Hexn e eq_refl) as [msg ->]. by exists msg. }
  assert (Pandas.dml_table m [] target = Raised (TypeError msg)) as Hblock.
  { rewrite (Pandas_dml_block _ _ _ _ Hfirst Hlead). fold tm tag.
    by rewrite Hload. }
  split.
  - intros acc. exists msg. by rewrite Pandas_dml_table_acc, Hblock.
  - unfold Pandas.generate_dml. rewrite Hm.
    destruct (for_each _ _ _) as [out|e] eqn:E; [|by exists e].
    exfalso.
    assert (exists b, Pandas.dml_table m [] target = Returned b) as [b Hb].
    { apply (proj1 (for_each_blocks_all _ _ (Pandas.targets m)
                      (Pandas.dml_banner now) (Pandas_dml_table_acc m)));
        [by exists out|done]. }
    congruence.
Qed.

Lemma insert_group_type_error_witness :
  (exists msg,
     Pandas.dml_table Sample.numeric_transformation [] "dim_customer"
     = Raised (TypeError msg))
  /\ exists e,
       Pandas.generate_dml Sample.timestamp
         (Pandas.Generator None None (Some Sample.numeric_transformation) [])
         ∅ "dml_scripts.sql" = Raised e.
Proof.
  destruct (insert_group_type_error Sample.timestamp
              (Pandas.Generator None None
                 (Some Sample.numeric_transformation) [])
              ∅ "dml_scripts.sql" Sample.numeric_transformation
              "dim_customer" (Sample.customer_id (CStr "APPEND"))
              (Sample.mapping "dwh" "dim_customer" "batch_no" 5 CNull
                 (CInt 7) CNull (CBool false) (CStr "APPEND")))
    as [Hbody Hrun].
  - reflexivity.
  - vm_compute. reflexivity.
  - discriminate.
  - discriminate.
  - right. left.
  - reflexivity.
  - left. split; reflexivity.
  - split; [apply Hbody|exact Hrun].
Defined.

(** On a sheet without scd_type column the first target of the loop of
    the Polars scripts, whichever it is, has no tag to select. *)
Lemma Polars_untagged_loop
  (distinct : list (string * string) -> list (string * string))
  (m : frame ColumnMapping) (banner : list string) :
  Spec.lists_distinct distinct ->
  rows m <> [] -> has_column "scd_type" m = false ->
  exists msg,
    for_each (Polars.dml_table m) (Polars.unique_targets_by distinct m) banner
    = Raised (ColumnNotFoundError msg).
Proof.
  intros Hd Hne Hcol.
  destruct (Polars.unique_targets_by distinct m) as [|t ts] eqn:E.
  - destruct (rows m) as [|r l] eqn:Hrows; [done|].
    assert ((target_schema r, target_table r) ∈
              Polars.unique_targets_by distinct m) as Hin.
    { apply Hd. rewrite Hrows. left. }
    rewrite E in Hin. by apply elem_of_nil in Hin.
  - cbn [for_each].
    assert (Polars.dml_table m banner t
            = Raised (ColumnNotFoundError "scd_type")) as ->.
    { unfold Polars.dml_table. cbv zeta. unfold Polars.governing_scd_type.
      change (has_column "scd_type" (sort_by _ _))
        with (has_column "scd_type" m).
      by rewrite Hcol. }
    by eexists.
Qed.

(** X6.  A Mappings sheet that has rows but no scd_type column.  The
    Polars scripts cannot select the tag of the first target, whatever
    the order of [unique()]: [generate_dml] returns False, with the one
    error of the failed selection recorded and no file written.
    [sqlcodegen.py] falls back on the tag TYPE1 for every target: when
    its [generate_dml] comes to its end, the file holds for each target
    of the loop the block of a Type 1 load, with the MERGE built from
    the rows of the target. *)
Theorem untagged_sheet_outcome
  (distinct : list (string * string) -> list (string * string))
  (now : string) (fs : filesystem) (output_file : string)
  (m : frame ColumnMapping) :
  Spec.lists_distinct distinct ->
  rows m <> [] -> has_column "scd_type" m = false ->
  (forall self : Polars.generator,
      Polars.mappings_df self = Some m ->
      exists msg,
        Polars.generate_dml_by distinct now self fs output_file =
          (false, Polars.add_error self ("Error generating DML: " +:+ msg), fs))
  /\ (forall (self : Pandas.generator)
             (res : bool * Pandas.generator * filesystem),
      Pandas.mappings_df self = Some m ->
      Pandas.generate_dml now self fs output_file = Returned res ->
      exists blocks,
        res = (true, self,
               <[output_file :=
                   Py.join nl (Pandas.dml_banner now ++ concat blocks)]> fs)
        /\ Forall2
             (fun target block =>
                exists first lead,
                  let tm := sort_by target_column_order
                              (Pandas.rows_of_target m target) in
                  let full := target_schema first +:+ "." +:+ target in
                  head (rows (Pandas.rows_of_target m target)) = Some first
                  /\ head (rows tm) = Some lead
                  /\ block =
                     [Pandas.load_comment full (CStr "TYPE1"); Pandas.load_rule;
                      Pandas.merge_sql full
                        (source_schema lead +:+ "." +:+ source_table lead)
                        (Pandas.type1_loop tm)])
             (Pandas.targets m) blocks).
Proof.
  intros Hd Hne Hcol. split.
  - intros self Hm. unfold Polars.generate_dml_by. rewrite Hm.
    destruct (Polars_untagged_loop distinct m (Polars.dml_banner now)
                Hd Hne Hcol) as [msg ->].
    by exists msg.
  - intros self res Hm Hres.
    destruct (Pandas_generate_dml_blocks _ _ _ _ _ _ Hm Hres)
      as (blocks & Hall & ->).
    exists blocks. split; [done|].
    eapply Forall2_impl; [exact Hall|]. intros target block Hb. cbv beta in Hb.
    destruct (Pandas_dml_block_rows _ _ _ _ Hb) as (first & lead & Hf & Hl).
    exists first, lead. cbv zeta. split; [done|]. split; [done|].
    rewrite (Pandas_dml_block _ _ _ _ Hf Hl), Hcol in Hb.
    unfold Pandas.load_script in Hb. simpl cell_eq_str in Hb. cbv iota in Hb.
    rewrite (Pandas_type1_returns _ _ _ Hl) in Hb.
    by injection Hb as <-.
Qed.

Lemma untagged_sheet_outcome_witness :
  (exists msg,
     Polars.generate_dml_by Sample.last_first Sample.timestamp
       (Polars.Generator None None (Some Sample.untagged_mappings) [])
       ∅ "dml_scripts.sql" =
     (false,
      Polars.Generator None None (Some Sample.untagged_mappings)
        ["Error generating DML: " +:+ msg], ∅))
  /\ exists first lead,
       Pandas.generate_dml Sample.timestamp
         (Pandas.Generator None None (Some Sample.untagged_mappings) [])
         ∅ "dml_scripts.sql" =
       Returned
         (true, Pandas.Generator None None (Some Sample.untagged_mappings) [],
          <["dml_scripts.sql" :=
              Py.join nl
                (Pandas.dml_banner Sample.timestamp ++
                 [Pandas.load_comment
                    (target_schema first +:+ "." +:+ "dim_customer")
                    (CStr "TYPE1");
                  Pandas.load_rule;
                  Pandas.merge_sql
                    (target_schema first +:+ "." +:+ "dim_customer")
                    (source_schema lead +:+ "." +:+ source_table lead)
                    (Pandas.type1_loop
                       (sort_by target_column_order
                          (Pandas.rows_of_target Sample.untagged_mappings
                             "dim_customer")))])]> ∅).
Proof.
  destruct (untagged_sheet_outcome Sample.last_first Sample.timestamp ∅
              "dml_scripts.sql" Sample.untagged_mappings)
    as [Hpl Hpd].
  - apply lists_distinct_last_first.
  - discriminate.
  - reflexivity.
  - split.
    + destruct (Hpl (Polars.Generator None None
                       (Some Sample.untagged_mappings) []) eq_refl)
        as [msg Hmsg].
      exists msg. exact Hmsg.
    + destruct (Pandas.generate_dml Sample.timestamp
                  (Pandas.Generator None None
                     (Some Sample.untagged_mappings) [])
                  ∅ "dml_scripts.sql") as [res|e] eqn:E;
        [|vm_compute in E; discriminate E].
      destruct (Hpd (Pandas.Generator None None
                       (Some Sample.untagged_mappings) []) res eq_refl E)
        as (blocks & -> & Hall).
      change (Pandas.targets Sample.untagged_mappings)
        with ["dim_customer"] in Hall.
      apply Forall2_cons_inv_l in Hall as (b & bs & Hb & Hall & ->).
      apply Forall2_nil_inv_l in Hall as ->.
      destruct Hb as (first & lead & _ & _ & ->).
      exists first, lead. reflexivity.
Defined.

(** ** The main block and the commands *)

Lemma Pandas_validate_sql_fs (parse_one : string -> parse_outcome)
  (self : Pandas.generator) (fs : filesystem) (sql_file : string) :
  (Pandas.validate_sql parse_one self fs sql_file).2 = fs.
Proof.
  unfold Pandas.validate_sql. by destruct (Pandas.read_file fs sql_file).
Qed.

Lemma Polars_validate_sql_file_fs (parse_one : string -> parse_outcome)
  (fs : filesystem) (sql_file : string) :
  (Polars.validate_sql_file parse_one fs sql_file).2 = fs.
Proof. unfold Polars.validate_sql_file. by destruct (fs !! sql_file). Qed.

Lemma string_app_inv_head (a b c : string) : a +:+ b = a +:+ c -> b = c.
Proof.
  induction a as [|x a IH]; [done|].
  change (String x a +:+ b) with (String x (a +:+ b)).
  change (String x a +:+ c) with (String x (a +:+ c)).
  intros [= H]. by apply IH.
Qed.

(** X7.  The main block of [sqlcodegen.py], when it comes to an end
    rather than dying of an exception: it exits with status 1 exactly
    when one of the three sheets could not be read, and then has
    written no script and holds the one loading error; otherwise it
    ends with status 0 and both scripts written, whatever the validator
    found.  The two exits after [generate_ddl] and [generate_dml] are
    never taken, since after a successful load these methods return
    True or raise; and running with another parser changes neither the
    status, nor the files, nor the exception. *)
Theorem main_exit_status
  (read_tables : string -> outcome (frame TableDefinition))
  (read_columns : string -> outcome (frame ColumnDefinition))
  (read_mappings : string -> outcome (frame ColumnMapping))
  (parse_one : string -> parse_outcome)
  (create_sample_excel_files : outcome unit)
  (now_ddl now_dml : string) (fs : filesystem) :
  let run parse :=
    Pandas.main read_tables read_columns read_mappings parse
      create_sample_excel_files now_ddl now_dml fs in
  let loaded :=
    exists t c m,
      read_tables "table_definitions.xlsx" = Returned t
      /\ read_columns "table_definitions.xlsx" = Returned c
      /\ read_mappings "source_target_mappings.xlsx" = Returned m in
  (forall status gen fs',
      run parse_one = Returned (status, gen, fs') ->
      (status = 1 /\ ~ loaded /\ fs' = fs
       /\ exists e, Pandas.errors gen = [Pandas.load_error e])
      \/ (status = 0 /\ loaded
          /\ exists ddl dml,
               fs' = <["dml_scripts.sql" := dml]>
                       (<["ddl_scripts.sql" := ddl]> fs)))
  /\ (forall parse_other,
         match run parse_one, run parse_other with
         | Returned r, Returned r' => r.1.1 = r'.1.1 /\ r.2 = r'.2
         | Raised e, Raised e' => e = e'
         | _, _ => False
         end).
Proof.
  cbv zeta. unfold Pandas.main, Pandas.load_definitions, Pandas.new_generator.
  destruct create_sample_excel_files as [[]|e0];
    cbn [mbind outcome_bind]; [|by split].
  destruct (read_tables "table_definitions.xlsx") as [t|e1].
  2:{ cbn [fst snd negb]. split; [|done]. intros status gen fs' [= <- <- <-].
      left. split; [done|]. split; [by intros (? & ? & ? & ? & _)|].
      split; [done|]. by exists e1. }
  destruct (read_columns "table_definitions.xlsx") as [c|e2].
  2:{ cbn [fst snd negb]. split; [|done]. intros status gen fs' [= <- <- <-].
      left. split; [done|]. split; [by intros (? & ? & ? & _ & ? & _)|].
      split; [done|]. by exists e2. }
  destruct (read_mappings "source_target_mappings.xlsx") as [m|e3].
  2:{ cbn [fst snd negb]. split; [|done]. intros status gen fs' [= <- <- <-].
      left. split; [done|]. split; [by intros (? & ? & ? & _ & _ & ?)|].
      split; [done|]. by exists e3. }
  cbn [fst snd negb Pandas.tables_df Pandas.columns_df Pandas.mappings_df
       Pandas.errors].
  unfold Pandas.generate_ddl.
  cbn [Pandas.tables_df Pandas.columns_df Pandas.errors].
  destruct (for_each _ (rows t) _) as [st|e4];
    cbn [mbind outcome_bind mret outcome_ret fst snd negb]; [|by split].
  unfold Pandas.generate_dml, Pandas.set_errors.
  cbn [Pandas.mappings_df].
  destruct (for_each _ (Pandas.targets m) _) as [scripts|e5];
    cbn [mbind outcome_bind mret outcome_ret fst snd negb]; [|by split].
  split.
  - intros status gen fs' [= <- <- <-]. right. split; [done|].
    split; [by exists t, c, m|]. rewrite !Pandas_validate_sql_fs.
    by eexists _, _.
  - intros parse_other. cbn [fst snd]. by rewrite !Pandas_validate_sql_fs.
Qed.

(** Validation leaves no trace in what [generate] gives back. *)
Lemma Polars_generate_unchecked
  (read_tables : string -> outcome (frame TableDefinition))
  (read_columns : string -> outcome (frame ColumnDefinition))
  (read_mappings : string -> outcome (frame ColumnMapping))
  (parse parse' : string -> string -> parse_outcome)
  (distinct : list (string * string) -> list (string * string))
  (now_ddl now_dml : string) (fs : filesystem)
  (table_def mapping output_dir : string) (ddl dml check : bool) :
  Polars.generate read_tables read_columns read_mappings parse distinct
    now_ddl now_dml fs table_def mapping output_dir ddl dml check =
  Polars.generate read_tables read_columns read_mappings parse' distinct
    now_ddl now_dml fs table_def mapping output_dir ddl dml false.
Proof.
  unfold Polars.generate.
  destruct (Polars.load_definitions _ _ _ _ _ _) as [[] self];
    cbn [fst snd negb]; [|done].
  unfold Polars.generate_ddl_step, Polars.generate_dml_step,
    Polars.validate_file. cbv zeta.
  destruct ddl, dml, check; try reflexivity;
    rewrite ?Polars_validate_sql_file_fs;
    repeat (destruct (negb _); cbn [fst snd];
            rewrite ?Polars_validate_sql_file_fs); reflexivity.
Qed.

(** [generate] without validation, after the three sheets have been
    read. *)
Lemma Polars_generate_loaded
  (read_tables : string -> outcome (frame TableDefinition))
  (read_columns : string -> outcome (frame ColumnDefinition))
  (read_mappings : string -> outcome (frame ColumnMapping))
  (parse : string -> string -> parse_outcome)
  (distinct : list (string * string) -> list (string * string))
  (now_ddl now_dml : string) (fs : filesystem)
  (table_def mapping output_dir : string) (ddl dml : bool)
  (t : frame TableDefinition) (c : frame ColumnDefinition)
  (m : frame ColumnMapping) :
  read_tables table_def = Returned t ->
  read_columns table_def = Returned c ->
  read_mappings mapping = Returned m ->
  let self := Polars.Generator (Some t) (Some c) (Some m) [] in
  let after_ddl :=
    if ddl
    then (Polars.generate_ddl now_ddl self fs
            (Polars.path_join output_dir "ddl_scripts.sql")).2
    else fs in
  let done :=
    Polars.generate_dml_by distinct now_dml self after_ddl
      (Polars.path_join output_dir "dml_scripts.sql") in
  Polars.generate read_tables read_columns read_mappings parse distinct
    now_ddl now_dml fs table_def mapping output_dir ddl dml false =
  if dml then (if done.1.1 then (0, done.2) else (1, after_ddl))
  else (0, after_ddl).
Proof.
  intros Ht Hc Hm. cbv zeta.
  unfold Polars.generate, Polars.load_definitions.
  rewrite Ht, Hc, Hm.
  cbn [fst snd negb Polars.tables_df Polars.columns_df Polars.mappings_df
       Polars.errors].
  unfold Polars.generate_ddl_step, Polars.generate_dml_step. cbv zeta.
  destruct ddl; cbn [fst snd negb Polars.generate_ddl Polars.tables_df
                     Polars.columns_df];
    (destruct dml; [|reflexivity]);
    unfold Polars.generate_dml_by; cbn [Polars.mappings_df];
    destruct (for_each _ _ _); reflexivity.
Qed.

(** X8.  The command [generate] of the Polars scripts exits with code 0
    or 1.  When a sheet cannot be read it exits with 1 and writes
    nothing.  When the DML is asked for and the Mappings sheet has rows
    but no scd_type column it exits with 1, whatever the order of
    [unique()], and leaves the files as the DDL step left them: a DDL
    script written before the failure stays.  When it exits with 0 the
    scripts asked for are there and no other file has changed.  Neither
    the option [--no-validate] nor the parser has any influence on the
    exit code or on the files. *)
Theorem generate_command_exit_code
  (read_tables : string -> outcome (frame TableDefinition))
  (read_columns : string -> outcome (frame ColumnDefinition))
  (read_mappings : string -> outcome (frame ColumnMapping))
  (parse_dialect : string -> string -> parse_outcome)
  (distinct : list (string * string) -> list (string * string))
  (now_ddl now_dml : string) (fs : filesystem)
  (table_def mapping output_dir : string) (ddl dml validate : bool) :
  Spec.lists_distinct distinct ->
  let run parse check :=
    Polars.generate read_tables read_columns read_mappings parse distinct
      now_ddl now_dml fs table_def mapping output_dir ddl dml check in
  let res := run parse_dialect validate in
  let ddl_file := Polars.path_join output_dir "ddl_scripts.sql" in
  let dml_file := Polars.path_join output_dir "dml_scripts.sql" in
  let unreadable :=
    (exists e, read_tables table_def = Raised e)
    \/ (exists e, read_columns table_def = Raised e)
    \/ (exists e, read_mappings mapping = Raised e) in
  (res.1 = 0 \/ res.1 = 1)
  /\ (unreadable -> res = (1, fs))
  /\ (forall t c m,
         read_tables table_def = Returned t ->
         read_columns table_def = Returned c ->
         read_mappings mapping = Returned m ->
         dml = true -> rows m <> [] -> has_column "scd_type" m = false ->
         res = (1,
                if ddl
                then (Polars.generate_ddl now_ddl
                        (Polars.Generator (Some t) (Some c) (Some m) [])
                        fs ddl_file).2
                else fs))
  /\ (res.1 = 0 ->
      (ddl = true -> is_Some (res.2 !! ddl_file))
      /\ (dml = true -> is_Some (res.2 !! dml_file))
      /\ forall path, path <> ddl_file -> path <> dml_file ->
                      res.2 !! path = fs !! path)
  /\ (forall parse_other check, run parse_other check = res).
Proof.
  cbv zeta. intros Hd.
  assert (Polars.path_join output_dir "ddl_scripts.sql" <>
          Polars.path_join output_dir "dml_scripts.sql") as Hpaths.
  { unfold Polars.path_join. intros H. apply string_app_inv_head in H.
    discriminate H. }
  split; [|split; [|split; [|split]]]; cycle 4.
  { intros parse_other check.
    rewrite (Polars_generate_unchecked _ _ _ parse_other parse_dialect).
    symmetry. apply Polars_generate_unchecked. }
  all: rewrite (Polars_generate_unchecked _ _ _ parse_dialect parse_dialect).
  all: destruct (read_tables table_def) as [t|e1] eqn:Ht;
    [|unfold Polars.generate, Polars.load_definitions; rewrite Ht;
      cbn [fst snd negb]; try done; try (by right)].
  all: destruct (read_columns table_def) as [c|e2] eqn:Hc;
    [|unfold Polars.generate, Polars.load_definitions; rewrite Ht, Hc;
      cbn [fst snd negb]; try done; try (by right)].
  all: destruct (read_mappings mapping) as [m|e3] eqn:Hm;
    [|unfold Polars.generate, Polars.load_definitions; rewrite Ht, Hc, Hm;
      cbn [fst snd negb]; try done; try (by right)].
  all: rewrite (Polars_generate_loaded _ _ _ parse_dialect distinct now_ddl
                  now_dml fs table_def mapping output_dir ddl dml t c m
                  Ht Hc Hm).
  - destruct dml; [|by left]. destruct (fst (fst _)); by (left + right).
  - by intros [[? ?]|[[? ?]|[? ?]]].
  - intros t' c' m' [= <-] [= <-] [= <-] -> Hne Hcol.
    unfold Polars.generate_dml_by. cbn [Polars.mappings_df].
    destruct (Polars_untagged_loop distinct m (Polars.dml_banner now_dml)
                Hd Hne Hcol) as [msg ->].
    reflexivity.
  - unfold Polars.generate_ddl, Polars.generate_dml_by.
    cbn [Polars.tables_df Polars.columns_df Polars.mappings_df].
    destruct ddl, dml; cbn [fst snd];
      try destruct (for_each _ _ _); cbn [fst snd]; try done; intros _;
      (split; [try done; intros _|split; [try done; intros _|]]).
    all: try (intros path H1 H2).
    all: rewrite ?lookup_insert_eq, ?lookup_insert_ne by done.
    all: rewrite ?lookup_insert_eq, ?lookup_insert_ne by done.
    all: try done.
Qed.

Lemma generate_command_exit_code_witness :
  Sample.untagged_run.1 = 1
  /\ is_Some (Sample.untagged_run.2 !! "output/ddl_scripts.sql")
  /\ Sample.untagged_run.2 !! "output/dml_scripts.sql" = None.
Proof.
  destruct (generate_command_exit_code
              (fun _ => Returned (Frame Sample.table_columns
                                    [Sample.dim_customer (CStr "COMPOUND")]))
              (fun _ => Returned Sample.customer_columns)
              (fun _ => Returned Sample.untagged_mappings)
              (fun _ _ => Parsed) Sample.last_first
              Sample.timestamp Sample.timestamp ∅
              "table_definitions.xlsx" "source_target_mappings.xlsx" "output"
              true true true lists_distinct_last_first)
    as (_ & _ & Hfail & _ & _).
  specialize (Hfail _ _ _ eq_refl eq_refl eq_refl eq_refl).
  unfold Sample.untagged_run. rewrite Hfail; [|discriminate|reflexivity].
  split; [reflexivity|]. cbn [fst snd Polars.generate_ddl Polars.tables_df
                               Polars.columns_df].
  split.
  - change (Polars.path_join "output" "ddl_scripts.sql")
      with "output/ddl_scripts.sql".
    rewrite lookup_insert_eq. by eexists.
  - change (Polars.path_join "output" "ddl_scripts.sql")
      with "output/ddl_scripts.sql".
    by rewrite lookup_insert_ne.
Defined.
(** X9.  The command [validate] of the Polars scripts exits with code 0
    exactly when the file exists and none of its statements fails to
    parse as Redshift SQL, and with code 1 otherwise: the parser of the
    dialect named by [--dialect] is never asked. *)
Theorem validate_command_exit_code
  (parse_dialect : string -> string -> parse_outcome)
  (fs : filesystem) (sql_file dialect : string) :
  let code := Polars.validate parse_dialect fs sql_file dialect in
  (code = 0 \/ code = 1)
  /\ (code = 0 <->
      exists content,
        fs !! sql_file = Some content
        /\ Spec.parse_failures (parse_dialect "redshift")
             (Polars.statements content) = []).
Proof.
  cbv zeta. unfold Polars.validate, Polars.validate_file,
    Polars.validate_sql_file.
  destruct (fs !! sql_file) as [content|]; cbn [fst].
  2:{ split; [by right|]. split; [done|by intros (? & ? & _)]. }
  rewrite Polars_validate_content_spec. cbn [Polars.error_count].
  destruct (Spec.parse_failures _ _) as [|f l] eqn:E; cbn [length Nat.eqb].
  - split; [by left|]. split; [by eexists|done].
  - split; [by right|]. split; [done|].
    intros (? & [= <-] & ?). congruence.
Qed.

(** ** What the validator sees of a generated DDL script *)

Lemma free_upper (s : string) :
  Spec.free_of ";" (Py.upper s) = Spec.free_of ";" s.
Proof.
  induction s as [|c s IH]; [done|].
  change (Py.upper (String c s)) with (String (Py.upper_char c) (Py.upper s)).
  cbn [Spec.free_of]. rewrite IH. f_equal. f_equal.
  by destruct c as [[] [] [] [] [] [] [] []].
Qed.

Lemma free_double_quotes (s : string) :
  Spec.free_of ";" (Py.double_quotes s) = Spec.free_of ";" s.
Proof.
  induction s as [|c s IH]; [done|]. cbn [Py.double_quotes].
  destruct (Ascii.eqb c "'") eqn:E; cbn [Spec.free_of]; rewrite IH; [|done].
  apply Ascii.eqb_eq in E as ->. done.
Qed.

Lemma startswith_app (p s : string) :
  Py.startswith p s = true -> exists r, s = p +:+ r.
Proof.
  unfold Py.startswith. revert s. induction p as [|a p IH]; intros s.
  - by exists s.
  - destruct s as [|b s]; [done|]. simpl.
    destruct (ascii_dec a b) as [->|]; [|done].
    intros (r & ->)%IH. by exists r.
Qed.

Lemma without_last_snoc (x : string) (c : ascii) :
  Spec.without_last (x +:+ String c EmptyString) = x.
Proof.
  unfold Spec.without_last. induction x as [|a x IH]; [done|].
  change (String a x +:+ String c EmptyString)
    with (String a (x +:+ String c EmptyString)).
  cbn [String.length]. rewrite Nat.sub_1_r. cbn [Nat.pred].
  destruct (String.length (x +:+ String c EmptyString)) as [|n] eqn:E.
  { destruct x; discriminate E. }
  cbn [String.substring]. f_equal.
  rewrite Nat.sub_1_r in IH. by cbn [Nat.pred] in IH.
Qed.

(** A text that opens with CREATE TABLE, a name and a parenthesis keeps
    these words when it is stripped. *)
Lemma create_prefix_kept (name rest : string) :
  Py.startswith "CREATE TABLE"
    (Py.strip ("CREATE TABLE " +:+ name +:+ " (" +:+ rest)) = true.
Proof.
  unfold Py.strip.
  replace ("CREATE TABLE " +:+ name +:+ " (" +:+ rest)
    with (("CREATE TABLE " +:+ name +:+ " ") +:+ String "(" rest)
    by (by rewrite !string_app_assoc).
  rewrite rstrip_app by (by rewrite rstrip_String_nonspace).
  rewrite rstrip_String_nonspace by done.
  rewrite !string_app_assoc. cbn [String.append]. reflexivity.
Qed.

Lemma statement_kept (p s : string) :
  Py.startswith p s = true -> Py.startswith "--" p = false ->
  Py.startswith p "--" = false ->
  s <> EmptyString /\ Py.startswith "--" s = false.
Proof.
  intros Hp H1 H2. split.
  - intros ->. destruct p; [done|discriminate Hp].
  - destruct (Py.startswith "--" s) eqn:E; [|done].
    destruct (startswith_clash _ _ _ H2 H1 Hp E).
Qed.

Lemma startswith_length (p s : string) :
  Py.startswith p s = true -> Py.len p <= Py.len s.
Proof.
  intros (r & ->)%startswith_app. unfold Py.len.
  induction p as [|a p IH]; simpl; lia.
Qed.

Section PandasDDLText.

Import Pandas.

Local Abbreviation lines_after :=
  (fold_right (fun x acc : string => nl +:+ x +:+ acc)).

Lemma clean_table_facts (t : TableDefinition) :
  Spec.clean_table t = true ->
  Spec.no_semicolon (tbl_schema_name t) /\ Spec.no_semicolon (tbl_table_name t)
  /\ Spec.no_semicolon (str (description t))
  /\ Spec.no_semicolon (str (primary_key t))
  /\ Spec.no_semicolon (str (dist_style t))
  /\ Spec.no_semicolon (str (dist_key t))
  /\ Spec.no_semicolon (str (sort_keys t))
  /\ Spec.no_semicolon (str (sort_type t)).
Proof.
  unfold Spec.clean_table, Spec.no_semicolon. cbn [forallb].
  rewrite !andb_true_iff. tauto.
Qed.

Lemma clean_col_def (c : ColumnDefinition) :
  Spec.clean_column c = true -> Spec.no_semicolon (col_def c).
Proof.
  unfold Spec.clean_column, Spec.no_semicolon. cbn [forallb].
  rewrite !andb_true_iff. intros (Hn & Ht & Hd & He & _).
  unfold col_def. cbv zeta.
  destruct (notna (not_null c) && truthy (not_null c)),
    (notna (default_value c)), (notna (encode c)); by free.
Qed.

Lemma cell_upper_free (c : cell) (s : string) :
  cell_upper c = Returned s -> Spec.no_semicolon (str c) -> Spec.no_semicolon s.
Proof.
  destruct c; try discriminate. intros [= <-]. unfold Spec.no_semicolon.
  by rewrite free_upper.
Qed.

Lemma table_props_free (tables : frame TableDefinition)
  (table : TableDefinition) (props : list string) :
  Spec.clean_table table = true ->
  table_props tables table = Returned props ->
  Forall Spec.no_semicolon props.
Proof.
  intros (_ & _ & _ & _ & Hds & Hdk & Hsk & Hst)%clean_table_facts.
  unfold table_props.
  intros (dist & Hdist & (sort & Hsort & [= <-])%bind_Returned)%bind_Returned.
  apply Forall_app. split.
  - unfold dist_props in Hdist.
    destruct (notna (dist_style table)); [|by injection Hdist as <-].
    apply bind_Returned in Hdist as (style & Hstyle & Hdist).
    pose proof (cell_upper_free _ _ Hstyle Hds) as Hs.
    rewrite Hstyle in Hdist. cbn [mbind outcome_bind] in Hdist.
    destruct (String.eqb style "KEY" && notna (dist_key table));
      injection Hdist as <-; constructor; try done; by free.
  - unfold sort_props in Hsort.
    destruct (notna (sort_keys table)); [|by injection Hsort as <-].
    apply bind_Returned in Hsort as (kind & Hkind & [= <-]).
    assert (Spec.no_semicolon kind) as Hk.
    { apply (cell_upper_free _ _ Hkind). unfold get_sort_type.
      by destruct (has_column "sort_type" tables). }
    constructor; [|done]. by free.
Qed.

(** The CREATE TABLE statement ends in a line that holds the semicolon
    alone; what stands before it opens with CREATE TABLE. *)
Lemma create_table_text (tables : frame TableDefinition)
  (table : TableDefinition) (cols : list ColumnDefinition) (stmt : string) :
  create_table tables table cols = Returned stmt ->
  exists body,
    stmt = (body +:+ nl) +:+ ";"
    /\ Py.startswith "CREATE TABLE" (Py.strip body) = true
    /\ (Spec.clean_table table = true ->
        Forall (fun c => Spec.clean_column c = true) cols ->
        Spec.no_semicolon body).
Proof.
  unfold create_table. cbv zeta.
  intros (props & Hprops & [= <-])%bind_Returned.
  set (head_lines :=
         if notna (primary_key table)
         then ["CREATE TABLE " +:+ (tbl_schema_name table +:+ "."
                                    +:+ tbl_table_name table) +:+ " (";
               Py.join ("," +:+ nl) (map col_def cols);
               "," +:+ nl +:+ "    PRIMARY KEY (" +:+ str (primary_key table)
                 +:+ ")"]
         else ["CREATE TABLE " +:+ (tbl_schema_name table +:+ "."
                                    +:+ tbl_table_name table) +:+ " (";
               Py.join ("," +:+ nl) (map col_def cols)]).
  set (lines :=
         match props with
         | [] => head_lines ++ [")"]
         | _ => (head_lines ++ [")"]) ++ [nl +:+ Py.join nl props]
         end).
  exists (Py.join nl lines).
  assert (exists l2 rest,
             lines = ("CREATE TABLE " +:+ (tbl_schema_name table +:+ "."
                                           +:+ tbl_table_name table) +:+ " (")
                       :: l2 :: rest) as (l2 & rest & Hlines).
  { unfold lines, head_lines.
    destruct props, (notna (primary_key table)); by eexists _, _. }
  split; [|split].
  - rewrite string_app_assoc, <- join_snoc by (by rewrite Hlines).
    unfold lines, head_lines.
    destruct props, (notna (primary_key table)); reflexivity.
  - rewrite Hlines. clear Hlines.
    generalize (tbl_schema_name table +:+ "." +:+ tbl_table_name table).
    intros full.
    change (Py.join nl (?a :: l2 :: rest))
      with (a +:+ nl +:+ Py.join nl (l2 :: rest)).
    rewrite !string_app_assoc. apply create_prefix_kept.
  - intros Ht Hcols. pose proof (table_props_free _ _ _ Ht Hprops) as Hp.
    apply clean_table_facts in Ht as (Hs & Hn & _ & Hpk & _).
    assert (Forall Spec.no_semicolon (map col_def cols)) as Hdefs.
    { apply Forall_map. eapply Forall_impl; [exact Hcols|].
      intros c. apply clean_col_def. }
    assert (Forall Spec.no_semicolon head_lines) as Hhead.
    { unfold head_lines. destruct (notna (primary_key table)); by free. }
    unfold lines. destruct props as [|x props].
    + apply free_of_join; [done|]. apply Forall_app. split; [done|by free].
    + apply free_of_join; [done|]. rewrite !Forall_app.
      split; [split; [done|by free]|]. constructor; [|done]. by free.
Qed.

Lemma ddl_text_0 (p tc d R : string) :
  p +:+ lines_after R [tc; d +:+ ";"] =
  (p +:+ nl +:+ tc +:+ nl +:+ d) +:+ ";" +:+ (EmptyString +:+ R).
Proof. simpl. by rewrite !string_app_assoc. Qed.

Lemma ddl_text_1 (p tc d body R : string) :
  p +:+ lines_after R [tc; d +:+ ";"; (body +:+ nl) +:+ ";"] =
  (p +:+ nl +:+ tc +:+ nl +:+ d) +:+ ";" +:+ (nl +:+ body +:+ nl)
  +:+ ";" +:+ (EmptyString +:+ R).
Proof. simpl. by rewrite !string_app_assoc. Qed.

Lemma ddl_text_2 (p tc d body c R : string) :
  p +:+ lines_after R [tc; d +:+ ";"; (body +:+ nl) +:+ ";"; c +:+ ";"] =
  (p +:+ nl +:+ tc +:+ nl +:+ d) +:+ ";" +:+ (nl +:+ body +:+ nl)
  +:+ ";" +:+ (nl +:+ c) +:+ ";" +:+ (EmptyString +:+ R).
Proof. simpl. by rewrite !string_app_assoc. Qed.

Lemma drop_statement_text (full : string) :
  drop_statement full = ("DROP TABLE IF EXISTS " +:+ full +:+ " CASCADE") +:+ ";".
Proof. unfold drop_statement. by rewrite !string_app_assoc. Qed.

Lemma ddl_head_led (p full rest : string) :
  Spec.all_space p = true \/ Spec.comment_led p ->
  Spec.comment_led (p +:+ nl +:+ table_comment full +:+ rest).
Proof.
  intros [Hp|Hp]; [|by apply comment_led_app].
  apply comment_led_space_app; [done|].
  exists (nl +:+ nl), (" Table: " +:+ full +:+ rest).
  split; [reflexivity|]. unfold table_comment.
  rewrite ?string_app_assoc. cbn [String.append]. reflexivity.
Qed.

Lemma ddl_head_free (p full : string) :
  Spec.no_semicolon p -> Spec.no_semicolon full ->
  Spec.no_semicolon
    (p +:+ nl +:+ table_comment full +:+ nl
       +:+ "DROP TABLE IF EXISTS " +:+ full +:+ " CASCADE").
Proof. intros Hp Hf. unfold table_comment. by free. Qed.

End PandasDDLText.

Section PandasDDLFile.

Import Pandas.

Local Abbreviation lines_after :=
  (fold_right (fun x acc : string => nl +:+ x +:+ acc)).

Lemma comment_statement_text (full text : string) :
  Py.strip (nl +:+ "COMMENT ON TABLE " +:+ full +:+ " IS '"
              +:+ Py.double_quotes text +:+ "'") =
  "COMMENT ON TABLE " +:+ full +:+ " IS '" +:+ Py.double_quotes text +:+ "'".
Proof.
  rewrite strip_lead_space by reflexivity.
  cbn [String.append]. apply strip_tight; [reflexivity|]. by tight.
Qed.

(** What the validator makes of the lines of one table, standing behind
    a text [p] that holds no statement of its own. *)
Lemma ddl_block_statements (columns : frame ColumnDefinition)
  (tables : frame TableDefinition) (table : TableDefinition)
  (b : list string * list string) (p : string) :
  Spec.clean_table table = true ->
  (forall c, c ∈ rows columns -> Spec.clean_column c = true) ->
  ddl_table columns tables ([], []) table = Returned b ->
  Spec.no_semicolon p -> Spec.all_space p = true \/ Spec.comment_led p ->
  forall R,
    statements (p +:+ lines_after R b.1) =
    Spec.ddl_statements columns tables table ++ statements R.
Proof.
  intros Ht Hcols Hb Hp Hpd R.
  pose proof (clean_table_facts _ Ht) as (Hs & Hn & Hdesc & _).
  assert (Spec.no_semicolon (tbl_schema_name table +:+ "."
                             +:+ tbl_table_name table)) as Hfull by by free.
  unfold ddl_table in Hb. cbv zeta in Hb. unfold Spec.ddl_statements.
  cbv zeta.
  assert (Forall (fun c => Spec.clean_column c = true)
            (rows (columns_of columns (tbl_schema_name table)
                     (tbl_table_name table)))) as Hsel.
  { apply Forall_forall. intros c Hc. apply Hcols.
    unfold columns_of in Hc. by apply elem_of_sort_by, elem_of_select in Hc as [? _]. }
  destruct (rows (columns_of columns (tbl_schema_name table)
                    (tbl_table_name table))) as [|c0 cs] eqn:E.
  - injection Hb as <-. cbn [fst app]. rewrite drop_statement_text, ddl_text_0.
    rewrite statements_dropped_head;
      [done|by apply ddl_head_free|right; by apply ddl_head_led].
  - apply bind_Returned in Hb as (stmt & Hstmt & Hb). rewrite Hstmt.
    destruct (create_table_text _ _ _ _ Hstmt) as (body & -> & Hkept & Hfree).
    pose proof (Hfree Ht Hsel) as Hbody.
    destruct (statement_kept _ _ Hkept eq_refl eq_refl) as [Hne Hnc].
    rewrite without_last_snoc.
    assert (Py.strip (nl +:+ body +:+ nl) = Py.strip (body +:+ nl)) as Hstrip.
    { by apply strip_lead_space. }
    assert (Py.strip (body +:+ nl) = Py.strip body) as Hstrip'.
    { apply (strip_app_space EmptyString body nl); reflexivity. }
    destruct (description table) as [|text| |] eqn:Hd; cbn [notna] in Hb.
    + injection Hb as <-. cbn [fst app].
      rewrite drop_statement_text, ddl_text_1.
      rewrite statements_dropped_head;
        [|by apply ddl_head_free|right; by apply ddl_head_led].
      rewrite statements_kept_head; rewrite ?Hstrip, ?Hstrip'; try done.
      by free.
    + cbn [cell_double_quotes mbind outcome_bind] in Hb.
      injection Hb as <-. cbn [fst app].
      replace ("COMMENT ON TABLE "
                 +:+ (tbl_schema_name table +:+ "." +:+ tbl_table_name table)
                 +:+ " IS '" +:+ Py.double_quotes text +:+ "';")
        with (("COMMENT ON TABLE " +:+ Spec.full_name table +:+ " IS '"
                 +:+ Py.double_quotes text +:+ "'") +:+ ";")
        by (unfold Spec.full_name; by rewrite !string_app_assoc).
      rewrite drop_statement_text, ddl_text_2.
      rewrite statements_dropped_head;
        [|by apply ddl_head_free|right; by apply ddl_head_led].
      rewrite statements_kept_head; rewrite ?Hstrip, ?Hstrip'; try done;
        [|by free].
      rewrite statements_kept_head; rewrite ?comment_statement_text; try done.
      assert (Spec.no_semicolon (Py.double_quotes text)) as Hq.
      { unfold Spec.no_semicolon. by rewrite free_double_quotes. }
      unfold Spec.full_name. by free.
    + by cbn in Hb.
    + by cbn in Hb.
Qed.

Lemma ddl_blocks_statements (columns : frame ColumnDefinition)
  (tables : frame TableDefinition) (ts : list TableDefinition)
  (blocks : list (list string * list string)) (p : string) :
  Forall (fun t => Spec.clean_table t = true) ts ->
  (forall c, c ∈ rows columns -> Spec.clean_column c = true) ->
  Forall2 (fun t b => ddl_table columns tables ([], []) t = Returned b)
    ts blocks ->
  Spec.no_semicolon p -> Spec.all_space p = true \/ Spec.comment_led p ->
  statements (p +:+ lines_after EmptyString (concat (map fst blocks))) =
  flat_map (Spec.ddl_statements columns tables) ts.
Proof.
  intros Hts Hcols Hall. revert p Hts.
  induction Hall as [|t b ts blocks Hb Hall IH]; intros p Hts Hp Hd.
  - simpl. rewrite string_app_nil_r. by apply statements_dropped.
  - apply Forall_cons in Hts as [Ht Hts].
    simpl concat. rewrite fold_right_app.
    rewrite (ddl_block_statements _ _ _ _ _ Ht Hcols Hb Hp Hd).
    simpl flat_map. f_equal.
    apply (IH EmptyString Hts); [reflexivity|by left].
Qed.

Lemma ddl_statements_shape (columns : frame ColumnDefinition)
  (tables : frame TableDefinition) (table : TableDefinition) :
  Forall (fun s => (Py.startswith "CREATE TABLE" s = true
                    \/ Py.startswith "COMMENT ON TABLE" s = true)
                   /\ (10 <=? Py.len s)%nat = true)
    (Spec.ddl_statements columns tables table).
Proof.
  unfold Spec.ddl_statements. cbv zeta.
  destruct (rows (columns_of _ _ _)) as [|c0 cs]; [constructor|].
  destruct (create_table _ _ _) as [stmt|e] eqn:Hstmt; [|constructor].
  destruct (create_table_text _ _ _ _ Hstmt) as (body & -> & Hkept & _).
  rewrite without_last_snoc.
  replace (Py.strip (body +:+ nl)) with (Py.strip body)
    by (symmetry; apply (strip_app_space EmptyString body nl); reflexivity).
  constructor.
  - split; [by left|]. apply Nat.leb_le.
    apply startswith_length in Hkept. simpl in Hkept. lia.
  - destruct (description table); constructor; [|constructor].
    split; [by right|]. reflexivity.
Qed.

End PandasDDLFile.

(** X10.  [sqlcodegen.py] checking its own DDL script.  When no text of
    the table and column records and of the time stamp holds a
    semicolon, the validator finds in the file that [generate_ddl]
    wrote, for each table that has columns, the CREATE TABLE statement
    and, if the table has a description, the COMMENT statement, and for
    a table without columns nothing.  Every DROP TABLE statement shares
    its fragment with the comment line of the table that precedes it,
    and is therefore skipped as a comment: the parser never sees one. *)
Theorem generated_ddl_validation (parse_one : string -> parse_outcome)
  (errs : list string) (now : string) (self : Pandas.generator)
  (fs : filesystem) (output_file : string)
  (tables : frame TableDefinition) (columns : frame ColumnDefinition)
  (res : bool * Pandas.generator * filesystem) :
  Pandas.tables_df self = Some tables ->
  Pandas.columns_df self = Some columns ->
  Spec.no_semicolon now ->
  (forall t, t ∈ rows tables -> Spec.clean_table t = true) ->
  (forall c, c ∈ rows columns -> Spec.clean_column c = true) ->
  Pandas.generate_ddl now self fs output_file = Returned res ->
  exists content,
    res.2 !! output_file = Some content
    /\ Pandas.statements content =
         flat_map (Spec.ddl_statements columns tables) (rows tables)
    /\ Pandas.parser_calls (Pandas.validate_content parse_one errs content) =
         Pandas.statements content
    /\ Forall (fun s => Py.startswith "CREATE TABLE" s = true
                        \/ Py.startswith "COMMENT ON TABLE" s = true)
         (Pandas.statements content).
Proof.
  intros Ht Hc Hnow Htables Hcols Hrun. unfold Pandas.generate_ddl in Hrun.
  rewrite Ht, Hc in Hrun.
  apply bind_Returned in Hrun as (out & Hloop & [= <-]).
  destruct (for_each_blocks2 _ _ _ _ (Pandas_ddl_table_acc columns tables) Hloop)
    as (blocks & Hall & ->).
  cbn [fst snd].
  exists (Py.join nl (Pandas.ddl_banner now ++ concat (map fst blocks))).
  split; [apply lookup_insert_eq|].
  assert (Pandas.statements
            (Py.join nl (Pandas.ddl_banner now ++ concat (map fst blocks))) =
          flat_map (Spec.ddl_statements columns tables) (rows tables)) as Hst.
  { rewrite join_app_lines by done.
    apply ddl_blocks_statements; [by apply Forall_forall|done|done| |].
    - unfold Pandas.ddl_banner, Pandas.banner_rule. by free.
    - right. exists EmptyString,
        (" AWS Redshift DDL Scripts" +:+ nl +:+ "-- Generated on: " +:+ now
           +:+ nl +:+ Pandas.banner_rule).
      split; reflexivity. }
  assert (Forall (fun s => (Py.startswith "CREATE TABLE" s = true
                            \/ Py.startswith "COMMENT ON TABLE" s = true)
                           /\ (10 <=? Py.len s)%nat = true)
            (flat_map (Spec.ddl_statements columns tables) (rows tables)))
    as Hshape.
  { apply Forall_forall. intros s Hs.
    apply list_elem_of_In, in_flat_map in Hs as (t & _ & Hs).
    pose proof (ddl_statements_shape columns tables t) as H.
    rewrite Forall_forall in H. by apply H, list_elem_of_In. }
  split; [done|]. rewrite Pandas_validate_content_spec.
  cbn [Pandas.parser_calls]. rewrite Hst. split.
  - clear Hst. induction Hshape as [|s l [_ Hs] Hl IH]; [done|].
    rewrite filter_cons_if. cbv beta. rewrite Hs. by rewrite IH.
  - eapply Forall_impl; [exact Hshape|]. by intros s [? _].
Qed.

Lemma generated_ddl_validation_witness :
  exists content,
    Pandas.statements content =
      flat_map (Spec.ddl_statements Sample.customer_columns
                  (Frame Sample.table_columns
                     [Sample.dim_orphan; Sample.dim_customer (CStr "COMPOUND")]))
        [Sample.dim_orphan; Sample.dim_customer (CStr "COMPOUND")]
    /\ Forall (fun s => Py.startswith "CREATE TABLE" s = true
                        \/ Py.startswith "COMMENT ON TABLE" s = true)
         (Pandas.statements content).
Proof.
  destruct (Pandas.generate_ddl Sample.timestamp
              (Sample.pandas_generator
                 [Sample.dim_orphan; Sample.dim_customer (CStr "COMPOUND")])
              ∅ "ddl_scripts.sql") as [res|e] eqn:E;
    [|vm_compute in E; discriminate E].
  destruct (generated_ddl_validation Sample.drop_only [] Sample.timestamp
              (Sample.pandas_generator
                 [Sample.dim_orphan; Sample.dim_customer (CStr "COMPOUND")])
              ∅ "ddl_scripts.sql"
              (Frame Sample.table_columns
                 [Sample.dim_orphan; Sample.dim_customer (CStr "COMPOUND")])
              Sample.customer_columns res eq_refl eq_refl eq_refl)
    as (content & _ & Hst & _ & Hshape).
  - apply Forall_forall. repeat constructor.
  - apply Forall_forall. repeat constructor.
  - exact E.
  - exists content. split; [exact Hst|exact Hshape].
Defined.

(** ** Columns, keys and literals *)

Lemma filter_partition_Permutation {A} (f : A -> bool) (l : list A) :
  List.filter f l ++ List.filter (fun x => negb (f x)) l ≡ₚ l.
Proof.
  induction l as [|x l IH]; [done|]. simpl.
  destruct (f x); simpl.
  - by rewrite IH.
  - rewrite <- Permutation_middle. by rewrite IH.
Qed.

Lemma key_partition (key : ColumnMapping -> bool) (rs : list ColumnMapping) :
  map target_column (List.filter key rs) ++ Spec.non_key_columns key rs
  ≡ₚ map target_column rs.
Proof.
  unfold Spec.non_key_columns. rewrite <- map_app.
  apply Permutation_map, filter_partition_Permutation.
Qed.

(** Rows with pairwise distinct keys have one ascending arrangement. *)
Lemma key_inj_on {A} (key : A -> Z) (l : list A) (x y : A) :
  NoDup (map key l) -> x ∈ l -> y ∈ l -> key x = key y -> x = y.
Proof.
  induction l as [|a l IH]; intros Hnd Hx Hy Heq; [by apply elem_of_nil in Hx|].
  simpl in Hnd. apply NoDup_cons in Hnd as [Ha Hnd].
  apply elem_of_cons in Hx as [->|Hx]; apply elem_of_cons in Hy as [->|Hy].
  - done.
  - destruct Ha. rewrite Heq. by apply (list_elem_of_fmap_2 key).
  - destruct Ha. rewrite <- Heq. by apply (list_elem_of_fmap_2 key).
  - by apply IH.
Qed.

Lemma sorted_arrangement_unique {A} (key : A -> Z) (l1 l2 : list A) :
  NoDup (map key l1) ->
  StronglySorted (le_by key) l1 -> StronglySorted (le_by key) l2 ->
  l1 ≡ₚ l2 -> l1 = l2.
Proof.
  revert l2. induction l1 as [|x l1 IH]; intros l2 Hnd Hs1 Hs2 Hp.
  - by apply Permutation_nil_l in Hp.
  - destruct l2 as [|y l2]; [by apply Permutation_nil_r in Hp|].
    apply StronglySorted_inv in Hs1 as [Hs1 Hx].
    apply StronglySorted_inv in Hs2 as [Hs2 Hy].
    rewrite Forall_forall in Hx, Hy.
    assert (x = y) as <-.
    { assert (y ∈ x :: l1) as Hyin by (rewrite Hp; left).
      assert (x ∈ y :: l2) as Hxin by (rewrite <- Hp; left).
      apply (key_inj_on key (x :: l1)); [done|left|done|].
      apply elem_of_cons in Hyin as [->|Hyin]; [done|].
      apply elem_of_cons in Hxin as [->|Hxin]; [done|].
      apply Hx in Hyin. apply Hy in Hxin. unfold le_by in *. lia. }
    f_equal. apply IH; [|done|done|by apply Permutation_cons_inv in Hp].
    simpl in Hnd. by apply NoDup_cons in Hnd as [_ Hnd].
Qed.

(** X11.  The columns of a table in its CREATE TABLE statement.  Both
    generators take the column records whose schema and table name are
    those of the table, each as often as the sheet has it, in ascending
    column_order.  When the column_order values of these records are
    pairwise distinct, there is only one such arrangement: whatever list
    a sort gives for them, a permutation of the records in ascending
    order, is the list of [sqlcodegen.py] and the list of the Polars
    scripts, so that the two scripts name the columns in the same order
    and no choice of the sorting method (how it places equal keys) shows
    in the output.  For records with equal column_order only their place
    among each other is left open. *)
Theorem ddl_columns_sorted (columns : frame ColumnDefinition)
  (table : TableDefinition) :
  let belongs c :=
    String.eqb (col_schema_name c) (tbl_schema_name table)
    && String.eqb (col_table_name c) (tbl_table_name table) in
  let selected := List.filter belongs (rows columns) in
  let ascending :=
    StronglySorted (fun a b => (column_order a <= column_order b)%Z) in
  let pandas_cols :=
    rows (Pandas.columns_of columns (tbl_schema_name table)
            (tbl_table_name table)) in
  let polars_cols := rows (Polars.columns_of columns table) in
  (ascending pandas_cols /\ pandas_cols ≡ₚ selected)
  /\ (ascending polars_cols /\ polars_cols ≡ₚ selected)
  /\ (forall c, c ∈ selected <->
                c ∈ rows columns /\ col_schema_name c = tbl_schema_name table
                /\ col_table_name c = tbl_table_name table)
  /\ (NoDup (map column_order selected) ->
      forall sorted,
        ascending sorted -> sorted ≡ₚ selected ->
        sorted = pandas_cols /\ sorted = polars_cols).
Proof.
  cbv zeta. unfold Pandas.columns_of, Polars.columns_of.
  split; [split; [apply sort_by_sorted|apply sort_by_Permutation]|].
  split; [split; [apply sort_by_sorted|apply sort_by_Permutation]|].
  split.
  { intros c. rewrite list_elem_of_In, filter_In, <- list_elem_of_In.
    rewrite andb_true_iff, !String.eqb_eq. tauto. }
  intros Hnd sorted Hs Hp.
  assert (NoDup (map column_order sorted)) as Hnd'.
  { by rewrite Hp. }
  split; apply (sorted_arrangement_unique column_order); try done.
  - apply sort_by_sorted.
  - rewrite Hp. symmetry. apply sort_by_Permutation.
  - apply sort_by_sorted.
  - rewrite Hp. symmetry. apply sort_by_Permutation.
Qed.

Lemma ddl_columns_sorted_witness :
  rows (Pandas.columns_of Sample.customer_columns "dwh" "dim_customer") =
    [Sample.column "customer_key" 1 "BIGINT" true;
     Sample.column "customer_id" 2 "VARCHAR(50)" false]
  /\ rows (Polars.columns_of Sample.customer_columns
             (Sample.dim_customer CNull)) =
       [Sample.column "customer_key" 1 "BIGINT" true;
        Sample.column "customer_id" 2 "VARCHAR(50)" false].
Proof.
  destruct (ddl_columns_sorted Sample.customer_columns
              (Sample.dim_customer CNull)) as (_ & _ & _ & Hone).
  destruct (Hone) with
    (sorted := [Sample.column "customer_key" 1 "BIGINT" true;
                Sample.column "customer_id" 2 "VARCHAR(50)" false])
    as [Hpd Hpl].
  - apply (bool_decide_unpack _). by vm_compute.
  - repeat constructor; by vm_compute.
  - apply Permutation_swap.
  - split; [exact (eq_sym Hpd)|exact (eq_sym Hpl)].
Defined.

(** X12.  In every load strategy of both generators each mapped column
    goes to exactly one of two lists: the business keys, which make the
    join condition, or the columns that are updated (Type 1) or compared
    (Type 2); together the two lists are the target columns, and there
    is one source expression per target column. *)
Theorem key_columns_partition (m : frame ColumnMapping) :
  (let l := Pandas.type1_loop m in
   exists updated,
     Pandas.t1_update_sets l =
       map (fun c => "    tgt." +:+ c +:+ " = src." +:+ c) updated
     /\ Pandas.t1_business_keys l ++ updated ≡ₚ Pandas.t1_target_cols l
     /\ length (Pandas.t1_source_exprs l) = length (Pandas.t1_target_cols l))
  /\ (let l := Pandas.type2_loop m in
      Pandas.t2_business_keys l ++ Pandas.t2_compare_cols l
        ≡ₚ Pandas.t2_target_cols l
      /\ length (Pandas.t2_source_exprs l) = length (Pandas.t2_target_cols l))
  /\ (let l := Polars.type1_loop m in
      Polars.t1_business_keys l ++ Polars.t1_update_cols l
        ≡ₚ map Polars.ce_target_column (Polars.t1_columns l))
  /\ (let l := Polars.type2_loop m in
      Polars.t2_business_keys l ++ Polars.t2_compare_cols l
        ≡ₚ map Polars.ce_target_column (Polars.t2_columns l)).
Proof.
  cbv zeta.
  rewrite Pandas_type1_loop, Pandas_type2_loop, Polars_type1_loop,
    Polars_type2_loop.
  cbn [Pandas.t1_update_sets Pandas.t1_business_keys Pandas.t1_target_cols
       Pandas.t1_source_exprs Pandas.t2_business_keys Pandas.t2_compare_cols
       Pandas.t2_target_cols Pandas.t2_source_exprs
       Polars.t1_business_keys Polars.t1_update_cols Polars.t1_columns
       Polars.t2_business_keys Polars.t2_compare_cols Polars.t2_columns].
  rewrite !map_map. cbn [Polars.ce_target_column].
  split; [|split; [|split]].
  - exists (Spec.non_key_columns Pandas.business_key (rows m)).
    split; [done|]. split; [apply key_partition|by rewrite !length_map].
  - split; [apply key_partition|by rewrite !length_map].
  - apply key_partition.
  - apply key_partition.
Qed.

Lemma sql_unquote_double_quotes (text : string) :
  Spec.sql_unquote (Py.double_quotes text) = Some text.
Proof.
  induction text as [|c text IH]; [done|]. cbn [Py.double_quotes].
  destruct (Ascii.eqb c "'") eqn:E.
  - apply Ascii.eqb_eq in E as ->. cbn [Spec.sql_unquote].
    rewrite Ascii.eqb_refl, IH. done.
  - cbn [Spec.sql_unquote]. rewrite E, IH. done.
Qed.

Lemma sql_unquote_plain (s : string) :
  Spec.sql_unquote s = Some s <-> Spec.free_of "'" s = true.
Proof.
  assert (forall s r, Spec.sql_unquote s = Some r ->
                      String.length r <= String.length s) as Hlen.
  { fix IH 1. intros [|c [|c' s']] r; cbn [Spec.sql_unquote].
    - by intros [= <-].
    - destruct (Ascii.eqb c "'"); [done|]. by intros [= <-].
    - destruct (Ascii.eqb c "'").
      + destruct (Ascii.eqb c' "'"); [|done].
        destruct (Spec.sql_unquote s') as [r'|] eqn:E; [|done].
        intros [= <-]. apply IH in E. simpl. lia.
      + destruct (Ascii.eqb c' "'") eqn:E'.
        * destruct s' as [|c2 s2]; [done|].
          destruct (Ascii.eqb c2 "'"); [|done].
          destruct (Spec.sql_unquote s2) as [r'|] eqn:E; [|done].
          intros [= <-]. apply IH in E. simpl. lia.
        * destruct (Spec.sql_unquote s') as [r'|] eqn:E; [|done].
          intros [= <-]. apply IH in E. simpl in *. lia. }
  induction s as [|c s IH]; [done|]. cbn [Spec.sql_unquote Spec.free_of].
  destruct (Ascii.eqb c "'") eqn:E; cbn [negb andb].
  - split; [|done]. apply Ascii.eqb_eq in E as ->.
    destruct s as [|c' s']; [done|].
    destruct (Ascii.eqb c' "'"); [|done].
    destruct (Spec.sql_unquote s') as [r'|] eqn:E'; [|done].
    intros [= Hr]. apply Hlen in E'. rewrite Hr in E'. simpl in E'. lia.
  - rewrite <- IH. destruct (Spec.sql_unquote s) as [r|]; simpl.
    + split; congruence.
    + split; discriminate.
Qed.

(** X13.  Quotes in literals.  The COMMENT ON TABLE statement that
    [generate_ddl] writes for a table with a description, in
    [sqlcodegen.py] as the last line of the table's block and in the
    Polars template as the end of the table's text, carries the
    description with every single quote doubled, so that what stands
    between the quotes of the literal, read as SQL reads it, is the
    description again.  A text constant of a mapping row is put between
    quotes as it is, into the select list of every load strategy of both
    generators, so that the literal reads back as the constant exactly
    when the constant holds no single quote. *)
Theorem literal_quoting (text : string) :
  text <> EmptyString ->
  (forall (columns : frame ColumnDefinition) (tables : frame TableDefinition)
          (scripts errs : list string) (table : TableDefinition)
          (out : list string * list string),
      description table = CStr text ->
      rows (Pandas.columns_of columns (tbl_schema_name table)
              (tbl_table_name table)) <> [] ->
      Pandas.ddl_table columns tables (scripts, errs) table = Returned out ->
      exists create_stmt literal,
        out = (scripts ++
                 [Pandas.table_comment (Spec.full_name table);
                  Pandas.drop_statement (Spec.full_name table);
                  create_stmt;
                  "COMMENT ON TABLE " +:+ Spec.full_name table +:+ " IS '"
                    +:+ literal +:+ "';"],
               errs)
        /\ Spec.sql_unquote literal = Some text)
  /\ (forall (tables : frame TableDefinition) (td : Polars.table_data),
         description (Polars.td_table td) = CStr text ->
         exists before literal,
           Polars.render_table tables td =
             before +:+ "COMMENT ON TABLE "
               +:+ Spec.full_name (Polars.td_table td) +:+ " IS '"
               +:+ literal +:+ "';" +:+ nl +:+ nl
           /\ Spec.sql_unquote literal = Some text)
  /\ (forall (tm : frame ColumnMapping) (row : ColumnMapping),
         row ∈ rows tm ->
         transformation row = CNull -> source_column row = CNull ->
         constant_value row = CStr text ->
         let item := "'" +:+ text +:+ "' AS " +:+ target_column row in
         let entry :=
           Polars.ColumnEntry (target_column row)
             (CStr ("'" +:+ text +:+ "'")) in
         item ∈ Pandas.t1_source_exprs (Pandas.type1_loop tm)
         /\ item ∈ Pandas.t2_source_exprs (Pandas.type2_loop tm)
         /\ CStr ("'" +:+ text +:+ "'")
              ∈ Pandas.ins_source_exprs (Pandas.insert_loop tm)
         /\ entry ∈ Polars.t1_columns (Polars.type1_loop tm)
         /\ entry ∈ Polars.t2_columns (Polars.type2_loop tm)
         /\ entry ∈ Polars.insert_loop tm)
  /\ (Spec.sql_unquote text = Some text <-> Spec.free_of "'" text = true).
Proof.
  intros Hne. split; [|split; [|split]].
  - intros columns tables scripts errs table out Hdesc Hcols.
    unfold Pandas.ddl_table.
    destruct (rows (Pandas.columns_of _ _ _)) as [|c cs] eqn:E; [done|].
    intros (create_stmt & _ & Hout)%bind_Returned.
    rewrite Hdesc in Hout. simpl in Hout. injection Hout as <-.
    exists create_stmt, (Py.double_quotes text).
    split; [|apply sql_unquote_double_quotes].
    unfold Spec.full_name. by rewrite <- !app_assoc.
  - intros tables td Hdesc. unfold Polars.render_table. cbv zeta.
    rewrite Hdesc. destruct text as [|a text]; [done|].
    cbn [truthy Py.nonempty Polars.jinja_if Polars.str py_str].
    eexists (nl +:+ "-- Table: " +:+ Spec.full_name (Polars.td_table td)
               +:+ nl +:+ "-- Description: " +:+ String a text
               +:+ nl +:+ "DROP TABLE IF EXISTS "
               +:+ Spec.full_name (Polars.td_table td) +:+ " CASCADE;"
               +:+ nl +:+ nl +:+ Polars.render_create tables td +:+ nl),
      (Py.double_quotes (String a text)).
    split; [|apply sql_unquote_double_quotes].
    unfold Spec.full_name. rewrite !string_app_assoc. reflexivity.
  - intros tm row Hrow Ht Hs Hc. cbv zeta.
    rewrite Pandas_type1_loop, Pandas_type2_loop, Pandas_insert_loop,
      Polars_type1_loop, Polars_type2_loop, Polars_insert_loop.
    cbn [Pandas.t1_source_exprs Pandas.t2_source_exprs
         Pandas.ins_source_exprs Polars.t1_columns Polars.t2_columns].
    assert (Polars.type1_source_expr row = CStr ("'" +:+ text +:+ "'")
            /\ Polars.type2_source_expr row = CStr ("'" +:+ text +:+ "'")
            /\ Polars.insert_source_expr row = CStr ("'" +:+ text +:+ "'"))
      as (E1 & E2 & E3).
    { unfold Polars.type1_source_expr, Polars.type2_source_expr,
        Polars.insert_source_expr. rewrite Ht, Hs, Hc.
      destruct text; [done|]. repeat split. }
    repeat split.
    + apply list_elem_of_fmap. exists row. split; [|done].
      unfold Pandas.type1_source_expr. rewrite Ht, Hs, Hc. simpl.
      by rewrite !string_app_assoc.
    + apply list_elem_of_fmap. exists row. split; [|done].
      unfold Pandas.type2_source_expr. rewrite Ht, Hs, Hc. simpl.
      by rewrite !string_app_assoc.
    + apply list_elem_of_fmap. exists row. split; [|done].
      unfold Pandas.insert_source_expr. by rewrite Ht, Hs, Hc.
    + apply list_elem_of_fmap. exists row. split; [|done]. by rewrite E1.
    + apply list_elem_of_fmap. exists row. split; [|done]. by rewrite E2.
    + apply list_elem_of_fmap. exists row. split; [|done]. by rewrite E3.
  - apply sql_unquote_plain.
Qed.

Lemma literal_quoting_witness :
  exists create_stmt literal,
    Pandas.ddl_table Sample.customer_columns
      (Frame Sample.table_columns [Sample.described_customer "Buyer's data"])
      ([], []) (Sample.described_customer "Buyer's data") =
    Returned
      ([Pandas.table_comment "dwh.dim_customer";
        Pandas.drop_statement "dwh.dim_customer";
        create_stmt;
        "COMMENT ON TABLE dwh.dim_customer IS '" +:+ literal +:+ "';"], [])
    /\ Spec.sql_unquote literal = Some "Buyer's data".
Proof.
  destruct (literal_quoting "Buyer's data" ltac:(discriminate))
    as (Hcomment & _ & _ & _).
  destruct (Pandas.ddl_table Sample.customer_columns
              (Frame Sample.table_columns
                 [Sample.described_customer "Buyer's data"])
              ([], []) (Sample.described_customer "Buyer's data"))
    as [out|e] eqn:E; [|vm_compute in E; discriminate E].
  destruct (Hcomment Sample.customer_columns
              (Frame Sample.table_columns
                 [Sample.described_customer "Buyer's data"])
              [] [] (Sample.described_customer "Buyer's data") out eq_refl)
    as (create_stmt & literal & -> & Hread); [by vm_compute|exact E|].
  by exists create_stmt, literal.
Defined.

(** X14.  [load_definitions] is not all or nothing.  In both
    generators it returns True exactly when the three sheets are read,
    and then records no error; otherwise it records one error.  The
    three attributes are assigned one after the other: when the Tables
    and Columns sheets are read and the Mappings sheet is not, the call
    returns False but leaves the tables and columns loaded and the
    mappings as they were, so that a following [generate_ddl] does not
    refuse with its not-loaded error and writes the script. *)
Theorem load_definitions_partial
  (read_tables : string -> outcome (frame TableDefinition))
  (read_columns : string -> outcome (frame ColumnDefinition))
  (read_mappings : string -> outcome (frame ColumnMapping))
  (table_def mapping : string) :
  let all_read :=
    exists t c m,
      read_tables table_def = Returned t /\ read_columns table_def = Returned c
      /\ read_mappings mapping = Returned m in
  (forall self,
      let res := Pandas.load_definitions read_tables read_columns read_mappings
                   self table_def mapping in
      (res.1 = true <-> all_read)
      /\ (res.1 = true -> Pandas.errors res.2 = Pandas.errors self)
      /\ (res.1 = false ->
          exists e, Pandas.errors res.2 =
                    Pandas.errors self ++ [Pandas.load_error e])
      /\ (forall t c e,
             read_tables table_def = Returned t ->
             read_columns table_def = Returned c ->
             read_mappings mapping = Raised e ->
             res.1 = false
             /\ Pandas.tables_df res.2 = Some t
             /\ Pandas.columns_df res.2 = Some c
             /\ Pandas.mappings_df res.2 = Pandas.mappings_df self
             /\ forall now fs file r,
                  Pandas.generate_ddl now res.2 fs file = Returned r ->
                  r.1.1 = true /\ exists content, r.2 !! file = Some content))
  /\ (forall self,
         let res := Polars.load_definitions read_tables read_columns
                      read_mappings self table_def mapping in
         (res.1 = true <-> all_read)
         /\ (res.1 = true -> Polars.errors res.2 = Polars.errors self)
         /\ (res.1 = false ->
             exists e, Polars.errors res.2 =
                       Polars.errors self ++ [Polars.load_error e])
         /\ (forall t c e,
                read_tables table_def = Returned t ->
                read_columns table_def = Returned c ->
                read_mappings mapping = Raised e ->
                res.1 = false
                /\ Polars.tables_df res.2 = Some t
                /\ Polars.columns_df res.2 = Some c
                /\ Polars.mappings_df res.2 = Polars.mappings_df self
                /\ forall now fs file,
                     let r := Polars.generate_ddl now res.2 fs file in
                     r.1.1 = true /\ exists content, r.2 !! file = Some content)).
Proof.
  cbv zeta. split; intros self.
  - unfold Pandas.load_definitions.
    destruct (read_tables table_def) as [t|e1];
      [destruct (read_columns table_def) as [c|e2];
       [destruct (read_mappings mapping) as [m|e3]|]|];
      cbn [fst snd Pandas.errors Pandas.add_error Pandas.set_errors
           Pandas.tables_df Pandas.columns_df Pandas.mappings_df].
    + split; [split; [intros _; by exists t, c, m|done]|]. split; [done|]. split; [done|].
      intros ? ? ? _ _ [=].
    + split; [split; [done|by intros (? & ? & ? & _ & _ & ?)]|].
      split; [done|]. split; [intros _; by eexists|].
      intros t' c' e [= <-] [= <-] _. do 4 (split; [done|]).
      intros now fs file r H. unfold Pandas.generate_ddl in H.
      cbn [Pandas.tables_df Pandas.columns_df] in H.
      apply bind_Returned in H as (st & _ & [= <-]). cbn [fst snd].
      split; [done|]. rewrite lookup_insert_eq. by eexists.
    + split; [split; [done|by intros (? & ? & ? & _ & ? & _)]|].
      split; [done|]. split; [intros _; by eexists|]. intros ? ? ? _ [=].
    + split; [split; [done|by intros (? & ? & ? & ? & _)]|].
      split; [done|]. split; [intros _; by eexists|]. intros ? ? ? [=].
  - unfold Polars.load_definitions.
    destruct (read_tables table_def) as [t|e1];
      [destruct (read_columns table_def) as [c|e2];
       [destruct (read_mappings mapping) as [m|e3]|]|];
      cbn [fst snd Polars.errors Polars.add_error Polars.set_errors
           Polars.tables_df Polars.columns_df Polars.mappings_df].
    + split; [split; [intros _; by exists t, c, m|done]|]. split; [done|]. split; [done|].
      intros ? ? ? _ _ [=].
    + split; [split; [done|by intros (? & ? & ? & _ & _ & ?)]|].
      split; [done|]. split; [intros _; by eexists|].
      intros t' c' e [= <-] [= <-] _. do 4 (split; [done|]).
      intros now fs file. unfold Polars.generate_ddl.
      cbn [Polars.tables_df Polars.columns_df Polars.add_error
           Polars.set_errors fst snd]. split; [done|].
      rewrite lookup_insert_eq. by eexists.
    + split; [split; [done|by intros (? & ? & ? & _ & ? & _)]|].
      split; [done|]. split; [intros _; by eexists|]. intros ? ? ? _ [=].
    + split; [split; [done|by intros (? & ? & ? & ? & _)]|].
      split; [done|]. split; [intros _; by eexists|]. intros ? ? ? [=].
Qed.

(** ** What the validator sees of a script of the Polars generators *)

Lemma free_jinja_for {A} (body : A -> bool -> string) (P : A -> Prop)
  (l : list A) :
  (forall x last, P x -> Spec.no_semicolon (body x last)) ->
  Forall P l -> Spec.no_semicolon (Polars.jinja_for body l).
Proof.
  intros Hbody Hl. induction Hl as [|x l Hx Hl IH]; [done|].
  destruct l as [|y l]; [by apply Hbody|].
  change (Polars.jinja_for body (x :: y :: l))
    with (body x false +:+ Polars.jinja_for body (y :: l)).
  unfold Spec.no_semicolon in *. rewrite free_of_app, IH.
  by rewrite (Hbody x false Hx).
Qed.

Lemma polars_str_free (c : cell) :
  Spec.no_semicolon (Pandas.str c) -> Spec.no_semicolon (Polars.str c).
Proof. by destruct c. Qed.

Section PolarsScripts.

Import Polars.

Lemma Polars_free_business_key_join (keys : list string) :
  Forall Spec.no_semicolon keys ->
  Spec.no_semicolon (business_key_join keys).
Proof. intros H. unfold business_key_join. free. Qed.

Lemma Polars_free_change_detection (cols : list string) :
  Forall Spec.no_semicolon cols -> Spec.no_semicolon (change_detection cols).
Proof. intros H. unfold change_detection, change_test. free. Qed.

Lemma free_select_items (cols : list column_entry) :
  Forall (fun c => Spec.no_semicolon (str (ce_source_expr c))
                   /\ Spec.no_semicolon (ce_target_column c)) cols ->
  Spec.no_semicolon (jinja_for render_select_item cols)
  /\ Spec.no_semicolon (jinja_for render_select_item_comma cols)
  /\ Forall Spec.no_semicolon (map ce_target_column cols)
  /\ Forall Spec.no_semicolon
       (map (fun c => "src." +:+ ce_target_column c) cols).
Proof.
  intros H. repeat split.
  - eapply free_jinja_for; [|exact H]. intros c last [H1 H2].
    unfold render_select_item, jinja_if. destruct (negb last); by free.
  - eapply free_jinja_for; [|exact H]. intros c last [H1 H2].
    unfold render_select_item_comma. by free.
  - apply Forall_map. eapply Forall_impl; [exact H|]. by intros c [_ ?].
  - apply Forall_map. eapply Forall_impl; [exact H|]. intros c [_ ?]. by free.
Qed.

Lemma free_update_items (cols : list string) :
  Forall Spec.no_semicolon cols ->
  Spec.no_semicolon (jinja_for render_update_item cols).
Proof.
  intros H. eapply free_jinja_for; [|exact H]. intros c last Hc.
  unfold render_update_item, jinja_if. destruct (negb last); by free.
Qed.

(** The Type 1 script, cut at its semicolons. *)
Lemma render_type1_fragments (t s : string) (l : type1_lists) :
  render_type1 t s l =
  ("-- SCD Type 1: Update existing, Insert new" +:+ nl
     +:+ "-- Target: " +:+ t +:+ nl +:+ "BEGIN TRANSACTION")
  +:+ ";" +:+ (nl +:+ nl +:+ Spec.polars_merge_statement t s l)
  +:+ ";" +:+ (nl +:+ nl +:+ "COMMIT")
  +:+ ";" +:+ EmptyString.
Proof.
  unfold render_type1, Spec.polars_merge_statement. cbv zeta.
  rewrite ?string_app_assoc. cbn [String.append]. reflexivity.
Qed.

(** The Type 2 script, cut at its semicolons. *)
Lemma render_type2_fragments (t s : string) (l : type2_lists) :
  exists update insert,
    render_type2 t s l =
    ("-- SCD Type 2: Track history with effective dates" +:+ nl
       +:+ "-- Target: " +:+ t +:+ nl +:+ "BEGIN TRANSACTION")
    +:+ ";" +:+ (nl +:+ nl +:+ "--" +:+ " Expire changed records" +:+ nl
                 +:+ update)
    +:+ ";" +:+ (nl +:+ nl +:+ "--"
                 +:+ " Insert new versions (changed records and new records)"
                 +:+ nl +:+ insert)
    +:+ ";" +:+ (nl +:+ nl +:+ "COMMIT")
    +:+ ";" +:+ EmptyString
    /\ (Spec.no_semicolon t -> Spec.no_semicolon s ->
        Forall (fun c => Spec.no_semicolon (str (ce_source_expr c))
                         /\ Spec.no_semicolon (ce_target_column c))
          (t2_columns l) ->
        Forall Spec.no_semicolon (t2_business_keys l) ->
        Forall Spec.no_semicolon (t2_compare_cols l) ->
        Spec.no_semicolon update /\ Spec.no_semicolon insert).
Proof.
  exists
    ("UPDATE " +:+ t +:+ " AS tgt" +:+ nl
     +:+ "SET" +:+ nl
     +:+ "tgt.effective_end_date = DATEADD(day, -1, GETDATE())," +:+ nl
     +:+ "tgt.is_current = FALSE," +:+ nl
     +:+ "tgt.updated_date = GETDATE()" +:+ nl
     +:+ "FROM (" +:+ nl
     +:+ "SELECT "
     +:+ Py.join ", " (map (fun k => "src." +:+ k) (t2_business_keys l)) +:+ nl
     +:+ "FROM " +:+ s +:+ nl
     +:+ ") AS src" +:+ nl
     +:+ "WHERE tgt.is_current = TRUE" +:+ nl
     +:+ "AND " +:+ business_key_join (t2_business_keys l) +:+ nl
     +:+ "AND (" +:+ change_detection (t2_compare_cols l) +:+ ")"),
    ("INSERT INTO " +:+ t +:+ " (" +:+ nl
     +:+ Py.join ", " (map ce_target_column (t2_columns l)) +:+ "," +:+ nl
     +:+ "effective_start_date," +:+ nl
     +:+ "effective_end_date," +:+ nl
     +:+ "is_current," +:+ nl
     +:+ "created_date" +:+ nl
     +:+ ")" +:+ nl
     +:+ "SELECT"
     +:+ jinja_for render_select_item_comma (t2_columns l) +:+ nl
     +:+ "GETDATE() AS effective_start_date," +:+ nl
     +:+ "'9999-12-31'::DATE AS effective_end_date," +:+ nl
     +:+ "TRUE AS is_current," +:+ nl
     +:+ "GETDATE() AS created_date" +:+ nl
     +:+ "FROM " +:+ s +:+ " AS src" +:+ nl
     +:+ "WHERE NOT EXISTS (" +:+ nl
     +:+ "SELECT 1 FROM " +:+ t +:+ " AS tgt" +:+ nl
     +:+ "WHERE tgt.is_current = TRUE" +:+ nl
     +:+ "AND " +:+ business_key_join (t2_business_keys l) +:+ nl
     +:+ ")" +:+ nl
     +:+ "OR EXISTS (" +:+ nl
     +:+ "SELECT 1 FROM " +:+ t +:+ " AS tgt" +:+ nl
     +:+ "WHERE tgt.is_current = TRUE" +:+ nl
     +:+ "AND " +:+ business_key_join (t2_business_keys l) +:+ nl
     +:+ "AND (" +:+ change_detection (t2_compare_cols l) +:+ ")" +:+ nl
     +:+ ")").
  split.
  - unfold render_type2. cbv zeta.
    rewrite ?string_app_assoc. cbn [String.append]. reflexivity.
  - intros Ht Hs H1 H2 H3.
    pose proof (Polars_free_business_key_join _ H2) as Hk.
    pose proof (Polars_free_change_detection _ H3) as Hc.
    destruct (free_select_items _ H1)
      as (_ & Hitems & Hcols & _).
    assert (Forall Spec.no_semicolon
              (map (fun k => "src." +:+ k) (t2_business_keys l))) as Hsrc.
    { apply Forall_map. eapply Forall_impl; [exact H2|]. intros k ?. by free. }
    split; free.
Qed.

(** The Insert script, cut at its semicolon. *)
Lemma render_insert_fragments (t s : string) (cols : list column_entry) :
  exists body,
    render_insert t s cols =
    ("--" +:+ " Insert load" +:+ nl +:+ body)
    +:+ ";" +:+ "  -- Add filter conditions here"
    /\ (Spec.no_semicolon t -> Spec.no_semicolon s ->
        Forall (fun c => Spec.no_semicolon (str (ce_source_expr c))
                         /\ Spec.no_semicolon (ce_target_column c)) cols ->
        Spec.no_semicolon body).
Proof.
  exists
    ("-- Target: " +:+ t +:+ nl
     +:+ "INSERT INTO " +:+ t +:+ " (" +:+ nl
     +:+ Py.join ", " (map ce_target_column cols) +:+ nl
     +:+ ")" +:+ nl
     +:+ "SELECT"
     +:+ jinja_for render_select_item cols +:+ nl
     +:+ "FROM " +:+ s +:+ nl
     +:+ "WHERE 1=1").
  split.
  - unfold render_insert. cbv zeta.
    rewrite ?string_app_assoc. cbn [String.append]. reflexivity.
  - intros Ht Hs H.
    destruct (free_select_items _ H)
      as (Hitems & _ & Hcols & _).
    free.
Qed.

Lemma free_polars_merge_statement (t s : string) (l : type1_lists) :
  Spec.no_semicolon t -> Spec.no_semicolon s ->
  Forall (fun c => Spec.no_semicolon (str (ce_source_expr c))
                   /\ Spec.no_semicolon (ce_target_column c)) (t1_columns l) ->
  Forall Spec.no_semicolon (t1_business_keys l) ->
  Forall Spec.no_semicolon (t1_update_cols l) ->
  Spec.no_semicolon (Spec.polars_merge_statement t s l).
Proof.
  intros Ht Hs H1 H2 H3.
  pose proof (Polars_free_business_key_join _ H2) as Hk.
  pose proof (free_update_items _ H3) as Hu.
  destruct (free_select_items _ H1)
    as (Hitems & _ & Hcols & Hsrc).
  unfold Spec.polars_merge_statement. free.
Qed.

Lemma polars_merge_statement_kept (t s : string) (l : type1_lists) :
  Py.strip (nl +:+ nl +:+ Spec.polars_merge_statement t s l) =
    Spec.polars_merge_statement t s l
  /\ Spec.polars_merge_statement t s l <> EmptyString
  /\ Py.startswith "--" (Spec.polars_merge_statement t s l) = false
  /\ Py.startswith "MERGE INTO" (Spec.polars_merge_statement t s l) = true
  /\ (10 <=? Py.len (Spec.polars_merge_statement t s l))%nat = true.
Proof.
  rewrite <- string_app_assoc, strip_lead_space by reflexivity.
  unfold Spec.polars_merge_statement.
  rewrite ?string_app_assoc. cbn [String.append].
  split; [|done]. apply strip_tight; [reflexivity|]. by tight.
Qed.

End PolarsScripts.

Section PolarsBlocks.

Import Polars.

Local Abbreviation lines_after :=
  (fold_right (fun x acc : string => nl +:+ x +:+ acc)).

Lemma Polars_clean_source_exprs (r : ColumnMapping) :
  Spec.clean_mapping r = true ->
  Spec.no_semicolon (str (type1_source_expr r))
  /\ Spec.no_semicolon (str (type2_source_expr r))
  /\ Spec.no_semicolon (str (insert_source_expr r)).
Proof.
  intros (_ & _ & _ & _ & _ & Hs & Ht & Hc & _)%clean_mapping_facts.
  apply polars_str_free in Hs, Ht, Hc.
  unfold type1_source_expr, type2_source_expr, insert_source_expr.
  destruct (truthy (transformation r)); [done|].
  destruct (truthy (source_column r));
    [cbn [str py_str]; repeat split; try done; by free|].
  destruct (truthy (constant_value r)); [|done]. cbv zeta.
  destruct (is_str (constant_value r)); cbn [str py_str];
    repeat split; try done; by free.
Qed.

Lemma Polars_clean_lists (tm : frame ColumnMapping) :
  Forall (fun r => Spec.clean_mapping r = true) (rows tm) ->
  let clean_entry c :=
    Spec.no_semicolon (str (ce_source_expr c))
    /\ Spec.no_semicolon (ce_target_column c) in
  Forall clean_entry (t1_columns (type1_loop tm))
  /\ Forall Spec.no_semicolon (t1_business_keys (type1_loop tm))
  /\ Forall Spec.no_semicolon (t1_update_cols (type1_loop tm))
  /\ Forall clean_entry (t2_columns (type2_loop tm))
  /\ Forall Spec.no_semicolon (t2_business_keys (type2_loop tm))
  /\ Forall Spec.no_semicolon (t2_compare_cols (type2_loop tm))
  /\ Forall clean_entry (insert_loop tm).
Proof.
  intros H. cbv zeta.
  rewrite Polars_type1_loop, Polars_type2_loop, Polars_insert_loop.
  cbn [t1_columns t1_business_keys t1_update_cols t2_columns
       t2_business_keys t2_compare_cols].
  unfold Spec.non_key_columns.
  assert (forall f, Forall (fun r => Spec.clean_mapping r = true)
                      (List.filter f (rows tm))) as Hf.
  { intros f. rewrite Forall_forall in *. intros r Hr. apply H.
    apply list_elem_of_In. apply list_elem_of_In in Hr.
    by apply filter_In in Hr as [Hr _]. }
  assert (forall f : ColumnMapping -> bool,
            Forall Spec.no_semicolon
              (map target_column (List.filter f (rows tm)))) as Hcols.
  { intros f. apply Forall_map. eapply Forall_impl; [apply Hf|].
    intros r Hr. by apply clean_mapping_facts in Hr as (_ & _ & Hc & _). }
  repeat split; try apply Hcols.
  all: apply Forall_map; eapply Forall_impl; [exact H|]; intros r Hr;
    cbn [ce_source_expr ce_target_column];
    destruct (Polars_clean_source_exprs r Hr) as (H1 & H2 & H3);
    apply clean_mapping_facts in Hr as (_ & _ & Hc & _); by split.
Qed.

Lemma Polars_block_head_led (p full : string) (tag : cell) (rest : string) :
  Spec.all_space p = true \/ Spec.comment_led p ->
  Spec.comment_led (p +:+ nl +:+ load_comment full tag +:+ rest).
Proof.
  intros [Hp|Hp]; [|by apply comment_led_app].
  apply comment_led_space_app; [done|].
  exists (nl +:+ nl),
    (" Load: " +:+ full +:+ " (SCD " +:+ str tag +:+ ")" +:+ rest).
  split; [reflexivity|]. unfold load_comment.
  rewrite ?string_app_assoc. cbn [String.append]. reflexivity.
Qed.

Lemma Polars_block_head_free (p full : string) (tag : cell) (f0 : string) :
  Spec.no_semicolon p -> Spec.no_semicolon full ->
  Spec.no_semicolon (str tag) -> Spec.no_semicolon f0 ->
  Spec.no_semicolon
    (p +:+ nl +:+ load_comment full tag +:+ nl +:+ load_rule +:+ nl +:+ f0).
Proof. intros Hp Hf Ht H0. unfold load_comment. free. Qed.

(** What the validator makes of one load block of the Polars
    generators, standing behind a text [p] that holds no statement of
    its own. *)
Lemma Polars_dml_block_statements (m : frame ColumnMapping)
  (t : string * string) (b : list string) (p : string) :
  (forall r, r ∈ rows m -> Spec.clean_mapping r = true) ->
  t ∈ unique_targets m ->
  dml_table m [] t = Returned b ->
  Spec.no_semicolon p -> Spec.all_space p = true \/ Spec.comment_led p ->
  exists q,
    Spec.no_semicolon q /\ (Spec.all_space q = true \/ Spec.comment_led q)
    /\ forall R,
         Pandas.statements (p +:+ lines_after R b) =
         Spec.polars_dml_statements m t ++ Pandas.statements (q +:+ R).
Proof.
  intros Hclean Ht Hb Hp Hpd. unfold dml_table in Hb. cbv zeta in Hb.
  apply bind_Returned in Hb as (tag & Htag & Hb).
  apply bind_Returned in Hb as (script & Hscript & [= <-]).
  set (tm := sort_by target_column_order (rows_of_target m t)) in *.
  assert (Forall (fun r => Spec.clean_mapping r = true) (rows tm)) as Htm.
  { apply Forall_forall. intros r Hr. apply Hclean.
    apply elem_of_sort_by, Polars_elem_of_group in Hr. tauto. }
  unfold governing_scd_type in Htag.
  destruct (has_column "scd_type" tm); [|done].
  apply bind_Returned in Htag as (lead & Hlead & [= <-]).
  apply Polars_row0_head in Hlead.
  assert (lead ∈ rows tm) as Hlin
    by (destruct (rows tm); [discriminate|injection Hlead as ->; left]).
  pose proof Hlin as Hlt.
  apply elem_of_sort_by, Polars_elem_of_group in Hlt as [Hlm Hlt].
  rewrite Forall_forall in Htm. pose proof (Htm _ Hlin) as Hlc.
  rewrite <- Forall_forall in Htm.
  apply clean_mapping_facts in Hlc
    as (Hts & Htt & _ & Hss & Hst & _ & _ & _ & Hscd).
  apply polars_str_free in Hscd.
  assert (Spec.no_semicolon (t.1 +:+ "." +:+ t.2)) as Hfull.
  { rewrite <- Hlt. cbn [fst snd]. by free. }
  assert (Spec.no_semicolon (source_schema lead +:+ "." +:+ source_table lead))
    as Hsrc by by free.
  destruct (Polars_clean_lists tm Htm)
    as (H1c & H1k & H1u & H2c & H2k & H2v & Hic).
  unfold Spec.polars_dml_statements. cbv zeta. fold tm. rewrite Hlead.
  unfold load_script in Hscript.
  destruct (cell_eq_str (scd_type lead) "TYPE1") eqn:E1;
    [|destruct (cell_eq_str (scd_type lead) "TYPE2") eqn:E2].
  - rewrite (Polars_type1_returns _ _ _ Hlead) in Hscript.
    injection Hscript as <-. exists EmptyString. split; [reflexivity|].
    split; [by left|]. intros R.
    pose proof (free_polars_merge_statement _ _ _ Hfull Hsrc H1c H1k H1u)
      as Hms.
    destruct (polars_merge_statement_kept (t.1 +:+ "." +:+ t.2)
                (source_schema lead +:+ "." +:+ source_table lead)
                (type1_loop tm)) as (Hstrip & Hne & Hnc & _).
    rewrite render_type1_fragments, block_text, !app_sep_assoc.
    rewrite statements_dropped_head;
      [|apply Polars_block_head_free; [done..|by free]
       |right; by apply Polars_block_head_led].
    rewrite statements_kept_head; rewrite ?Hstrip; [|by free|done|done].
    rewrite (statements_kept_head (nl +:+ nl +:+ "COMMIT")); done.
  - destruct (render_type2_fragments (t.1 +:+ "." +:+ t.2)
                (source_schema lead +:+ "." +:+ source_table lead)
                (type2_loop tm)) as (update & insert & Heq & Hfree).
    rewrite (Polars_type2_returns _ _ _ Hlead) in Hscript.
    injection Hscript as <-. exists EmptyString. split; [reflexivity|].
    split; [by left|]. intros R.
    destruct (Hfree Hfull Hsrc H2c H2k H2v) as [Hu Hi].
    rewrite Heq, block_text, !app_sep_assoc.
    rewrite statements_dropped_head;
      [|apply Polars_block_head_free; [done..|by free]
       |right; by apply Polars_block_head_led].
    rewrite statements_dropped_head;
      [|by free|right; apply (led_after_blank " Expire changed records")].
    rewrite statements_dropped_head;
      [|by free
       |right;
        apply (led_after_blank
                 " Insert new versions (changed records and new records)")].
    rewrite (statements_kept_head (nl +:+ nl +:+ "COMMIT")); done.
  - unfold _generate_insert_load in Hscript.
    rewrite (Polars_source_table_head _ _ Hlead) in Hscript.
    injection Hscript as <-.
    destruct (render_insert_fragments (t.1 +:+ "." +:+ t.2)
                (source_schema lead +:+ "." +:+ source_table lead)
                (insert_loop tm)) as (body & -> & Hfree).
    pose proof (Hfree Hfull Hsrc Hic) as Hbody.
    exists "  -- Add filter conditions here".
    split; [reflexivity|]. split.
    { right. exists "  ", " Add filter conditions here". done. }
    intros R. rewrite block_text.
    rewrite statements_dropped_head;
      [done|apply Polars_block_head_free; [done..|by free]
      |right; by apply Polars_block_head_led].
Qed.

Lemma Polars_dml_blocks_statements (m : frame ColumnMapping)
  (ts : list (string * string)) (blocks : list (list string)) (p : string) :
  (forall r, r ∈ rows m -> Spec.clean_mapping r = true) ->
  (forall t, t ∈ ts -> t ∈ unique_targets m) ->
  Forall2 (fun t b => dml_table m [] t = Returned b) ts blocks ->
  Spec.no_semicolon p -> Spec.all_space p = true \/ Spec.comment_led p ->
  Pandas.statements (p +:+ lines_after EmptyString (concat blocks)) =
  flat_map (Spec.polars_dml_statements m) ts.
Proof.
  intros Hclean Hts Hall. revert p.
  induction Hall as [|t b ts blocks Hb Hall IH]; intros p Hp Hd.
  - simpl. rewrite string_app_nil_r. by apply statements_dropped.
  - destruct (Polars_dml_block_statements m t b p Hclean
                (Hts t ltac:(by left)) Hb Hp Hd) as (q & Hq & Hqd & Heq).
    simpl concat. rewrite fold_right_app, Heq. simpl flat_map.
    rewrite (IH (fun t' Ht' => Hts t' ltac:(by right)) q Hq Hqd). done.
Qed.

Lemma polars_dml_statements_parsed (m : frame ColumnMapping)
  (ts : list (string * string)) :
  List.filter (fun s => (10 <=? Py.len s)%nat)
    (flat_map (Spec.polars_dml_statements m) ts) =
  List.filter (Py.startswith "MERGE INTO")
    (flat_map (Spec.polars_dml_statements m) ts).
Proof.
  induction ts as [|t ts IH]; [done|]. simpl flat_map.
  rewrite !List.filter_app, IH. f_equal.
  unfold Spec.polars_dml_statements. cbv zeta.
  destruct (head (rows (sort_by _ _))) as [lead|]; [|done].
  destruct (cell_eq_str _ "TYPE1"); [|by destruct (cell_eq_str _ "TYPE2")].
  destruct (polars_merge_statement_kept (t.1 +:+ "." +:+ t.2)
              (source_schema lead +:+ "." +:+ source_table lead)
              (type1_loop (sort_by target_column_order (rows_of_target m t))))
    as (_ & _ & _ & Hm & Hlen).
  rewrite !filter_cons_if, Hlen, Hm. done.
Qed.

End PolarsBlocks.

(** X15.  The Polars generators checking their own DML script, as the
    command [generate] does, whatever the order in which [unique()] lists
    the targets.  When no text of the mappings and of the time stamp
    holds a semicolon and [generate_dml] returns True, the validator
    finds in the file, block by block in the order of the loop: for a
    Type 1 load the MERGE statement and COMMIT; for a Type 2 load COMMIT
    alone, its UPDATE and its INSERT each standing behind a comment
    line; for an Insert load nothing, the INSERT standing behind the two
    comment lines of the template.  The parser is handed the MERGE
    statements and nothing else. *)
Theorem polars_generated_dml_validation
  (distinct : list (string * string) -> list (string * string))
  (parse_one : string -> parse_outcome)
  (now : string) (self : Polars.generator) (fs : filesystem)
  (output_file : string) (m : frame ColumnMapping) :
  Spec.lists_distinct distinct ->
  Polars.mappings_df self = Some m ->
  Spec.no_semicolon now ->
  (forall r, r ∈ rows m -> Spec.clean_mapping r = true) ->
  (Polars.generate_dml_by distinct now self fs output_file).1.1 = true ->
  exists content,
    (Polars.generate_dml_by distinct now self fs output_file).2 !! output_file
      = Some content
    /\ Polars.unique_targets_by distinct m ≡ₚ Spec.target_pairs (rows m)
    /\ Polars.statements content =
         flat_map (Spec.polars_dml_statements m)
           (Polars.unique_targets_by distinct m)
    /\ Polars.parser_calls (Polars.validate_content parse_one content) =
         List.filter (Py.startswith "MERGE INTO")
           (flat_map (Spec.polars_dml_statements m)
              (Polars.unique_targets_by distinct m)).
Proof.
  intros Hd Hm Hnow Hclean Hrun.
  destruct (Polars_generate_dml_blocks _ _ _ _ _ _ Hm Hrun)
    as (blocks & Hall & ->).
  cbn [fst snd].
  exists (Py.join nl (Polars.dml_banner now ++ concat blocks)).
  split; [apply lookup_insert_eq|].
  split.
  { apply NoDup_Permutation; [apply Hd|apply NoDup_remove_dups|].
    intros p. unfold Polars.unique_targets_by, Spec.target_pairs.
    by rewrite (proj2 (Hd _)), elem_of_remove_dups. }
  assert (Polars.statements
            (Py.join nl (Polars.dml_banner now ++ concat blocks)) =
          flat_map (Spec.polars_dml_statements m)
            (Polars.unique_targets_by distinct m))
    as Hst.
  { rewrite join_app_lines by done.
    apply Polars_dml_blocks_statements; [done| |done| |].
    - intros t Ht. unfold Polars.unique_targets, Polars.unique_targets_by.
      apply elem_of_unique. by apply Hd.
    - unfold Polars.dml_banner. by free.
    - right. exists EmptyString,
        (" AWS Redshift DML Scripts (Incremental Load)" +:+ nl
           +:+ "-- Generated on: " +:+ now +:+ nl
           +:+ "-- " +:+ Py.repeat_char "=" 70 +:+ nl).
      split; reflexivity. }
  split; [done|].
  rewrite Polars_validate_content_spec. cbn [Polars.parser_calls].
  rewrite Hst. apply polars_dml_statements_parsed.
Qed.

Lemma polars_generated_dml_validation_witness :
  exists content merge,
    (Polars.generate_dml_by Sample.last_first Sample.timestamp
       (Polars.Generator None None (Some Sample.three_loads) [])
       ∅ "dml_scripts.sql").2 !! "dml_scripts.sql" = Some content
    /\ Polars.statements content = ["COMMIT"; merge; "COMMIT"]
    /\ Polars.parser_calls
         (Polars.validate_content Sample.drop_only content) = [merge]
    /\ Py.startswith "MERGE INTO dwh.dim_customer AS tgt" merge = true.
Proof.
  destruct (polars_generated_dml_validation Sample.last_first
              Sample.drop_only Sample.timestamp
              (Polars.Generator None None (Some Sample.three_loads) [])
              ∅ "dml_scripts.sql" Sample.three_loads
              lists_distinct_last_first eq_refl eq_refl)
    as (content & Hfile & _ & Hst & Hcalls).
  - apply Forall_forall. repeat constructor.
  - vm_compute. reflexivity.
  - exists content. eexists. split; [exact Hfile|].
    rewrite Hst, Hcalls. split; [|split]; vm_compute; reflexivity.
Defined.

(** ** What the validator sees of a DDL script of the Polars generators *)

Lemma concat_empty_cons (x : string) (l : list string) :
  String.concat EmptyString (x :: l) = x +:+ String.concat EmptyString l.
Proof. destruct l; [by rewrite string_app_nil_r|done]. Qed.

Section PolarsDDLText.

Import Polars.

Lemma Polars_clean_table_facts (t : TableDefinition) :
  Spec.clean_table t = true ->
  Spec.no_semicolon (tbl_schema_name t) /\ Spec.no_semicolon (tbl_table_name t)
  /\ Spec.no_semicolon (str (description t))
  /\ Spec.no_semicolon (str (primary_key t))
  /\ Spec.no_semicolon (str (dist_style t))
  /\ Spec.no_semicolon (str (dist_key t))
  /\ Spec.no_semicolon (str (sort_keys t))
  /\ Spec.no_semicolon (str (sort_type t)).
Proof.
  intros (? & ? & ? & ? & ? & ? & ? & ?)%clean_table_facts.
  repeat split; try done; by apply polars_str_free.
Qed.

Lemma Polars_clean_render_column (c : ColumnDefinition) (last : bool) :
  Spec.clean_column c = true -> Spec.no_semicolon (render_column c last).
Proof.
  unfold Spec.clean_column, Spec.no_semicolon. cbn [forallb].
  rewrite !andb_true_iff. intros (Hn & Ht & Hd & He & _).
  apply polars_str_free in Hd, He.
  unfold render_column, jinja_if.
  destruct (truthy (not_null c)), (truthy (default_value c)),
    (truthy (encode c)), (negb last); by free.
Qed.

(** The CREATE TABLE statement of the template ends in its semicolon;
    what stands before it opens with CREATE TABLE. *)
Lemma render_create_text (tables : frame TableDefinition) (td : table_data) :
  exists body,
    render_create tables td = body +:+ ";"
    /\ Py.startswith "CREATE TABLE" (Py.strip body) = true
    /\ (Spec.clean_table (td_table td) = true ->
        Forall (fun c => Spec.clean_column c = true) (td_columns td) ->
        Spec.no_semicolon body).
Proof.
  exists ("CREATE TABLE "
            +:+ (tbl_schema_name (td_table td) +:+ "."
                 +:+ tbl_table_name (td_table td))
            +:+ " ("
            +:+ (jinja_for render_column (td_columns td)
                 +:+ jinja_if (truthy (primary_key (td_table td)))
                       ("," +:+ nl +:+ "PRIMARY KEY ("
                            +:+ str (primary_key (td_table td)) +:+ ")")
                 +:+ nl +:+ ")"
                 +:+ render_dist (td_table td)
                 +:+ render_sort tables (td_table td))).
  split; [|split].
  - unfold render_create. cbv zeta. by rewrite !string_app_assoc.
  - apply create_prefix_kept.
  - intros (Hs & Hn & _ & Hpk & Hds & Hdk & Hsk & Hst)%Polars_clean_table_facts
      Hcols.
    assert (Spec.no_semicolon (jinja_for render_column (td_columns td))) as Hc.
    { eapply free_jinja_for; [|exact Hcols].
      intros c last. apply Polars_clean_render_column. }
    assert (Spec.no_semicolon (render_dist (td_table td))) as Hdist.
    { unfold render_dist, jinja_if.
      destruct (truthy (dist_style (td_table td))); [|done].
      destruct (cell_eq_str _ "KEY" && truthy _); by free. }
    assert (Spec.no_semicolon (render_sort tables (td_table td))) as Hsort.
    { unfold render_sort, jinja_if, sort_type_or_default.
      destruct (truthy (sort_keys (td_table td))); [|done].
      destruct (has_column "sort_type" tables); by free. }
    unfold jinja_if. destruct (truthy (primary_key (td_table td))); by free.
Qed.

(** The text of a table, cut at its semicolons. *)
Lemma render_table_text (tables : frame TableDefinition) (td : table_data)
  (body : string) :
  render_create tables td = body +:+ ";" ->
  let table := td_table td in
  let full := tbl_schema_name table +:+ "." +:+ tbl_table_name table in
  let head :=
    nl +:+ "--" +:+ " Table: " +:+ full +:+ nl
    +:+ jinja_if (truthy (description table))
          ("-- Description: " +:+ str (description table))
    +:+ nl +:+ "DROP TABLE IF EXISTS " +:+ full +:+ " CASCADE" in
  render_table tables td =
  if truthy (description table)
  then head +:+ ";" +:+ (nl +:+ nl +:+ body)
       +:+ ";" +:+ (nl +:+ "COMMENT ON TABLE " +:+ Spec.full_name table
                    +:+ " IS '" +:+ Py.double_quotes (str (description table))
                    +:+ "'")
       +:+ ";" +:+ (nl +:+ nl)
  else head +:+ ";" +:+ (nl +:+ nl +:+ body) +:+ ";" +:+ (nl +:+ nl).
Proof.
  intros Hbody. cbv zeta. unfold render_table. cbv zeta. rewrite Hbody.
  unfold Spec.full_name, jinja_if.
  generalize (tbl_schema_name (td_table td) +:+ "."
              +:+ tbl_table_name (td_table td)). intros full.
  destruct (truthy (description (td_table td)));
    rewrite ?string_app_assoc; cbn [String.append]; reflexivity.
Qed.

Lemma head_sep (p f x R : string) :
  p +:+ (f +:+ ";" +:+ x) +:+ R = (p +:+ f) +:+ ";" +:+ (x +:+ R).
Proof. by rewrite !string_app_assoc. Qed.

(** What the validator makes of the text of one table, standing behind
    a text [p] that holds no statement of its own. *)
Lemma Polars_ddl_table_statements (tables : frame TableDefinition)
  (columns : frame ColumnDefinition) (table : TableDefinition) (p R : string) :
  Spec.clean_table table = true ->
  (forall c, c ∈ rows columns -> Spec.clean_column c = true) ->
  Spec.no_semicolon p -> Spec.all_space p = true \/ Spec.comment_led p ->
  Pandas.statements
    (p +:+ render_table tables
             (TableData table (rows (columns_of columns table))) +:+ R) =
  Spec.polars_ddl_statements tables columns table
    ++ Pandas.statements ((nl +:+ nl) +:+ R).
Proof.
  intros Ht Hcols Hp Hpd.
  set (td := TableData table (rows (columns_of columns table))).
  destruct (render_create_text tables td) as (body & Hbody & Hkept & Hfree).
  assert (Forall (fun c => Spec.clean_column c = true) (td_columns td)) as Hsel.
  { apply Forall_forall. intros c Hc. apply Hcols.
    unfold td, columns_of in Hc. cbn [td_columns] in Hc.
    by apply elem_of_sort_by, elem_of_select in Hc as [? _]. }
  pose proof (Hfree Ht Hsel) as Hfb.
  destruct (statement_kept _ _ Hkept eq_refl eq_refl) as [Hne Hnc].
  pose proof (Polars_clean_table_facts _ Ht) as (Hs & Hn & Hdesc & _).
  assert (Spec.no_semicolon (tbl_schema_name table +:+ "."
                             +:+ tbl_table_name table)) as Hfull by by free.
  unfold Spec.polars_ddl_statements. cbv zeta. fold td.
  rewrite Hbody, without_last_snoc.
  rewrite (render_table_text tables td body Hbody). cbv zeta.
  cbn [td_table td].
  assert (Py.strip (nl +:+ nl +:+ body) = Py.strip body) as Hstrip.
  { rewrite <- string_app_assoc. by apply strip_lead_space. }
  assert (forall rest,
             Spec.comment_led
               (p +:+ nl +:+ "--" +:+ " Table: " +:+ rest)) as Hled.
  { intros rest. destruct Hpd as [Hsp|Hl]; [|by apply comment_led_app].
    apply comment_led_space_app; [done|].
    by exists nl, (" Table: " +:+ rest). }
  unfold jinja_if.
  destruct (truthy (description table)) eqn:Hd.
  - rewrite head_sep, !app_sep_assoc.
    rewrite statements_dropped_head;
      [|by free|right; rewrite !string_app_assoc; apply Hled].
    rewrite statements_kept_head; rewrite ?Hstrip; [|by free|done|done].
    assert (Spec.no_semicolon (Py.double_quotes (str (description table))))
      as Hq.
    { unfold Spec.no_semicolon. by rewrite free_double_quotes. }
    rewrite statements_kept_head; rewrite ?comment_statement_text; try done.
    unfold Spec.full_name. by free.
  - rewrite head_sep, !app_sep_assoc.
    rewrite statements_dropped_head;
      [|by free|right; rewrite !string_app_assoc; apply Hled].
    rewrite statements_kept_head; rewrite ?Hstrip; [done|by free|done|done].
Qed.

Lemma Polars_ddl_tables_statements (tables : frame TableDefinition)
  (columns : frame ColumnDefinition) (ts : list TableDefinition) (p : string) :
  Forall (fun t => Spec.clean_table t = true) ts ->
  (forall c, c ∈ rows columns -> Spec.clean_column c = true) ->
  Spec.no_semicolon p -> Spec.all_space p = true \/ Spec.comment_led p ->
  Pandas.statements
    (p +:+ String.concat EmptyString
             (map (render_table tables)
                (map (fun t => TableData t (rows (columns_of columns t))) ts))) =
  flat_map (Spec.polars_ddl_statements tables columns) ts.
Proof.
  intros Hts Hcols. revert p.
  induction Hts as [|t ts Ht Hts IH]; intros p Hp Hd.
  - simpl. rewrite string_app_nil_r. by apply statements_dropped.
  - cbn [map]. rewrite concat_empty_cons.
    rewrite (Polars_ddl_table_statements _ _ _ _ _ Ht Hcols Hp Hd).
    cbn [flat_map]. f_equal. apply IH; [reflexivity|by left].
Qed.

Lemma polars_ddl_statements_shape (tables : frame TableDefinition)
  (columns : frame ColumnDefinition) (table : TableDefinition) :
  Forall (fun s => (Py.startswith "CREATE TABLE" s = true
                    \/ Py.startswith "COMMENT ON TABLE" s = true)
                   /\ (10 <=? Py.len s)%nat = true)
    (Spec.polars_ddl_statements tables columns table).
Proof.
  unfold Spec.polars_ddl_statements. cbv zeta.
  destruct (render_create_text tables
              (TableData table (rows (columns_of columns table))))
    as (body & -> & Hkept & _).
  rewrite without_last_snoc. constructor.
  - split; [by left|]. apply Nat.leb_le.
    apply startswith_length in Hkept. simpl in Hkept. lia.
  - destruct (truthy (description table)); constructor; [|constructor].
    split; [by right|]. reflexivity.
Qed.

End PolarsDDLText.

(** X16.  The Polars generators checking their own DDL script, as the
    command [generate] does.  When no text of the table and column
    records and of the time stamp holds a semicolon, the validator
    finds in the file that [generate_ddl] wrote, for every table, with
    or without columns, the CREATE TABLE statement and, if the table
    has a description, the COMMENT statement.  Every DROP TABLE
    statement shares its fragment with the comment lines of the table
    that precede it and is skipped as a comment: the parser never sees
    one. *)
Theorem polars_generated_ddl_validation (parse_one : string -> parse_outcome)
  (now : string) (self : Polars.generator) (fs : filesystem)
  (output_file : string)
  (tables : frame TableDefinition) (columns : frame ColumnDefinition) :
  Polars.tables_df self = Some tables ->
  Polars.columns_df self = Some columns ->
  Spec.no_semicolon now ->
  (forall t, t ∈ rows tables -> Spec.clean_table t = true) ->
  (forall c, c ∈ rows columns -> Spec.clean_column c = true) ->
  exists content,
    (Polars.generate_ddl now self fs output_file).2 !! output_file
      = Some content
    /\ Polars.statements content =
         flat_map (Spec.polars_ddl_statements tables columns) (rows tables)
    /\ length (Polars.statements content) >= length (rows tables)
    /\ Polars.parser_calls (Polars.validate_content parse_one content) =
         Polars.statements content
    /\ Forall (fun s => Py.startswith "CREATE TABLE" s = true
                        \/ Py.startswith "COMMENT ON TABLE" s = true)
         (Polars.statements content).
Proof.
  intros Ht Hc Hnow Htables Hcols. unfold Polars.generate_ddl.
  rewrite Ht, Hc. cbn [fst snd].
  exists (Polars.render_ddl tables (Polars.tables_data tables columns) now).
  split; [apply lookup_insert_eq|].
  assert (Polars.statements
            (Polars.render_ddl tables (Polars.tables_data tables columns) now) =
          flat_map (Spec.polars_ddl_statements tables columns) (rows tables))
    as Hst.
  { unfold Polars.render_ddl, Polars.tables_data.
    replace ("-- AWS Redshift DDL Scripts" +:+ nl
             +:+ "-- Generated on: " +:+ now +:+ nl
             +:+ "-- " +:+ Py.repeat_char "=" 70 +:+ nl +:+ nl
             +:+ String.concat EmptyString
                   (map (Polars.render_table tables)
                      (map (fun t => Polars.TableData t
                                       (rows (Polars.columns_of columns t)))
                         (rows tables))))
      with (("-- AWS Redshift DDL Scripts" +:+ nl
             +:+ "-- Generated on: " +:+ now +:+ nl
             +:+ "-- " +:+ Py.repeat_char "=" 70 +:+ nl +:+ nl)
            +:+ String.concat EmptyString
                  (map (Polars.render_table tables)
                     (map (fun t => Polars.TableData t
                                      (rows (Polars.columns_of columns t)))
                        (rows tables))))
      by (by rewrite !string_app_assoc).
    apply Polars_ddl_tables_statements; [by apply Forall_forall|done| |].
    - by free.
    - right. exists EmptyString,
        (" AWS Redshift DDL Scripts" +:+ nl +:+ "-- Generated on: " +:+ now
           +:+ nl +:+ "-- " +:+ Py.repeat_char "=" 70 +:+ nl +:+ nl).
      split; reflexivity. }
  assert (Forall (fun s => (Py.startswith "CREATE TABLE" s = true
                            \/ Py.startswith "COMMENT ON TABLE" s = true)
                           /\ (10 <=? Py.len s)%nat = true)
            (flat_map (Spec.polars_ddl_statements tables columns) (rows tables)))
    as Hshape.
  { apply Forall_forall. intros s Hs.
    apply list_elem_of_In, in_flat_map in Hs as (t & _ & Hs).
    pose proof (polars_ddl_statements_shape tables columns t) as H.
    rewrite Forall_forall in H. by apply H, list_elem_of_In. }
  split; [done|]. split.
  { rewrite Hst. clear. induction (rows tables) as [|t ts IH]; [simpl; lia|].
    cbn [flat_map]. rewrite length_app.
    unfold Spec.polars_ddl_statements at 1. cbv zeta. cbn [length]. lia. }
  rewrite Polars_validate_content_spec.
  cbn [Polars.parser_calls]. rewrite Hst. split.
  - clear Hst. induction Hshape as [|s l [_ Hs] Hl IH]; [done|].
    rewrite filter_cons_if. cbv beta. rewrite Hs. by rewrite IH.
  - eapply Forall_impl; [exact Hshape|]. by intros s [? _].
Qed.

Lemma polars_generated_ddl_validation_witness :
  exists content,
    (Polars.generate_ddl Sample.timestamp
       (Sample.polars_generator [Sample.dim_orphan]) ∅ "ddl_scripts.sql").2
      !! "ddl_scripts.sql" = Some content
    /\ Polars.statements content = ["CREATE TABLE dwh.dim_orphan (" +:+ nl +:+ ")"].
Proof.
  destruct (polars_generated_ddl_validation Sample.drop_only Sample.timestamp
              (Sample.polars_generator [Sample.dim_orphan]) ∅ "ddl_scripts.sql"
              (Frame Sample.table_columns [Sample.dim_orphan])
              Sample.customer_columns eq_refl eq_refl eq_refl)
    as (content & Hfile & Hst & _).
  - apply Forall_forall. repeat constructor.
  - apply Forall_forall. repeat constructor.
  - exists content. split; [exact Hfile|]. rewrite Hst. vm_compute. reflexivity.
Defined.

(** ** What the methods leave alone *)

(** X17.  The methods only add to what is there.  Whatever a method of
    either generator returns, the errors recorded before the call are
    still there, in order, at the head of the list; the file system
    differs from the one before the call at most in the output file
    (the validators change nothing at all); and the loaded frames are
    untouched by generation and validation. *)
Theorem methods_only_add (parse_one : string -> parse_outcome)
  (now file other : string) (fs : filesystem) :
  other <> file ->
  (forall self res,
      Pandas.generate_ddl now self fs file = Returned res ->
      Pandas.errors self `prefix_of` Pandas.errors res.1.2
      /\ res.2 !! other = fs !! other
      /\ Pandas.tables_df res.1.2 = Pandas.tables_df self
      /\ Pandas.columns_df res.1.2 = Pandas.columns_df self
      /\ Pandas.mappings_df res.1.2 = Pandas.mappings_df self)
  /\ (forall self res,
         Pandas.generate_dml now self fs file = Returned res ->
         Pandas.errors self `prefix_of` Pandas.errors res.1.2
         /\ res.2 !! other = fs !! other
         /\ Pandas.tables_df res.1.2 = Pandas.tables_df self
         /\ Pandas.columns_df res.1.2 = Pandas.columns_df self
         /\ Pandas.mappings_df res.1.2 = Pandas.mappings_df self)
  /\ (forall self,
         let res := Pandas.validate_sql parse_one self fs file in
         Pandas.errors self `prefix_of` Pandas.errors res.1.2
         /\ res.2 = fs
         /\ Pandas.tables_df res.1.2 = Pandas.tables_df self
         /\ Pandas.columns_df res.1.2 = Pandas.columns_df self
         /\ Pandas.mappings_df res.1.2 = Pandas.mappings_df self)
  /\ (forall self,
         let res := Polars.generate_ddl now self fs file in
         Polars.errors self `prefix_of` Polars.errors res.1.2
         /\ res.2 !! other = fs !! other
         /\ Polars.tables_df res.1.2 = Polars.tables_df self
         /\ Polars.columns_df res.1.2 = Polars.columns_df self
         /\ Polars.mappings_df res.1.2 = Polars.mappings_df self)
  /\ (forall self,
         let res := Polars.generate_dml now self fs file in
         Polars.errors self `prefix_of` Polars.errors res.1.2
         /\ res.2 !! other = fs !! other
         /\ Polars.tables_df res.1.2 = Polars.tables_df self
         /\ Polars.columns_df res.1.2 = Polars.columns_df self
         /\ Polars.mappings_df res.1.2 = Polars.mappings_df self)
  /\ (Polars.validate_sql_file parse_one fs file).2 = fs.
Proof.
  intros Hother.
  assert (forall content : string,
             <[file := content]> fs !! other = fs !! other) as Hfs.
  { intros content. by apply lookup_insert_ne. }
  split; [|split; [|split; [|split; [|split]]]].
  - intros self res. unfold Pandas.generate_ddl.
    destruct (Pandas.tables_df self) as [tables|] eqn:Ht;
      [destruct (Pandas.columns_df self) as [columns|] eqn:Hc|].
    + intros (st & Hloop & [= <-])%bind_Returned.
      destruct (for_each_blocks2 _ _ _ _
                  (Pandas_ddl_table_acc columns tables) Hloop)
        as (blocks & _ & ->).
      cbn [fst snd Pandas.errors Pandas.set_errors Pandas.tables_df
           Pandas.columns_df Pandas.mappings_df].
      split; [by apply prefix_app_r|]. by rewrite Hfs.
    + intros [= <-]. cbn [fst snd Pandas.errors Pandas.add_error
        Pandas.set_errors Pandas.tables_df Pandas.columns_df
        Pandas.mappings_df].
      split; [by apply prefix_app_r|done].
    + intros [= <-]. cbn [fst snd Pandas.errors Pandas.add_error
        Pandas.set_errors Pandas.tables_df Pandas.columns_df
        Pandas.mappings_df].
      split; [by apply prefix_app_r|done].
  - intros self res. unfold Pandas.generate_dml.
    destruct (Pandas.mappings_df self) as [m|] eqn:Hm.
    + intros (scripts & _ & [= <-])%bind_Returned. cbn [fst snd].
      by rewrite Hfs.
    + intros [= <-]. cbn [fst snd Pandas.errors Pandas.add_error
        Pandas.set_errors Pandas.tables_df Pandas.columns_df
        Pandas.mappings_df].
      split; [by apply prefix_app_r|done].
  - intros self. cbv zeta. unfold Pandas.validate_sql.
    destruct (Pandas.read_file fs file) as [content|e];
      cbn [fst snd Pandas.errors Pandas.add_error Pandas.set_errors
           Pandas.tables_df Pandas.columns_df Pandas.mappings_df].
    + rewrite Pandas_validate_content_spec. cbn [Pandas.val_errors].
      split; [by apply prefix_app_r|done].
    + split; [by apply prefix_app_r|done].
  - intros self. cbv zeta. unfold Polars.generate_ddl.
    destruct (Polars.tables_df self) as [tables|] eqn:Ht;
      [destruct (Polars.columns_df self) as [columns|] eqn:Hc|];
      cbn [fst snd Polars.errors Polars.add_error Polars.set_errors
           Polars.tables_df Polars.columns_df Polars.mappings_df];
      rewrite ?Hfs; (split; [by apply prefix_app_r|done]) || done.
  - intros self. cbv zeta. unfold Polars.generate_dml, Polars.generate_dml_by.
    destruct (Polars.mappings_df self) as [m|] eqn:Hm;
      [destruct (for_each _ _ _)|];
      cbn [fst snd Polars.errors Polars.add_error Polars.set_errors
           Polars.tables_df Polars.columns_df Polars.mappings_df];
      rewrite ?Hfs; (split; [by apply prefix_app_r|done]) || done.
  - apply Polars_validate_sql_file_fs.
Qed.

Lemma methods_only_add_witness :
  (Polars.validate_sql_file Sample.drop_only Sample.sample_fs
     "ddl_scripts.sql").2 = Sample.sample_fs.
Proof.
  apply (methods_only_add Sample.drop_only Sample.timestamp
           "ddl_scripts.sql" "dml_scripts.sql" Sample.sample_fs).
  discriminate.
Defined.

(** ** The column lines of the two generators *)

(** X18.  One column, two generators.  When the default_value and
    encode cells of a column record are empty or count as true, the
    line of the column in the template of the Polars generators is the
    line of [sqlcodegen.py] without its indentation, followed by a comma
    unless the column is the last one.  The two differ when such a cell
    holds 0, False or the empty text: [sqlcodegen.py] tests whether the
    cell is present and writes the clause, the template tests whether
    it counts as true and leaves the clause out. *)
Theorem column_line_agreement (c : ColumnDefinition) (last : bool) :
  let comma := if last then EmptyString else "," in
  (Spec.plain (default_value c) -> Spec.plain (encode c) ->
   exists line,
     Pandas.col_def c = "    " +:+ line
     /\ Polars.render_column c last = nl +:+ line +:+ comma)
  /\ (forall z, default_value c = CInt z -> encode c = CNull ->
        let line :=
          column_name c +:+ " " +:+ data_type c
          +:+ (if notna (not_null c) && truthy (not_null c)
               then " NOT NULL" else EmptyString) in
        Pandas.col_def c = "    " +:+ line +:+ " DEFAULT " +:+ pretty z
        /\ Polars.render_column c last =
           nl +:+ line
           +:+ (if bool_decide (z = 0%Z) then EmptyString
                else " DEFAULT " +:+ pretty z)
           +:+ comma).
Proof.
  cbv zeta. split.
  - intros Hd He.
    exists (column_name c +:+ " " +:+ data_type c
            +:+ (if truthy (not_null c) then " NOT NULL" else EmptyString)
            +:+ (if truthy (default_value c)
                 then " DEFAULT " +:+ Polars.str (default_value c)
                 else EmptyString)
            +:+ (if truthy (encode c)
                 then " ENCODE " +:+ Polars.str (encode c) else EmptyString)).
    unfold Pandas.col_def, Polars.render_column, Polars.jinja_if. cbv zeta.
    rewrite <- (plain_truthy _ Hd), <- (plain_truthy _ He).
    assert (notna (not_null c) && truthy (not_null c) = truthy (not_null c))
      as -> by by destruct (not_null c).
    assert (forall x, truthy x = true -> Pandas.str x = Polars.str x) as Hstr
      by by intros [].
    destruct (truthy (not_null c)), (truthy (default_value c)) eqn:E1,
      (truthy (encode c)) eqn:E2, last;
      rewrite ?(Hstr _ E1), ?(Hstr _ E2); cbn [negb];
      rewrite ?string_app_assoc, ?string_app_nil_r; by cbn [String.append].
  - intros z Hd He.
    unfold Pandas.col_def, Polars.render_column, Polars.jinja_if. cbv zeta.
    rewrite Hd, He. cbn [notna truthy Pandas.str Polars.str py_str].
    assert (notna (not_null c) && truthy (not_null c) = truthy (not_null c))
      as -> by by destruct (not_null c).
    assert (negb (z =? 0)%Z = negb (bool_decide (z = 0%Z))) as Hz.
    { f_equal. destruct (Z.eqb_spec z 0).
      - by rewrite bool_decide_true by done.
      - by rewrite bool_decide_false by done. }
    destruct (truthy (not_null c)), (bool_decide (z = 0%Z)) eqn:E, last;
      try rewrite Hz; cbn [negb];
      rewrite ?string_app_assoc, ?string_app_nil_r; by cbn [String.append].
Qed.

Lemma column_line_agreement_witness :
  exists line,
    Pandas.col_def (Sample.column "customer_key" 1 "BIGINT" true)
      = "    " +:+ line
    /\ Polars.render_column (Sample.column "customer_key" 1 "BIGINT" true) false
       = nl +:+ line +:+ ",".
Proof.
  apply (proj1 (column_line_agreement
                  (Sample.column "customer_key" 1 "BIGINT" true) false));
    reflexivity.
Defined.
